(** * Model comparison pipeline: a shallow embedding of
    [backend/ml_pipeline.py], [backend/routes.py], [backend/data_loader.py],
    [backend/email_service.py] and [train_model] of
    [backend/ml_engine/pipeline.py].

    Conventions of the embedding.
    - A finite Python float is the rational number ([Q]) that it denotes;
      the only non-finite value that the code meets, the [nan] of a mean
      over nothing, is kept as [NaN].  The libraries return floats;
      [round(x, k)] is taken on the exact value of [x] and stands for the
      decimal with [k] places that it prints; a quotient of two
      integers is rounded to the nearest double ([round_double]); the
      differences and the sum of clock readings are taken exactly.
    - A Python [str] is a sequence of code points; a [string] holds its
      UTF-8 bytes.  The character classes of [re] and [str.strip], and
      [str.lower], come from Python's Unicode tables, which are fields of
      [Library].
    - scikit-learn, NumPy and the CSV reader are not part of the repository:
      they are the fields of the class [Library], deterministic oracles that
      may raise.
    - Python objects that are shared by reference (vectorizers, pipelines and
      classifiers) live in a heap; module globals and cache entries hold
      references.
    - [time.time()] reads a clock that is part of the state. *)

From Stdlib Require Import ZArith QArith Qabs Lia Lqa Psatz List Bool Ascii String Sorting.Sorted.
From stdpp Require Import base list strings.

Local Open Scope string_scope.
Local Open Scope list_scope.

(** ** Numbers *)

Module PyNum.

(** Nearest integer, ties to the even neighbour. *)
Definition round_half_even (x : Q) : Z :=
  let n := Qnum x in
  let d := Z.pos (Qden x) in
  let f := (n / d)%Z in
  let r := (n mod d)%Z in
  match (2 * r ?= d)%Z with
  | Lt => f
  | Gt => (f + 1)%Z
  | Eq => if Z.even f then f else (f + 1)%Z
  end.

(** [ten_pow n] is [10 ^ n] as a positive number ([ten_pow 0 = 1]). *)
Fixpoint ten_pow (ndigits : nat) : positive :=
  match ndigits with
  | O => 1%positive
  | S n => (10 * ten_pow n)%positive
  end.

(** Python's [round(x, ndigits)] on the exact value of [x]. *)
Definition round_ndigits (x : Q) (ndigits : nat) : Q :=
  Qmake (round_half_even (x * inject_Z (Z.pos (ten_pow ndigits)))) (ten_pow ndigits).

(** A float that may be [nan]. *)
Inductive pyfloat : Type :=
| Fin (q : Q)
| NaN.

(** Truth value of a float: [0.0] is false, everything else (also [nan]) is
    true. *)
Definition float_truthy (x : pyfloat) : bool :=
  match x with
  | Fin q => negb (Qeq_bool q 0)
  | NaN => true
  end.

Definition float_round (x : pyfloat) (ndigits : nat) : pyfloat :=
  match x with
  | Fin q => Fin (round_ndigits q ndigits)
  | NaN => NaN
  end.

(** Truth value of [confidence], which is [None] or a float. *)
Definition truthy (c : option pyfloat) : bool :=
  match c with
  | Some x => float_truthy x
  | None => false
  end.

Definition Qmax (a b : Q) : Q := if Qle_bool a b then b else a.

Fixpoint max_list (x : Q) (l : list Q) : Q :=
  match l with
  | [] => x
  | y :: l' => max_list (Qmax x y) l'
  end.

Definition Qsum (l : list Q) : Q := fold_right Qplus 0%Q l.

(** *** Doubles

    [round_double x] is the double nearest to [x], ties to the even
    significand: 53 significant bits.  The exponent range is not bounded;
    the quotients rounded here lie in [0, 1] and are rounded to four decimals
    afterwards, which hides an underflow. *)

(** For [n / d > 0]: the exponent [e] with [2 ^ e <= n / d < 2 ^ (e + 1)]. *)
Definition binade (n : Z) (d : positive) : Z :=
  let k := (Z.log2 n - Z.log2 (Z.pos d))%Z in
  if (if (0 <=? k)%Z
      then (2 ^ k * Z.pos d <=? n)%Z
      else (Z.pos d <=? 2 ^ (- k) * n)%Z)
  then k
  else (k - 1)%Z.

(** The multiple of [2 ^ q] nearest to [x]. *)
Definition round_to (q : Z) (x : Q) : Q :=
  if (0 <=? q)%Z
  then inject_Z (round_half_even (x / inject_Z (2 ^ q)) * 2 ^ q)
  else Qmake (round_half_even (x * inject_Z (2 ^ (- q)))) (Z.to_pos (2 ^ (- q))).

Definition round_double (x : Q) : Q :=
  match Qnum x with
  | Z0 => 0
  | Zpos _ => round_to (binade (Qnum x) (Qden x) - 52) x
  | Zneg _ => - round_to (binade (- Qnum x) (Qden x) - 52) (- x)
  end.

(** [a / b] on two integers, [b] not 0. *)
Definition int_truediv (a b : Z) : Q := round_double (inject_Z a / inject_Z b).

End PyNum.
Export PyNum.

(** ** Exceptions and HTTP responses *)

Inductive exn_class : Type :=
| ValueError
| KeyError
| AttributeError
| IndexError
| NotFittedError      (* sklearn.exceptions.NotFittedError(ValueError, AttributeError) *)
| RuntimeError
| OtherException (name : string).

(** An exception: its class and [str(e)]. *)
Record exn : Type := Exn { exn_cls : exn_class; exn_msg : string }.

(** [isinstance(e, ValueError)], what [except ValueError] tests. *)
Definition isinstance_ValueError (e : exn) : bool :=
  match exn_cls e with
  | ValueError | NotFittedError => true
  | _ => false
  end.

(** What an endpoint gives back: a body, or [HTTPException(status, detail)]. *)
Inductive response (A : Type) : Type :=
| Ok (body : A)
| HTTPException (status_code : nat) (detail : string).
Arguments Ok {A} body.
Arguments HTTPException {A} status_code detail.

(** ** Constructor arguments of the scikit-learn objects the code creates *)

Record tfidf_params : Type := TfidfParams {
  tfidf_max_features : N;
  tfidf_ngram_range : nat * nat;
  sublinear_tf : bool }.

Record pipeline_params : Type := PipelineParams {
  count_max_features : N;
  count_ngram_range : nat * nat;
  svd_n_components : N;
  svd_random_state : option N;
  normalizer_copy : bool }.

Inductive estimator : Type :=
| MultinomialNB (alpha : Q)
| GaussianNB
| LinearSVC (max_iter : N) (random_state : option N) (C : Q)
| CalibratedClassifierCV (base : estimator) (cv : N)
| LogisticRegression (max_iter : N) (random_state : option N) (C : Q)
| SVC (kernel : string) (probability : bool) (max_iter : N)
| XGBClassifier (n_estimators max_depth : N) (learning_rate : Q).

(** ** The libraries the code calls

    Every method is a function of the receiver's fitted state and of its
    arguments, and may raise. *)

Class Library : Type := {
  Matrix : Type;
  TfidfState : Type;
  EmbeddingState : Type;
  ClfState : Type;
  ScalerState : Type;
  FfnState : Type;
  (* TfidfVectorizer *)
  tfidf_fit_transform : tfidf_params -> list string -> exn + (TfidfState * Matrix);
  tfidf_transform : TfidfState -> list string -> exn + Matrix;
  (* make_pipeline(CountVectorizer, TruncatedSVD, Normalizer) *)
  pipeline_fit_transform : pipeline_params -> list string -> exn + (EmbeddingState * Matrix);
  pipeline_transform : EmbeddingState -> list string -> exn + Matrix;
  (* classifiers *)
  estimator_fit : estimator -> Matrix -> list Z -> exn + ClfState;
  estimator_predict : ClfState -> Matrix -> exn + list Z;
  has_predict_proba : estimator -> bool;
  estimator_predict_proba : ClfState -> Matrix -> exn + list (list Q);
  (* numpy.mean of a one-dimensional array of floats *)
  np_mean : list Q -> pyfloat;
  (* sklearn.metrics, called with zero_division=0 *)
  accuracy_score : list Z -> list Z -> exn + Q;
  precision_score : list Z -> list Z -> exn + Q;
  recall_score : list Z -> list Z -> exn + Q;
  f1_score : list Z -> list Z -> exn + Q;
  confusion_matrix : list Z -> list Z -> exn + list (list Z);
  f1_score_weighted : list Z -> list Z -> exn + Q;
  (* MinMaxScaler *)
  minmax_fit_transform : Matrix -> exn + (ScalerState * Matrix);
  minmax_transform : ScalerState -> Matrix -> exn + Matrix;
  (* the torch network of ml_engine, one random draw fixed *)
  ffn_fit : Matrix -> list Z -> nat -> exn + FfnState;
  ffn_predict : FfnState -> Matrix -> exn + list Z;
  (* data_loader.get_train_test_split: pandas over the CSV files *)
  get_train_test_split :
    string -> exn + (list string * list string * list Z * list Z);
  (* Python's Unicode tables: [str.isspace] and [\s] of [re], [\w] of [re],
     and [str.lower()], on code points *)
  unicode_isspace : N -> bool;
  unicode_isword : N -> bool;
  str_lower : list N -> list N }.

(** ** Seeds

    A fit that draws random numbers is reproducible when it is given a
    [random_state]; [MultinomialNB] and [GaussianNB] draw none.  [reseeded]
    is the library of another run of the process: every call answers as
    before, but a fit that is not given a seed may answer differently. *)

Definition has_seed (random_state : option N) : bool :=
  match random_state with
  | Some _ => true
  | None => false
  end.

Fixpoint seeded (e : estimator) : bool :=
  match e with
  | MultinomialNB _ | GaussianNB => true
  | LinearSVC _ random_state _ => has_seed random_state
  | CalibratedClassifierCV base _ => seeded base
  | LogisticRegression _ random_state _ => has_seed random_state
  | SVC _ _ _ | XGBClassifier _ _ _ => false
  end.

Definition seeded_pipeline (p : pipeline_params) : bool :=
  has_seed (svd_random_state p).

Section Reseeded.
Context (L : Library).
Variable other_fit : estimator -> Matrix -> list Z -> exn + ClfState.
Variable other_pipeline_fit :
  pipeline_params -> list string -> exn + (EmbeddingState * Matrix).

Definition reseeded : Library := {|
  Matrix := @Matrix L;
  TfidfState := @TfidfState L;
  EmbeddingState := @EmbeddingState L;
  ClfState := @ClfState L;
  ScalerState := @ScalerState L;
  FfnState := @FfnState L;
  tfidf_fit_transform := tfidf_fit_transform;
  tfidf_transform := tfidf_transform;
  pipeline_fit_transform := fun p docs =>
    if seeded_pipeline p then pipeline_fit_transform p docs
    else other_pipeline_fit p docs;
  pipeline_transform := pipeline_transform;
  estimator_fit := fun e X y =>
    if seeded e then estimator_fit e X y else other_fit e X y;
  estimator_predict := estimator_predict;
  has_predict_proba := has_predict_proba;
  estimator_predict_proba := estimator_predict_proba;
  np_mean := np_mean;
  accuracy_score := accuracy_score;
  precision_score := precision_score;
  recall_score := recall_score;
  f1_score := f1_score;
  confusion_matrix := confusion_matrix;
  f1_score_weighted := f1_score_weighted;
  minmax_fit_transform := minmax_fit_transform;
  minmax_transform := minmax_transform;
  ffn_fit := ffn_fit;
  ffn_predict := ffn_predict;
  get_train_test_split := get_train_test_split;
  unicode_isspace := unicode_isspace;
  unicode_isword := unicode_isword;
  str_lower := str_lower |}.
End Reseeded.

(** ** Python dictionaries with string keys, in insertion order *)

Module PyDict.
Section dict.
Context {V : Type}.

Definition dict : Type := list (string * V).

Fixpoint get (k : string) (d : dict) : option V :=
  match d with
  | [] => None
  | (k', v) :: d' => if String.eqb k k' then Some v else get k d'
  end.

(** [k in d] *)
Definition mem (k : string) (d : dict) : bool :=
  match get k d with Some _ => true | None => false end.

(** [d[k] = v]: an existing key keeps its place, a new key goes last. *)
Fixpoint set (k : string) (v : V) (d : dict) : dict :=
  match d with
  | [] => [(k, v)]
  | (k', v') :: d' =>
      if String.eqb k k' then (k, v) :: d' else (k', v') :: set k v d'
  end.

(** Iteration order of [for k in d]. *)
Definition keys (d : dict) : list string := map fst d.
End dict.
Arguments dict V : clear implicits.
End PyDict.

(** ** Strings: [str.title], [str.replace], [str.strip] *)

Module PyStr.

Definition code (c : ascii) : nat := nat_of_ascii c.

Definition is_upper (c : ascii) : bool := (65 <=? code c)%nat && (code c <=? 90)%nat.
Definition is_lower (c : ascii) : bool := (97 <=? code c)%nat && (code c <=? 122)%nat.
Definition is_digit (c : ascii) : bool := (48 <=? code c)%nat && (code c <=? 57)%nat.
Definition to_lower (c : ascii) : ascii :=
  if is_upper c then ascii_of_nat (code c + 32) else c.
Definition to_upper (c : ascii) : ascii :=
  if is_lower c then ascii_of_nat (code c - 32) else c.

(** [s.replace(a, b)] for single characters. *)
Definition replace_char (a b : ascii) (s : string) : string :=
  string_of_list_ascii
    (map (fun c => if Ascii.eqb c a then b else c) (list_ascii_of_string s)).

Fixpoint title_aux (prev_cased : bool) (s : list ascii) : list ascii :=
  match s with
  | [] => []
  | c :: s' =>
      if is_upper c || is_lower c
      then (if prev_cased then to_lower c else to_upper c) :: title_aux true s'
      else c :: title_aux false s'
  end.

(** [s.title()] *)
Definition title (s : string) : string :=
  string_of_list_ascii (title_aux false (list_ascii_of_string s)).

(** *** Code points

    The UTF-8 bytes of a [str] and its code points.  A lead byte takes the
    continuation bytes that follow it; bytes out of place are kept as they
    are.  An ASCII character is one byte, its own code point. *)

Definition cont (c : ascii) : N := (N_of_ascii c mod 64)%N.

Fixpoint decode (l : list ascii) : list N :=
  match l with
  | [] => []
  | b :: l1 =>
      let n := N_of_ascii b in
      if (n <? 192)%N then n :: decode l1
      else if (n <? 224)%N then
        match l1 with
        | c1 :: l2 => ((n mod 32) * 64 + cont c1)%N :: decode l2
        | [] => [n]
        end
      else if (n <? 240)%N then
        match l1 with
        | c1 :: c2 :: l3 =>
            (((n mod 16) * 64 + cont c1) * 64 + cont c2)%N :: decode l3
        | _ => n :: decode l1
        end
      else
        match l1 with
        | c1 :: c2 :: c3 :: l4 =>
            ((((n mod 8) * 64 + cont c1) * 64 + cont c2) * 64 + cont c3)%N
            :: decode l4
        | _ => n :: decode l1
        end
  end.

Definition encode1 (p : N) : list ascii :=
  if (p <? 128)%N then [ascii_of_N p]
  else if (p <? 2048)%N then
    [ascii_of_N (192 + p / 64); ascii_of_N (128 + p mod 64)]
  else if (p <? 65536)%N then
    [ascii_of_N (224 + p / 4096); ascii_of_N (128 + (p / 64) mod 64);
     ascii_of_N (128 + p mod 64)]
  else
    [ascii_of_N (240 + (p / 262144) mod 8); ascii_of_N (128 + (p / 4096) mod 64);
     ascii_of_N (128 + (p / 64) mod 64); ascii_of_N (128 + p mod 64)].

Definition encode (l : list N) : list ascii := flat_map encode1 l.

(** The code points of a [str], and the [str] of a list of code points. *)
Definition points (s : string) : list N := decode (list_ascii_of_string s).
Definition of_points (l : list N) : string := string_of_list_ascii (encode l).

(** [a-z] *)
Definition is_az (p : N) : bool := (97 <=? p)%N && (p <=? 122)%N.

(** The space, U+0020. *)
Definition SP : N := 32%N.

Fixpoint is_prefix (p l : list N) : option (list N) :=
  match p, l with
  | [], _ => Some l
  | a :: p', b :: l' => if N.eqb a b then is_prefix p' l' else None
  | _ :: _, [] => None
  end.

Definition next_is (f : N -> bool) (l : list N) : bool :=
  match l with
  | c :: _ => f c
  | [] => false
  end.

Section Unicode.
Context {L : Library}.

(** [\S] *)
Definition not_space (p : N) : bool := negb (unicode_isspace p).

(** A match of [http\S+|www\.\S+] starts at the head of [l]: one of the two
    four-letter prefixes, and a character that is not white space. *)
Definition url_starts (l : list N) : bool :=
  match is_prefix (points "http") l with
  | Some rest => next_is not_space rest
  | None => false
  end
  || match is_prefix (points "www.") l with
     | Some rest => next_is not_space rest
     | None => false
     end.

(** [re.sub(r"http\S+|www\.\S+", "", text)]: [skip] characters of a prefix
    are still to be dropped; [inside] is true while the greedy [\S+] of a
    match is being consumed. *)
Fixpoint remove_urls (skip : nat) (inside : bool) (l : list N) : list N :=
  match l with
  | [] => []
  | c :: l' =>
      match skip with
      | S k => remove_urls k true l'
      | O =>
          if inside && not_space c then remove_urls 0 true l'
          else if url_starts l then remove_urls 3 true l'
          else c :: remove_urls 0 false l'
      end
  end.

(** [re.sub(r"@\w+", "", text)] *)
Fixpoint remove_mentions (inside : bool) (l : list N) : list N :=
  match l with
  | [] => []
  | c :: l' =>
      if inside && unicode_isword c then remove_mentions true l'
      else if N.eqb c 64 && next_is unicode_isword l' then remove_mentions true l'
      else c :: remove_mentions false l'
  end.

(** [re.sub(r"[^a-z\s]", "", text)] *)
Definition keep_letters (l : list N) : list N :=
  List.filter (fun c => is_az c || unicode_isspace c) l.

(** [re.sub(r"\s+", " ", text)] *)
Fixpoint collapse_ws (inside : bool) (l : list N) : list N :=
  match l with
  | [] => []
  | c :: l' =>
      if unicode_isspace c
      then (if inside then collapse_ws true l' else SP :: collapse_ws true l')
      else c :: collapse_ws false l'
  end.

Fixpoint lstrip (l : list N) : list N :=
  match l with
  | c :: l' => if unicode_isspace c then lstrip l' else l
  | [] => []
  end.

Definition strip_list (l : list N) : list N :=
  rev (lstrip (rev (lstrip l))).

(** [s.strip()] *)
Definition strip (s : string) : string := of_points (strip_list (points s)).
End Unicode.

End PyStr.

(** ** [data_loader.clean_text] *)

Definition clean_text {L : Library} (text : string) : string :=
  let text := str_lower (PyStr.points text) in
  let text := PyStr.remove_urls 0 false text in
  let text := PyStr.remove_mentions false text in
  let text := PyStr.keep_letters text in
  let text := PyStr.strip_list (PyStr.collapse_ws false text) in
  PyStr.of_points text.

(** ** [MODEL_CONFIGS] *)

Record config : Type := Config {
  cfg_display_name : string;
  cfg_feature : string;
  cfg_classifier : string;
  cfg_description : string }.

Definition MODEL_CONFIGS : PyDict.dict config :=
  [ ("tfidf_naive_bayes",
     Config "TF-IDF + Naive Bayes" "tfidf" "naive_bayes"
       "Multinomial Naive Bayes with TF-IDF features — fast probabilistic baseline");
    ("tfidf_svm",
     Config "TF-IDF + SVM" "tfidf" "svm"
       "Linear SVM with TF-IDF features — strong margin-based classifier");
    ("tfidf_logistic_regression",
     Config "TF-IDF + Logistic Regression" "tfidf" "logistic_regression"
       "Logistic Regression with TF-IDF — interpretable linear model");
    ("w2v_naive_bayes",
     Config "Word Embeddings + Naive Bayes" "word_embeddings" "naive_bayes"
       "Gaussian Naive Bayes with dense LSA embeddings — semantic feature baseline");
    ("w2v_svm",
     Config "Word Embeddings + SVM" "word_embeddings" "svm"
       "Linear SVM with dense LSA embeddings — semantic margin classifier");
    ("w2v_logistic_regression",
     Config "Word Embeddings + Logistic Regression" "word_embeddings" "logistic_regression"
       "Logistic Regression with dense LSA embeddings — interpretable semantic model") ].

(** ** The dictionaries the functions return *)

Record metrics : Type := Metrics {
  m_accuracy : Q;
  m_precision : Q;
  m_recall : Q;
  m_f1_score : Q }.

Record timing : Type := Timing {
  feature_extraction_sec : Q;
  training_sec : Q;
  prediction_sec : Q;
  total_sec : Q }.

(** The dictionary returned by [ml_pipeline.train_model]; [dataset_id] is
    added by the endpoint. *)
Record result : Type := Result {
  model_key : string;
  display_name : string;
  description : string;
  feature_method : string;
  classifier : string;
  r_metrics : metrics;
  r_timing : timing;
  r_confusion_matrix : list (list Z);
  avg_confidence : option pyfloat;
  train_samples : nat;
  test_samples : nat;
  dataset_id : option string }.

Definition set_dataset_id (r : result) (d : string) : result :=
  Result (model_key r) (display_name r) (description r) (feature_method r)
    (classifier r) (r_metrics r) (r_timing r) (r_confusion_matrix r)
    (avg_confidence r) (train_samples r) (test_samples r) (Some d).

(** The dictionary returned by [predict_text]; [display_name] and
    [original_text] are added by the callers. *)
Record prediction : Type := Prediction {
  p_model_key : string;
  p_text : string;
  p_prediction : Z;
  p_label : string;
  p_confidence : option pyfloat;
  p_display_name : option string;
  p_original_text : option string }.

Definition set_display_name (p : prediction) (d : string) : prediction :=
  Prediction (p_model_key p) (p_text p) (p_prediction p) (p_label p)
    (p_confidence p) (Some d) (p_original_text p).

Definition set_original_text (p : prediction) (t : string) : prediction :=
  Prediction (p_model_key p) (p_text p) (p_prediction p) (p_label p)
    (p_confidence p) (p_display_name p) (Some t).

(** ** Objects, references and the program state *)

Definition ref : Type := nat.

(** The value stored under a key of [_trained_models]. *)
Record cache_entry : Type := CacheEntry {
  ce_model : ref;
  ce_feature_type : string;
  ce_tfidf_vec : option ref;
  ce_embedding_pipeline : option ref }.

Section Pipeline.
Context {L : Library}.

Inductive obj : Type :=
| TfidfVectorizer (p : tfidf_params) (fitted : option TfidfState)
| Pipeline (p : pipeline_params) (fitted : option EmbeddingState)
| Classifier (e : estimator) (fitted : option ClfState).

Record pystate : Type := PyState {
  heap : list obj;
  _tfidf_vectorizer : option ref;
  _embedding_pipeline : option ref;
  _trained_models : PyDict.dict cache_entry;
  _comparison_results : list result;
  clock : nat -> Q;
  ticks : nat }.

Definition set_heap (h : list obj) (s : pystate) : pystate :=
  PyState h (_tfidf_vectorizer s) (_embedding_pipeline s) (_trained_models s)
    (_comparison_results s) (clock s) (ticks s).
Definition set_tfidf_vectorizer (r : option ref) (s : pystate) : pystate :=
  PyState (heap s) r (_embedding_pipeline s) (_trained_models s)
    (_comparison_results s) (clock s) (ticks s).
Definition set_embedding_pipeline (r : option ref) (s : pystate) : pystate :=
  PyState (heap s) (_tfidf_vectorizer s) r (_trained_models s)
    (_comparison_results s) (clock s) (ticks s).
Definition set_trained_models (d : PyDict.dict cache_entry) (s : pystate) : pystate :=
  PyState (heap s) (_tfidf_vectorizer s) (_embedding_pipeline s) d
    (_comparison_results s) (clock s) (ticks s).
Definition set_comparison_results (l : list result) (s : pystate) : pystate :=
  PyState (heap s) (_tfidf_vectorizer s) (_embedding_pipeline s) (_trained_models s)
    l (clock s) (ticks s).
Definition set_ticks (n : nat) (s : pystate) : pystate :=
  PyState (heap s) (_tfidf_vectorizer s) (_embedding_pipeline s) (_trained_models s)
    (_comparison_results s) (clock s) n.

(** *** Computations that read and write the state and may raise *)

Definition M (A : Type) : Type := pystate -> pystate * (exn + A).

Definition ret {A} (a : A) : M A := fun s => (s, inr a).
Definition raise {A} (e : exn) : M A := fun s => (s, inl e).
Definition bind {A B} (c : M A) (k : A -> M B) : M B :=
  fun s =>
    match c s with
    | (s', inr a) => k a s'
    | (s', inl e) => (s', inl e)
    end.
Definition gets {A} (f : pystate -> A) : M A := fun s => (s, inr (f s)).
Definition modify (f : pystate -> pystate) : M unit := fun s => (f s, inr tt).
(** A library call. *)
Definition call {A} (r : exn + A) : M A :=
  match r with
  | inr a => ret a
  | inl e => raise e
  end.
End Pipeline.

Declare Scope py_scope.
Delimit Scope py_scope with py.
Notation "x <- c1 ;; c2" := (bind c1 (fun x => c2))
  (at level 100, c1 at next level, right associativity) : py_scope.
Notation "c1 ;; c2" := (bind c1 (fun _ => c2))
  (at level 100, right associativity) : py_scope.

Local Open Scope py_scope.

Section MlPipeline.
Context {L : Library}.

(** *** Objects *)

(** A constructor call: a new object, never an existing one. *)
Definition alloc (o : obj) : M ref :=
  fun s => (set_heap (heap s ++ [o]) s, inr (length (heap s))).

Definition deref (r : ref) : M obj :=
  fun s =>
    match heap s !! r with
    | Some o => (s, inr o)
    | None => (s, inl (Exn RuntimeError "dangling reference"))
    end.

Definition store (r : ref) (o : obj) : M unit :=
  modify (fun s => set_heap (<[r := o]> (heap s)) s).

Definition no_attribute (name : string) : exn :=
  Exn AttributeError ("object has no attribute '" ++ name ++ "'").

Definition not_fitted : exn :=
  Exn NotFittedError "This instance is not fitted yet.".

(** [recv.fit_transform(docs)]: fits the receiver in place. *)
Definition fit_transform (recv : option ref) (docs : list string) : M Matrix :=
  match recv with
  | None => raise (no_attribute "fit_transform")
  | Some r =>
      o <- deref r ;;
      match o with
      | TfidfVectorizer p _ =>
          x <- call (tfidf_fit_transform p docs) ;;
          store r (TfidfVectorizer p (Some (fst x))) ;;
          ret (snd x)
      | Pipeline p _ =>
          x <- call (pipeline_fit_transform p docs) ;;
          store r (Pipeline p (Some (fst x))) ;;
          ret (snd x)
      | Classifier _ _ => raise (no_attribute "fit_transform")
      end
  end.

(** [recv.transform(docs)]: reads the fitted state, writes nothing. *)
Definition transform (recv : option ref) (docs : list string) : M Matrix :=
  match recv with
  | None => raise (no_attribute "transform")
  | Some r =>
      o <- deref r ;;
      match o with
      | TfidfVectorizer _ (Some st) => call (tfidf_transform st docs)
      | Pipeline _ (Some st) => call (pipeline_transform st docs)
      | TfidfVectorizer _ None | Pipeline _ None => raise not_fitted
      | Classifier _ _ => raise (no_attribute "transform")
      end
  end.

(** [clf.fit(X, y)] *)
Definition fit (clf : ref) (X : Matrix) (y : list Z) : M unit :=
  o <- deref clf ;;
  match o with
  | Classifier e _ =>
      st <- call (estimator_fit e X y) ;;
      store clf (Classifier e (Some st))
  | _ => raise (no_attribute "fit")
  end.

(** [clf.predict(X)] *)
Definition predict (clf : ref) (X : Matrix) : M (list Z) :=
  o <- deref clf ;;
  match o with
  | Classifier _ (Some st) => call (estimator_predict st X)
  | Classifier _ None => raise not_fitted
  | _ => raise (no_attribute "predict")
  end.

(** [hasattr(clf, "predict_proba")] *)
Definition hasattr_predict_proba (clf : ref) : M bool :=
  o <- deref clf ;;
  match o with
  | Classifier e _ => ret (has_predict_proba e)
  | _ => ret false
  end.

(** [clf.predict_proba(X)] *)
Definition predict_proba (clf : ref) (X : Matrix) : M (list (list Q)) :=
  o <- deref clf ;;
  match o with
  | Classifier _ (Some st) => call (estimator_predict_proba st X)
  | Classifier _ None => raise not_fitted
  | _ => raise (no_attribute "predict_proba")
  end.

(** [time.time()] *)
Definition time_time : M Q :=
  fun s => (set_ticks (S (ticks s)) s, inr (clock s (ticks s))).

(** *** Feature extraction *)

Definition build_tfidf (X_train X_test : list string) (max_features : N)
  : M (Matrix * Matrix) :=
  v <- alloc (TfidfVectorizer (TfidfParams max_features (1, 2)%nat true) None) ;;
  modify (set_tfidf_vectorizer (Some v)) ;;
  g <- gets _tfidf_vectorizer ;;
  X_train_vec <- fit_transform g X_train ;;
  g <- gets _tfidf_vectorizer ;;
  X_test_vec <- transform g X_test ;;
  ret (X_train_vec, X_test_vec).

Definition build_word_embeddings (X_train X_test : list string)
    (n_components max_features : N) : M (Matrix * Matrix) :=
  p <- alloc (Pipeline (PipelineParams max_features (1, 2)%nat n_components (Some 42%N) false) None) ;;
  modify (set_embedding_pipeline (Some p)) ;;
  g <- gets _embedding_pipeline ;;
  X_train_vec <- fit_transform g X_train ;;
  g <- gets _embedding_pipeline ;;
  X_test_vec <- transform g X_test ;;
  ret (X_train_vec, X_test_vec).

(** *** Classifiers *)

Definition _create_classifier (classifier_type feature_type : string) : M ref :=
  if String.eqb classifier_type "naive_bayes" then
    if String.eqb feature_type "tfidf"
    then alloc (Classifier (MultinomialNB 1) None)
    else alloc (Classifier GaussianNB None)
  else if String.eqb classifier_type "svm" then
    alloc (Classifier (CalibratedClassifierCV (LinearSVC 2000%N (Some 42%N) 1) 3%N) None)
  else if String.eqb classifier_type "logistic_regression" then
    alloc (Classifier (LogisticRegression 1000%N (Some 42%N) 1) None)
  else raise (Exn ValueError ("Unknown classifier: " ++ classifier_type)).

(** *** Confidence *)

(** [np.max(probas, axis=1)] *)
Fixpoint np_max_axis1 (probas : list (list Q)) : exn + list Q :=
  match probas with
  | [] => inr []
  | [] :: _ =>
      inl (Exn ValueError
             "zero-size array to reduction operation maximum which has no identity")
  | (x :: row) :: rest =>
      match np_max_axis1 rest with
      | inr ms => inr (max_list x row :: ms)
      | inl e => inl e
      end
  end.

(** [round(confidence, 4) if confidence else None] *)
Definition report_confidence (confidence : option pyfloat) : option pyfloat :=
  if truthy confidence
  then match confidence with
       | Some c => Some (float_round c 4)
       | None => None
       end
  else None.
End MlPipeline.

Section Training.
Context {L : Library}.

(** [d[k]] on [MODEL_CONFIGS] *)
Definition getitem_config (k : string) : M config :=
  match PyDict.get k MODEL_CONFIGS with
  | Some c => ret c
  | None => raise (Exn KeyError ("'" ++ k ++ "'"))
  end.

(** *** [ml_pipeline.train_model] *)

Definition train_model (model_key : string) (X_train X_test : list string)
    (y_train y_test : list Z) : M result :=
  config <- getitem_config model_key ;;
  let feature_type := cfg_feature config in
  let classifier_type := cfg_classifier config in
  (* Feature extraction *)
  feat_start <- time_time ;;
  vecs <- (if String.eqb feature_type "tfidf"
           then build_tfidf X_train X_test 15000%N
           else build_word_embeddings X_train X_test 200%N 20000%N) ;;
  let X_train_vec := fst vecs in
  let X_test_vec := snd vecs in
  t <- time_time ;;
  let feat_time := (t - feat_start)%Q in
  (* Training *)
  clf <- _create_classifier classifier_type feature_type ;;
  train_start <- time_time ;;
  fit clf X_train_vec y_train ;;
  t <- time_time ;;
  let train_time := (t - train_start)%Q in
  (* Prediction *)
  pred_start <- time_time ;;
  y_pred <- predict clf X_test_vec ;;
  t <- time_time ;;
  let pred_time := (t - pred_start)%Q in
  (* Probabilities (if available) *)
  has <- hasattr_predict_proba clf ;;
  confidence <- (if has : bool
                 then probas <- predict_proba clf X_test_vec ;;
                      ms <- call (np_max_axis1 probas) ;;
                      ret (Some (np_mean ms))
                 else ret None) ;;
  (* Metrics *)
  acc <- call (accuracy_score y_test y_pred) ;;
  prec <- call (precision_score y_test y_pred) ;;
  rec <- call (recall_score y_test y_pred) ;;
  f1 <- call (f1_score y_test y_pred) ;;
  cm <- call (confusion_matrix y_test y_pred) ;;
  let total_time := (feat_time + train_time + pred_time)%Q in
  (* Cache trained model *)
  tv <- gets _tfidf_vectorizer ;;
  ep <- gets _embedding_pipeline ;;
  modify (fun s =>
    set_trained_models
      (PyDict.set model_key
         (CacheEntry clf feature_type
            (if String.eqb feature_type "tfidf" then tv else None)
            (if String.eqb feature_type "word_embeddings" then ep else None))
         (_trained_models s)) s) ;;
  ret (Result model_key
         (cfg_display_name config)
         (cfg_description config)
         (if String.eqb feature_type "tfidf" then "TF-IDF" else "Word Embeddings")
         (PyStr.title (PyStr.replace_char "_" " " classifier_type))
         (Metrics (round_ndigits acc 4) (round_ndigits prec 4)
                  (round_ndigits rec 4) (round_ndigits f1 4))
         (Timing (round_ndigits feat_time 3) (round_ndigits train_time 3)
                 (round_ndigits pred_time 3) (round_ndigits total_time 3))
         cm
         (report_confidence confidence)
         (length y_train)
         (length y_test)
         None).

(** *** [ml_pipeline.predict_text] *)

Definition not_trained (model_key : string) : exn :=
  Exn ValueError ("Model '" ++ model_key ++ "' is not trained yet. Train it first.").

Definition predict_text (model_key text : string) : M prediction :=
  trained <- gets _trained_models ;;
  match PyDict.get model_key trained with
  | None => raise (not_trained model_key)
  | Some cached =>
      let model := ce_model cached in
      let feature_type := ce_feature_type cached in
      (* Vectorize *)
      vec <- (if String.eqb feature_type "tfidf"
              then transform (ce_tfidf_vec cached) [text]
              else transform (ce_embedding_pipeline cached) [text]) ;;
      preds <- predict model vec ;;
      prediction <- match preds with
                    | p :: _ => ret p
                    | [] => raise (Exn IndexError "index 0 is out of bounds")
                    end ;;
      has <- hasattr_predict_proba model ;;
      confidence <- (if has : bool
                     then all_probas <- predict_proba model vec ;;
                          match all_probas with
                          | (x :: row) :: _ => ret (Some (Fin (max_list x row)))
                          | [] :: _ => raise (Exn ValueError "max() arg is an empty sequence")
                          | [] => raise (Exn IndexError "index 0 is out of bounds")
                          end
                     else ret None) ;;
      ret (Prediction model_key text prediction
             (if (prediction =? 1)%Z then "Cyberbullying" else "Not Cyberbullying")
             (report_confidence confidence)
             None None)
  end.

(** *** [ml_pipeline.predict_all_models] *)

(** [try: c  except Exception: h] *)
Definition try_except {A} (c : M A) (h : exn -> M A) : M A :=
  fun s =>
    match c s with
    | (s', inl e) => h e s'
    | (s', inr a) => (s', inr a)
    end.

(** One turn of the loop: the new value of [results]. *)
Definition predict_all_step (text : string) (results : list prediction)
    (model_key : string) : M (list prediction) :=
  try_except
    (result <- predict_text model_key text ;;
     config <- getitem_config model_key ;;
     ret (results ++ [set_display_name result (cfg_display_name config)]))
    (fun _ => ret results).

Fixpoint predict_all_loop (text : string) (keys : list string)
    (results : list prediction) : M (list prediction) :=
  match keys with
  | [] => ret results
  | model_key :: keys' =>
      results' <- predict_all_step text results model_key ;;
      predict_all_loop text keys' results'
  end.

Definition predict_all_models (text : string) : M (list prediction) :=
  trained <- gets _trained_models ;;
  predict_all_loop text (PyDict.keys trained) [].
End Training.

(** ** [routes.py] *)

Module Routes.
Section Routes.
Context {L : Library}.

Definition f1_of (r : result) : Q := m_f1_score (r_metrics r).

(** [x] goes in front of the first element whose F1 is not greater. *)
Fixpoint insert_desc (x : result) (l : list result) : list result :=
  match l with
  | [] => [x]
  | y :: l' =>
      if Qle_bool (f1_of y) (f1_of x) then x :: l else y :: insert_desc x l'
  end.

(** [l.sort(key=lambda x: x["metrics"]["f1_score"], reverse=True)]:
    Python's sort is stable, also with [reverse=True]. *)
Definition sort_by_f1_desc (l : list result) : list result :=
  fold_right insert_desc [] l.

(** "Update comparison cache": drop the bundles of [key], append, sort. *)
Definition update_comparison (key : string) (r : result) (rs : list result)
  : list result :=
  sort_by_f1_desc
    (List.filter (fun x => negb (String.eqb (model_key x) key)) rs ++ [r]).

(** The body of the [try] of [POST /train]. *)
Definition train_body (req_model_key req_dataset_id : string) : M result :=
  split <- call (get_train_test_split req_dataset_id) ;;
  let '(X_train, X_test, y_train, y_test) := split in
  result <- train_model req_model_key X_train X_test y_train y_test ;;
  let result := set_dataset_id result req_dataset_id in
  modify (fun s =>
    set_comparison_results
      (update_comparison req_model_key result (_comparison_results s)) s) ;;
  ret result.

(** [POST /train] *)
Definition train_model (req_model_key req_dataset_id : string)
  : pystate -> pystate * response result :=
  fun s =>
    if negb (PyDict.mem req_model_key MODEL_CONFIGS)
    then (s, HTTPException 400 ("Unknown model: " ++ req_model_key))
    else match train_body req_model_key req_dataset_id s with
         | (s', inr r) => (s', Ok r)
         | (s', inl e) => (s', HTTPException 500 (exn_msg e))
         end.

(** [POST /predict] *)
Definition predict (req_text req_model_key : string)
  : pystate -> pystate * response prediction :=
  fun s =>
    if String.eqb (PyStr.strip req_text) ""
    then (s, HTTPException 400 "Text cannot be empty")
    else
      let cleaned := clean_text req_text in
      match predict_text req_model_key cleaned s with
      | (s', inr r) => (s', Ok (set_original_text r req_text))
      | (s', inl e) =>
          if isinstance_ValueError e
          then (s', HTTPException 400 (exn_msg e))
          else (s', HTTPException 500 (exn_msg e))
      end.

(** [POST /predict-all] *)
Definition predict_all (req_text : string)
  : pystate -> pystate * response (list prediction) :=
  fun s =>
    if String.eqb (PyStr.strip req_text) ""
    then (s, HTTPException 400 "Text cannot be empty")
    else
      let cleaned := clean_text req_text in
      match predict_all_models cleaned s with
      | (s', inr rs) => (s', Ok (map (fun r => set_original_text r req_text) rs))
      | (s', inl e) => (s', HTTPException 500 (exn_msg e))
      end.

(** [GET /results]: the list and [results[0] if results else None]. *)
Definition get_results (s : pystate) : list result * option result :=
  (_comparison_results s, head (_comparison_results s)).
End Routes.
End Routes.

(** ** [ml_engine/pipeline.py]: [train_model] *)

Module MlEngine.

Inductive report : Type :=
| Error (msg : string)
| Report (model : string) (accuracy f1_score train_time_s inference_latency_s : Q).

(** [_get_model(name)]: [models.get(name)] *)
Definition _get_model (name : string) : option estimator :=
  if String.eqb name "svm" then Some (SVC "linear" true 2000%N)
  else if String.eqb name "naive_bayes" then Some (MultinomialNB 1)
  else if String.eqb name "logistic_regression"
       then Some (LogisticRegression 1000%N None 1)
  else if String.eqb name "xgboost" then Some (XGBClassifier 100%N 6%N (1 # 10))
  else None.

Section MlEngine.
Context {L : Library}.

(** [time.perf_counter()], read from the clock of the state. *)
Definition perf_counter : M Q := time_time.

(** [_train_ffn]: predictions, training time, inference time. *)
Definition _train_ffn (X_train : Matrix) (y_train : list Z) (X_test : Matrix)
    (num_classes : nat) : M (list Z * Q * Q) :=
  t0 <- perf_counter ;;
  model <- call (ffn_fit X_train y_train num_classes) ;;
  t <- perf_counter ;;
  let train_time := (t - t0)%Q in
  t1 <- perf_counter ;;
  preds <- call (ffn_predict model X_test) ;;
  t <- perf_counter ;;
  let inference_time := (t - t1)%Q in
  ret (preds, train_time, inference_time).

Definition fit_and_predict (name : string) (model : estimator)
    (X_train : Matrix) (y_train : list Z) (X_test : Matrix)
  : M (list Z * Q * Q) :=
  (* MultinomialNB requires non-negative features *)
  scaled <- (if String.eqb name "naive_bayes"
             then x <- call (minmax_fit_transform X_train) ;;
                  X_test' <- call (minmax_transform (fst x) X_test) ;;
                  ret (snd x, X_test')
             else ret (X_train, X_test)) ;;
  let X_train := fst scaled in
  let X_test := snd scaled in
  t0 <- perf_counter ;;
  fitted <- call (estimator_fit model X_train y_train) ;;
  t <- perf_counter ;;
  let train_time := (t - t0)%Q in
  t1 <- perf_counter ;;
  preds <- call (estimator_predict fitted X_test) ;;
  t <- perf_counter ;;
  let inference_time := (t - t1)%Q in
  ret (preds, train_time, inference_time).

Definition score (name : string) (y_test : list Z) (run : list Z * Q * Q)
  : M report :=
  let '(preds, train_time, inference_time) := run in
  acc <- call (accuracy_score y_test preds) ;;
  f1 <- call (f1_score_weighted y_test preds) ;;
  ret (Report name (round_ndigits acc 4) (round_ndigits f1 4)
         (round_ndigits train_time 4) (round_ndigits inference_time 6)).

Definition train_model (name : string) (X_train : Matrix) (y_train : list Z)
    (X_test : Matrix) (y_test : list Z) : M report :=
  let num_classes := length (remove_dups y_train) in
  if String.eqb name "ffn" then
    run <- _train_ffn X_train y_train X_test num_classes ;;
    score name y_test run
  else
    match _get_model name with
    | None => ret (Error ("Unknown model: " ++ name))
    | Some model =>
        run <- fit_and_predict name model X_train y_train X_test ;;
        score name y_test run
    end.
End MlEngine.
End MlEngine.

(** ** A small executable library, for running the model on concrete inputs

    Documents are their own feature vectors, a document is flagged when it
    is longer than eight characters, and one fault at a time can be switched
    on.  Scores are quotients of counts, rounded to doubles.  Of the Unicode
    tables it has the whitespace characters as Python has them, and the
    ASCII letters and digits; the runs below are on ASCII text. *)

Module Toy.

Inductive fault : Type :=
| NoFault
| ExtractionFails        (* fit_transform raises *)
| TrainingFails          (* fit raises *)
| GaussianPredictFails.  (* predict of GaussianNB raises on an empty document *)

Definition is_fault (a b : fault) : bool :=
  match a, b with
  | NoFault, NoFault | ExtractionFails, ExtractionFails
  | TrainingFails, TrainingFails | GaussianPredictFails, GaussianPredictFails => true
  | _, _ => false
  end.

Definition invalid_input : exn := Exn ValueError "invalid input".

Definition count_pairs (f : Z -> Z -> bool) (y_true y_pred : list Z) : Z :=
  Z.of_nat (length (List.filter (fun p => f (fst p) (snd p)) (combine y_true y_pred))).

(** The double [n / d], and 0 when [d] is 0 ([zero_division=0]). *)
Definition ratio (n d : Z) : Q :=
  if (d <=? 0)%Z then 0%Q else int_truediv n d.

(** The mean of a short array: the double nearest to the quotient. *)
Definition mean (l : list Q) : pyfloat :=
  match l with
  | [] => NaN
  | _ => Fin (round_double (Qsum l / inject_Z (Z.of_nat (length l))))
  end.

(** [str.isspace]: U+0009-000D, U+001C-0020, U+0085, U+00A0, U+1680,
    U+2000-200A, U+2028, U+2029, U+202F, U+205F, U+3000. *)
Definition isspace (p : N) : bool :=
  ((9 <=? p) && (p <=? 13) || (28 <=? p) && (p <=? 32)
   || (p =? 133) || (p =? 160) || (p =? 5760)
   || (8192 <=? p) && (p <=? 8202)
   || (p =? 8232) || (p =? 8233) || (p =? 8239) || (p =? 8287) || (p =? 12288))%N.

(** ASCII letters, digits and the underscore. *)
Definition isword (p : N) : bool :=
  ((65 <=? p) && (p <=? 90) || (97 <=? p) && (p <=? 122)
   || (48 <=? p) && (p <=? 57) || (p =? 95))%N.

(** ASCII capitals to small letters. *)
Definition lower (l : list N) : list N :=
  map (fun p => if ((65 <=? p) && (p <=? 90))%N then (p + 32)%N else p) l.

Definition tp := count_pairs (fun y p => (y =? 1)%Z && (p =? 1)%Z).
Definition fp := count_pairs (fun y p => negb (y =? 1)%Z && (p =? 1)%Z).
Definition fn := count_pairs (fun y p => (y =? 1)%Z && negb (p =? 1)%Z).
Definition tn := count_pairs (fun y p => negb (y =? 1)%Z && negb (p =? 1)%Z).

Definition accuracy (y_true y_pred : list Z) : Q :=
  ratio (count_pairs Z.eqb y_true y_pred) (Z.of_nat (length (combine y_true y_pred))).
Definition precision (y_true y_pred : list Z) : Q :=
  ratio (tp y_true y_pred) (tp y_true y_pred + fp y_true y_pred).
Definition recall (y_true y_pred : list Z) : Q :=
  ratio (tp y_true y_pred) (tp y_true y_pred + fn y_true y_pred).
Definition f1 (y_true y_pred : list Z) : Q :=
  ratio (2 * tp y_true y_pred)
        (2 * tp y_true y_pred + fp y_true y_pred + fn y_true y_pred).

Definition flag (doc : string) : Z :=
  if (8 <? String.length doc)%nat then 1%Z else 0%Z.

Definition library (f : fault) : Library := {|
  Matrix := list string;
  TfidfState := list string;
  EmbeddingState := list string;
  ClfState := estimator;
  ScalerState := unit;
  FfnState := unit;
  tfidf_fit_transform := fun _ docs =>
    if is_fault f ExtractionFails then inl invalid_input else inr (docs, docs);
  tfidf_transform := fun _ docs => inr docs;
  pipeline_fit_transform := fun _ docs =>
    if is_fault f ExtractionFails then inl invalid_input else inr (docs, docs);
  pipeline_transform := fun _ docs => inr docs;
  estimator_fit := fun e _ _ =>
    if is_fault f TrainingFails then inl invalid_input else inr e;
  estimator_predict := fun e X =>
    match e with
    | GaussianNB =>
        if is_fault f GaussianPredictFails && existsb (String.eqb "") X
        then inl invalid_input
        else inr (map flag X)
    | _ => inr (map flag X)
    end;
  has_predict_proba := fun _ => true;
  estimator_predict_proba := fun _ X => inr (map (fun _ => [1 # 4; 3 # 4])%Q X);
  np_mean := mean;
  accuracy_score := fun a b => inr (accuracy a b);
  precision_score := fun a b => inr (precision a b);
  recall_score := fun a b => inr (recall a b);
  f1_score := fun a b => inr (f1 a b);
  confusion_matrix := fun a b => inr [[tn a b; fp a b]; [fn a b; tp a b]];
  f1_score_weighted := fun a b => inr (f1 a b);
  minmax_fit_transform := fun X => inr (tt, X);
  minmax_transform := fun _ X => inr X;
  ffn_fit := fun _ _ _ => inr tt;
  ffn_predict := fun _ X => inr (map flag X);
  get_train_test_split := fun id =>
    if String.eqb id "combined"
    then inr (["you are awful"; "nice day"; "so very stupid"; "hello"],
              ["what a lovely cat"; "ok"], [1; 0; 1; 0]%Z, [0; 0]%Z)
    else inl (Exn ValueError ("Unknown dataset_id: " ++ id));
  unicode_isspace := isspace;
  unicode_isword := isword;
  str_lower := lower |}.

(** The state of a fresh process, with a clock that shows [tick * step]. *)
Definition init (f : fault) (step : Q) : @pystate (library f) :=
  PyState [] None None [] [] (fun n => inject_Z (Z.of_nat n) * step)%Q 0.

End Toy.

(** ** What a training call computes, without the state

    [evaluate] is the value-level reading of [train_model]: the library
    calls in the order of the code, with no heap, no globals and no clock.
    [train_model_evaluate] below proves that [train_model] computes exactly
    this; the properties of a training call are then read off [evaluate]. *)

Section Evaluate.
Context {L : Library}.

Record evaluation : Type := Evaluation {
  ev_config : config;
  ev_extractor : obj;            (* the fitted vectorizer or pipeline *)
  ev_classifier : obj;           (* the fitted classifier *)
  ev_test_matrix : Matrix;
  ev_confidence : option pyfloat;
  ev_accuracy : Q;
  ev_precision : Q;
  ev_recall : Q;
  ev_f1 : Q;
  ev_confusion : list (list Z) }.

Definition ebind {A B} (r : exn + A) (k : A -> exn + B) : exn + B :=
  match r with
  | inr a => k a
  | inl e => inl e
  end.

(** Fit on the training documents, transform the test documents. *)
Definition extract (feature_type : string) (X_train X_test : list string)
  : exn + (obj * Matrix * Matrix) :=
  if String.eqb feature_type "tfidf" then
    let p := TfidfParams 15000%N (1, 2)%nat true in
    ebind (tfidf_fit_transform p X_train) (fun x =>
    ebind (tfidf_transform (fst x) X_test) (fun X_test_vec =>
    inr (TfidfVectorizer p (Some (fst x)), snd x, X_test_vec)))
  else
    let p := PipelineParams 20000%N (1, 2)%nat 200%N (Some 42%N) false in
    ebind (pipeline_fit_transform p X_train) (fun x =>
    ebind (pipeline_transform (fst x) X_test) (fun X_test_vec =>
    inr (Pipeline p (Some (fst x)), snd x, X_test_vec))).

Definition choose_estimator (classifier_type feature_type : string)
  : exn + estimator :=
  if String.eqb classifier_type "naive_bayes" then
    if String.eqb feature_type "tfidf" then inr (MultinomialNB 1) else inr GaussianNB
  else if String.eqb classifier_type "svm" then
    inr (CalibratedClassifierCV (LinearSVC 2000%N (Some 42%N) 1) 3%N)
  else if String.eqb classifier_type "logistic_regression" then
    inr (LogisticRegression 1000%N (Some 42%N) 1)
  else inl (Exn ValueError ("Unknown classifier: " ++ classifier_type)).

(** [None] without [predict_proba], else the mean of the row maxima. *)
Definition mean_confidence (e : estimator) (st : ClfState) (X : Matrix)
  : exn + option pyfloat :=
  if has_predict_proba e then
    ebind (estimator_predict_proba st X) (fun probas =>
    ebind (np_max_axis1 probas) (fun ms => inr (Some (np_mean ms))))
  else inr None.

Definition evaluate (model_key : string) (X_train X_test : list string)
    (y_train y_test : list Z) : exn + evaluation :=
  match PyDict.get model_key MODEL_CONFIGS with
  | None => inl (Exn KeyError ("'" ++ model_key ++ "'"))
  | Some config =>
      ebind (extract (cfg_feature config) X_train X_test) (fun ex =>
      let '(extractor, X_train_vec, X_test_vec) := ex in
      ebind (choose_estimator (cfg_classifier config) (cfg_feature config)) (fun e =>
      ebind (estimator_fit e X_train_vec y_train) (fun st =>
      ebind (estimator_predict st X_test_vec) (fun y_pred =>
      ebind (mean_confidence e st X_test_vec) (fun confidence =>
      ebind (accuracy_score y_test y_pred) (fun acc =>
      ebind (precision_score y_test y_pred) (fun prec =>
      ebind (recall_score y_test y_pred) (fun rec =>
      ebind (f1_score y_test y_pred) (fun f1 =>
      ebind (confusion_matrix y_test y_pred) (fun cm =>
      inr (Evaluation config extractor (Classifier e (Some st)) X_test_vec
             confidence acc prec rec f1 cm)))))))))))
  end.

(** The five calls of [sklearn.metrics], in the order of the code. *)
Definition scoring (y_test y_pred : list Z)
  : exn + (Q * Q * Q * Q * list (list Z)) :=
  ebind (accuracy_score y_test y_pred) (fun acc =>
  ebind (precision_score y_test y_pred) (fun prec =>
  ebind (recall_score y_test y_pred) (fun rec =>
  ebind (f1_score y_test y_pred) (fun f1 =>
  ebind (confusion_matrix y_test y_pred) (fun cm =>
  inr (acc, prec, rec, f1, cm)))))).



(** The dictionary that [train_model] returns for an evaluation and the
    three elapsed times. *)
Definition bundle (model_key : string) (ev : evaluation)
    (feat_time train_time pred_time : Q) (n_train n_test : nat) : result :=
  let config := ev_config ev in
  Result model_key
    (cfg_display_name config)
    (cfg_description config)
    (if String.eqb (cfg_feature config) "tfidf" then "TF-IDF" else "Word Embeddings")
    (PyStr.title (PyStr.replace_char "_" " " (cfg_classifier config)))
    (Metrics (round_ndigits (ev_accuracy ev) 4) (round_ndigits (ev_precision ev) 4)
             (round_ndigits (ev_recall ev) 4) (round_ndigits (ev_f1 ev) 4))
    (Timing (round_ndigits feat_time 3) (round_ndigits train_time 3)
            (round_ndigits pred_time 3)
            (round_ndigits (feat_time + train_time + pred_time) 3))
    (ev_confusion ev)
    (report_confidence (ev_confidence ev))
    n_train n_test None.

(** The three elapsed times of a call that starts in [s] and reads the
    clock six times. *)
Definition feat_time_of (s : pystate) : Q :=
  (clock s (S (ticks s)) - clock s (ticks s))%Q.
Definition train_time_of (s : pystate) : Q :=
  (clock s (3 + ticks s)%nat - clock s (2 + ticks s)%nat)%Q.
Definition pred_time_of (s : pystate) : Q :=
  (clock s (5 + ticks s)%nat - clock s (4 + ticks s)%nat)%Q.

(** The cache entry written for an evaluation whose objects sit at
    [n] and [n + 1]. *)
Definition entry_of (ev : evaluation) (n : nat) : cache_entry :=
  let ft := cfg_feature (ev_config ev) in
  CacheEntry (S n) ft
    (if String.eqb ft "tfidf" then Some n else None)
    (if String.eqb ft "word_embeddings" then Some n else None).

(** The state after a successful call. *)
Definition trained_state (model_key : string) (ev : evaluation) (s : pystate)
  : pystate :=
  let n := length (heap s) in
  let ft := cfg_feature (ev_config ev) in
  PyState (heap s ++ [ev_extractor ev; ev_classifier ev])
    (if String.eqb ft "tfidf" then Some n else _tfidf_vectorizer s)
    (if String.eqb ft "tfidf" then _embedding_pipeline s else Some n)
    (PyDict.set model_key (entry_of ev n) (_trained_models s))
    (_comparison_results s)
    (clock s)
    (6 + ticks s).

(** What a failed call may have changed: objects were created, globals
    rebound, the clock read. *)
Definition only_allocated (s s' : pystate) : Prop :=
  (exists objs, heap s' = heap s ++ objs)
  /\ _trained_models s' = _trained_models s
  /\ _comparison_results s' = _comparison_results s
  /\ clock s' = clock s.
End Evaluate.

(** ** What a prediction computes, given the cached objects *)

Section Infer.
Context {L : Library}.

(** [o.transform(docs)] on the object itself. *)
Definition transform_obj (o : obj) (docs : list string) : exn + Matrix :=
  match o with
  | TfidfVectorizer _ (Some st) => tfidf_transform st docs
  | Pipeline _ (Some st) => pipeline_transform st docs
  | TfidfVectorizer _ None | Pipeline _ None => inl not_fitted
  | Classifier _ _ => inl (no_attribute "transform")
  end.

Definition predict_obj (o : obj) (X : Matrix) : exn + list Z :=
  match o with
  | Classifier _ (Some st) => estimator_predict st X
  | Classifier _ None => inl not_fitted
  | _ => inl (no_attribute "predict")
  end.

Definition hasattr_obj (o : obj) : bool :=
  match o with
  | Classifier e _ => has_predict_proba e
  | _ => false
  end.

Definition predict_proba_obj (o : obj) (X : Matrix) : exn + list (list Q) :=
  match o with
  | Classifier _ (Some st) => estimator_predict_proba st X
  | Classifier _ None => inl not_fitted
  | _ => inl (no_attribute "predict_proba")
  end.

(** [float(max(model.predict_proba(vec)[0]))], or [None]. *)
Definition single_confidence (clf : obj) (vec : Matrix) : exn + option pyfloat :=
  if hasattr_obj clf then
    ebind (predict_proba_obj clf vec) (fun all_probas =>
    match all_probas with
    | (x :: row) :: _ => inr (Some (Fin (max_list x row)))
    | [] :: _ => inl (Exn ValueError "max() arg is an empty sequence")
    | [] => inl (Exn IndexError "index 0 is out of bounds")
    end)
  else inr None.

(** [predict_text] from the feature vector on. *)
Definition classify (clf : obj) (model_key text : string) (vec : Matrix)
  : exn + prediction :=
  ebind (predict_obj clf vec) (fun preds =>
  ebind (match preds with
         | p :: _ => inr p
         | [] => inl (Exn IndexError "index 0 is out of bounds")
         end) (fun prediction =>
  ebind (single_confidence clf vec) (fun confidence =>
  inr (Prediction model_key text prediction
         (if (prediction =? 1)%Z then "Cyberbullying" else "Not Cyberbullying")
         (report_confidence confidence) None None)))).

(** [predict_text] with the extractor [ext] and the classifier [clf]. *)
Definition infer (ext clf : obj) (model_key text : string) : exn + prediction :=
  ebind (transform_obj ext [text]) (classify clf model_key text).

(** The reference [predict_text] takes the extractor from. *)
Definition extractor_ref (e : cache_entry) : option ref :=
  if String.eqb (ce_feature_type e) "tfidf"
  then ce_tfidf_vec e else ce_embedding_pipeline e.
End Infer.

(** ** Sequences of calls *)

Section Calls.
Context {L : Library}.

Inductive op : Type :=
| CallTrainModel (model_key : string) (X_train X_test : list string)
    (y_train y_test : list Z)
| CallPredictText (model_key text : string)
| CallPredictAllModels (text : string)
| PostTrain (model_key dataset_id : string)
| PostPredict (text model_key : string)
| PostPredictAll (text : string).

(** The identity a call trains, if it is a training call. *)
Definition trains (o : op) : option string :=
  match o with
  | CallTrainModel k _ _ _ _ | PostTrain k _ => Some k
  | _ => None
  end.

Definition run_op (o : op) (s : pystate) : pystate :=
  match o with
  | CallTrainModel k X_train X_test y_train y_test =>
      fst (train_model k X_train X_test y_train y_test s)
  | CallPredictText k text => fst (predict_text k text s)
  | CallPredictAllModels text => fst (predict_all_models text s)
  | PostTrain k d => fst (Routes.train_model k d s)
  | PostPredict text k => fst (Routes.predict text k s)
  | PostPredictAll text => fst (Routes.predict_all text s)
  end.

Definition run_ops (ops : list op) (s : pystate) : pystate :=
  fold_left (fun s o => run_op o s) ops s.

(** No call of [ops] trains [model_key]. *)
Definition leaves_alone (model_key : string) (ops : list op) : Prop :=
  Forall (fun o => trains o <> Some model_key) ops.
End Calls.

(** ** The comparison result set as a value *)

Module Ranking.

(** [record]: what [POST /train] does to [_comparison_results] with the
    bundle of a successful call. *)
Definition record (r : result) (rs : list result) : list result :=
  Routes.update_comparison (model_key r) r rs.

(** [all()] after recording [rs], in this order, starting from [start]. *)
Definition record_all (rs start : list result) : list result :=
  fold_left (fun acc r => record r acc) rs start.

(** [best()] *)
Definition best (rs : list result) : option result := head rs.

(** [record] without the sort: the bundle of the same identity is dropped
    and the new one goes last. *)
Definition append_or_replace (r : result) (rs : list result) : list result :=
  List.filter (fun x => negb (String.eqb (model_key x) (model_key r))) rs ++ [r].

(** The bundles in the order in which they were last recorded. *)
Definition latest (rs start : list result) : list result :=
  fold_left (fun acc r => append_or_replace r acc) rs start.

(** The bundles of [l] whose F1 is [q], in the order of [l]. *)
Definition with_f1 (q : Q) (l : list result) : list result :=
  List.filter (fun r => Qeq_bool (Routes.f1_of r) q) l.

(** Non-increasing F1. *)
Definition sorted_desc (l : list result) : Prop :=
  StronglySorted (fun a b => (Routes.f1_of b <= Routes.f1_of a)%Q) l.

End Ranking.

(** ** Vocabulary of the numeric statements *)

Definition unit_interval (q : Q) : Prop := (0 <= q <= 1)%Q.







(** A bundle with its timing breakdown blanked. *)
Definition erase_timing (r : result) : result :=
  Result (model_key r) (display_name r) (description r) (feature_method r)
    (classifier r) (r_metrics r) (Timing 0 0 0 0) (r_confusion_matrix r)
    (avg_confidence r) (train_samples r) (test_samples r) (dataset_id r).

(** The timing breakdown of a training call that starts in [s]. *)
Definition timing_of {L : Library} (s : pystate) : timing :=
  Timing (round_ndigits (feat_time_of s) 3) (round_ndigits (train_time_of s) 3)
         (round_ndigits (pred_time_of s) 3)
         (round_ndigits (feat_time_of s + train_time_of s + pred_time_of s) 3).

(** What one turn of the loop of [predict_all_models] adds to [results]. *)
Definition served {L : Library} (text : string) (s : pystate) (model_key : string)
  : list prediction :=
  match snd (predict_text model_key text s) with
  | inr p =>
      match PyDict.get model_key MODEL_CONFIGS with
      | Some c => [set_display_name p (cfg_display_name c)]
      | None => []
      end
  | inl _ => []
  end.

(** ** What a call may and may not touch *)

Section FrameVocabulary.
Context {L : Library}.

(** A computation that leaves the state as it found it. *)
Definition read_only {A} (c : M A) : Prop := forall s, fst (c s) = s.

(** Every object of [s] is still there, unchanged, in [s']. *)
Definition objects_kept (s s' : pystate) : Prop :=
  forall (r : ref) (o : obj), heap s !! r = Some o -> heap s' !! r = Some o.

(** [s'] still has the objects of [s] and the same entry under [key]. *)
Definition kept (key : string) (s s' : pystate) : Prop :=
  objects_kept s s'
  /\ PyDict.get key (_trained_models s') = PyDict.get key (_trained_models s).

End FrameVocabulary.

(** ** [ml_pipeline.get_available_models] and [GET /models] *)

Record model_info : Type := ModelInfo {
  mi_model_key : string;
  mi_display_name : string;
  mi_description : string;
  mi_feature : string;
  mi_classifier : string;
  mi_is_trained : bool }.

Section AvailableModels.
Context {L : Library}.

(** The loop over [MODEL_CONFIGS.items()]; [key in _trained_models] is read
    at every turn. *)
Fixpoint available_models_loop (items : list (string * config))
    (result : list model_info) : M (list model_info) :=
  match items with
  | [] => ret result
  | (key, config) :: items' =>
      trained <- gets _trained_models ;;
      available_models_loop items'
        (result ++ [ModelInfo key (cfg_display_name config) (cfg_description config)
                      (cfg_feature config) (cfg_classifier config)
                      (PyDict.mem key trained)])
  end.

Definition get_available_models : M (list model_info) :=
  available_models_loop MODEL_CONFIGS [].

(** The row of [get_available_models] for one item of [MODEL_CONFIGS]. *)
Definition info_of (s : pystate) (item : string * config) : model_info :=
  ModelInfo (fst item) (cfg_display_name (snd item)) (cfg_description (snd item))
    (cfg_feature (snd item)) (cfg_classifier (snd item))
    (PyDict.mem (fst item) (_trained_models s)).

(** [GET /models] *)
Definition get_models (s : pystate) : pystate * response (list model_info) :=
  match get_available_models s with
  | (s', inr l) => (s', Ok l)
  | (s', inl _) => (s', HTTPException 500 "Internal Server Error")
  end.
End AvailableModels.

(** ** The cache in a running process *)

Section CacheInvariant.
Context {L : Library}.

(** [o] is a fitted extractor of the feature type [ft]. *)
Definition fitted_extractor (ft : string) (o : obj) : Prop :=
  (ft = "tfidf" /\ exists p st, o = TfidfVectorizer p (Some st))
  \/ (ft = "word_embeddings" /\ exists p st, o = Pipeline p (Some st)).

(** The entry [e] under [k]: [k] is a configured identity, the entry has its
    feature type, and it refers to a fitted extractor of that type and to a
    fitted classifier of the configured family. *)
Definition entry_ok (s : pystate) (k : string) (e : cache_entry) : Prop :=
  exists c rx ext est st,
    PyDict.get k MODEL_CONFIGS = Some c
    /\ ce_feature_type e = cfg_feature c
    /\ extractor_ref e = Some rx
    /\ heap s !! rx = Some ext
    /\ fitted_extractor (cfg_feature c) ext
    /\ heap s !! ce_model e = Some (Classifier est (Some st))
    /\ choose_estimator (cfg_classifier c) (cfg_feature c) = inr est.

Definition cache_ok (s : pystate) : Prop :=
  NoDup (PyDict.keys (_trained_models s))
  /\ forall k e, PyDict.get k (_trained_models s) = Some e -> entry_ok s k e.

(** Every ranked identity has a cache entry. *)
Definition ranking_cached (s : pystate) : Prop :=
  forall r, In r (_comparison_results s) ->
            PyDict.mem (model_key r) (_trained_models s) = true.
End CacheInvariant.

(** ** The shape of a cleaned text *)

(** No two spaces in a row. *)
Fixpoint single_spaced (l : list N) : bool :=
  match l with
  | c1 :: (c2 :: _) as tl =>
      negb (N.eqb c1 PyStr.SP && N.eqb c2 PyStr.SP) && single_spaced tl
  | _ => true
  end.

(** The letters a to z, separated by single spaces, with no space at either
    end. *)
Definition clean_shape (text : string) : Prop :=
  let l := PyStr.points text in
  Forall (fun c => PyStr.is_az c = true \/ c = PyStr.SP) l
  /\ single_spaced l = true
  /\ head l <> Some PyStr.SP
  /\ last l <> Some PyStr.SP.

(** ** [data_loader]: loading and describing the datasets *)

Module DataLoader.

(** A row of the frame that [pd.read_csv] gives, reduced to the two columns
    the code selects: a cell of the text column holds a string or is missing,
    a cell of the label column holds a number or is missing. *)
Record raw_row : Type := RawRow { Text : option string; oh_label : option Q }.

(** A row of the frame [load_dataset] returns. *)
Record row : Type := Row { text : string; label : Z }.

(** The two files, named relative to [BASE_DIR]. *)
Definition DATASET_1_PATH : string := "cyberbullying_dataset_1.csv".
Definition DATASET_2_PATH : string := "cyberbullying_dataset_2.csv".

(** [(df["label"] >= 0.5).astype(int)] on one cell; a comparison with a
    missing value is false. *)
Definition binarize (l : option Q) : Z :=
  match l with
  | Some q => if Qle_bool (1 # 2) q then 1%Z else 0%Z
  | None => 0%Z
  end.

Section Frames.
Context {L : Library}.

Definition binarize_labels (df : list raw_row) : list (option string * Z) :=
  map (fun r => (Text r, binarize (oh_label r))) df.

(** [df.dropna(subset=["text"])] *)
Definition dropna (df : list (option string * Z)) : list row :=
  flat_map (fun r => match fst r with
                     | Some t => [Row t (snd r)]
                     | None => []
                     end) df.

(** [df[df["text"].str.strip() != ""]] *)
Definition nonblank (df : list row) : list row :=
  List.filter (fun r => negb (String.eqb (PyStr.strip (text r)) "")) df.

(** [df["text"].apply(clean_text)] *)
Definition apply_clean_text (df : list row) : list row :=
  map (fun r => Row (clean_text (text r)) (label r)) df.

(** Lines 50-63 of [load_dataset], on the list of frames read. *)
Definition prepare (frames : list (list raw_row)) : list row :=
  let df := concat frames in
  let df := binarize_labels df in
  let df := dropna df in
  let df := nonblank df in
  let df := apply_clean_text df in
  nonblank df.

(** [df["label"].sum()] *)
Definition label_sum (df : list row) : Z :=
  fold_right (fun r acc => (label r + acc)%Z) 0%Z df.

(** [df["text"].str.len()]: the number of code points of every text. *)
Definition text_lengths (df : list row) : list nat :=
  map (fun r => length (PyStr.points (text r))) df.
End Frames.

(** The dictionary [get_dataset_stats] returns. *)
Record dataset_stats : Type := Stats {
  dataset_id : string;
  total_samples : Z;
  bullying_samples : Z;
  safe_samples : Z;
  bullying_ratio : Q;
  avg_text_length : pyfloat }.

(** A float that [json.dumps(..., allow_nan=False)] accepts. *)
Definition json_float (x : pyfloat) : bool :=
  match x with
  | Fin _ => true
  | NaN => false
  end.

Section Loading.
Context {L : Library}.
(** [pd.read_csv(path, on_bad_lines="skip")[["Text", "oh_label"]]]: the rows
    of the file, or the exception of a missing file or column.  The files do
    not change between two reads. *)
Variable read_csv : string -> exn + list raw_row.
(** [round(lengths.mean(), 1)]: the mean of pandas, a NumPy float, rounded
    by NumPy. *)
Variable rounded_mean : list nat -> pyfloat.

Definition load_dataset (dataset_id : string) : exn + list row :=
  let frames := [] in
  ebind (if String.eqb dataset_id "1" || String.eqb dataset_id "combined"
         then ebind (read_csv DATASET_1_PATH) (fun df1 => inr (frames ++ [df1]))
         else inr frames) (fun frames =>
  ebind (if String.eqb dataset_id "2" || String.eqb dataset_id "combined"
         then ebind (read_csv DATASET_2_PATH) (fun df2 => inr (frames ++ [df2]))
         else inr frames) (fun frames =>
  match frames with
  | [] => inl (Exn ValueError ("Unknown dataset_id: " ++ dataset_id))
  | _ => inr (prepare frames)
  end)).

Definition get_dataset_stats (dataset_id : string) : exn + dataset_stats :=
  ebind (load_dataset dataset_id) (fun df =>
  let total := Z.of_nat (length df) in
  let bullying := label_sum df in
  let safe := (total - bullying)%Z in
  inr (Stats dataset_id total bullying safe
         (if (0 <? total)%Z
          then round_ndigits (int_truediv bullying total) 4
          else 0)
         (rounded_mean (text_lengths df)))).

(** The loop of [routes.get_datasets]. *)
Fixpoint get_datasets_loop (dids : list string) (stats : list dataset_stats)
  : exn + list dataset_stats :=
  match dids with
  | [] => inr stats
  | did :: rest =>
      ebind (get_dataset_stats did) (fun st =>
      get_datasets_loop rest (stats ++ [st]))
  end.

(** [GET /datasets]: what the handler returns is rendered as JSON, which
    has no [nan]; a body that cannot be rendered is answered with the
    plain 500 of the server. *)
Definition get_datasets : response (list dataset_stats) :=
  match get_datasets_loop ["1"; "2"; "combined"] [] with
  | inr stats =>
      if forallb (fun st => json_float (avg_text_length st)) stats
      then Ok stats
      else HTTPException 500 "Internal Server Error"
  | inl e => HTTPException 500 (exn_msg e)
  end.
End Loading.

(** Two small files to run the loader on. *)
Definition toy_csv (path : string) : exn + list raw_row :=
  if String.eqb path DATASET_1_PATH then
    inr [RawRow (Some "You are AWFUL @bob!!") (Some 1%Q);
         RawRow None (Some 1%Q);
         RawRow (Some "   ") (Some 0%Q);
         RawRow (Some "http://x.y 123") (Some (7 # 10)%Q);
         RawRow (Some "nice day") None]
  else if String.eqb path DATASET_2_PATH then
    inr [RawRow (Some "what a lovely cat") (Some (2 # 5)%Q);
         RawRow (Some "go away, loser") (Some (1 # 2)%Q)]
  else inl (Exn (OtherException "FileNotFoundError") "No such file or directory").

(** The mean of a short list of lengths, with one decimal; [nan] for none. *)
Definition toy_rounded_mean (lengths : list nat) : pyfloat :=
  match lengths with
  | [] => NaN
  | _ =>
      Fin (round_ndigits
             (int_truediv (Z.of_nat (list_sum lengths)) (Z.of_nat (length lengths))) 1)
  end.

End DataLoader.


(** ** [email_service]: the SMTP settings and the alert mail *)

Module EmailService.

Record EmailConfig : Type := {
  smtp_host : string;
  smtp_port : Z;
  sender_email : string;
  sender_password : string;
  recipient_email : string;
  use_tls : bool }.

(** The dictionary [get_config] returns. *)
Record config_view : Type := ConfigView {
  v_smtp_host : string;
  v_smtp_port : Z;
  v_sender_email : string;
  v_sender_password : string;
  v_recipient_email : string;
  v_use_tls : bool;
  v_is_configured : bool }.

(** The dictionary [send_alert_email] returns. *)
Record send_result : Type := SendResult { success : bool; message : string }.

(** What the code asks of [smtplib], in the order it asks. *)
Inductive smtp_action : Type :=
| SMTP (host : string) (port : Z)
| SMTP_SSL (host : string) (port : Z)
| starttls
| login (user password : string)
| sendmail (from_addr to_addrs msg : string)
| quit.

(** The module's global and the actions sent to the mail server so far. *)
Record email_state : Type := {
  _email_config : option EmailConfig;
  wire : list smtp_action }.

(** Truth value of a string: the empty string is false. *)
Definition str_truthy (s : string) : bool := negb (String.eqb s "").

(** The eight bullets that stand for a password. *)
Definition MASK : string := "••••••••".

Definition save_config (config : EmailConfig) (s : email_state) : email_state :=
  {| _email_config := Some config; wire := wire s |}.

Definition get_config (s : email_state) : option config_view :=
  match _email_config s with
  | None => None
  | Some c =>
      Some (ConfigView (smtp_host c) (smtp_port c) (sender_email c)
              (if str_truthy (sender_password c) then MASK else "")
              (recipient_email c) (use_tls c)
              (str_truthy (smtp_host c) && str_truthy (sender_email c)))
  end.

Section Smtp.
(** Whether the mail server makes an action raise. *)
Variable smtp_raises : smtp_action -> option exn.
(** [f"{x:.1f}"] *)
Variable format_1f : Q -> string.
(** The HTML template, as a function of the four values it interpolates:
    label, confidence, model name and text. *)
Variable html_body : string -> string -> string -> string -> string.
(** The [MIMEMultipart] message with its three headers and the HTML part
    attached (lines 56-59 and 88), as a function of the sender, the
    recipient and the HTML body; building it may raise. *)
Variable mime : Type.
Variable mime_message : string -> string -> string -> exn + mime.
(** [msg.as_string()]; it may raise, for a header that cannot be written. *)
Variable as_string : mime -> exn + string.

(** One call of [smtplib]: the action goes out, and may raise. *)
Definition smtp_do (a : smtp_action) (s : email_state)
  : email_state * (exn + unit) :=
  let s' := {| _email_config := _email_config s; wire := wire s ++ [a] |} in
  match smtp_raises a with
  | Some e => (s', inl e)
  | None => (s', inr tt)
  end.

(** Actions in a row, up to the first one that raises. *)
Fixpoint smtp_seq (actions : list smtp_action) (s : email_state)
  : email_state * (exn + unit) :=
  match actions with
  | [] => (s, inr tt)
  | a :: rest =>
      match smtp_do a s with
      | (s', inr _) => smtp_seq rest s'
      | (s', inl e) => (s', inl e)
      end
  end.

(** Lines 91-97: connect and log in. *)
Definition session_open (c : EmailConfig) : list smtp_action :=
  (if use_tls c
   then [SMTP (smtp_host c) (smtp_port c); starttls]
   else [SMTP_SSL (smtp_host c) (smtp_port c)])
  ++ [login (sender_email c) (sender_password c)].

(** Lines 98-103: send the text of the message and quit. *)
Definition session_send (c : EmailConfig) (text : string) : list smtp_action :=
  [sendmail (sender_email c) (recipient_email c) text; quit].

(** The body of the [try] block; the argument [msg.as_string()] of
    [sendmail] is evaluated after the login. *)
Definition try_send (c : EmailConfig) (msg : mime) (s : email_state)
  : email_state * (exn + unit) :=
  match smtp_seq (session_open c) s with
  | (s1, inr _) =>
      match as_string msg with
      | inr text => smtp_seq (session_send c text) s1
      | inl e => (s1, inl e)
      end
  | (s1, inl e) => (s1, inl e)
  end.

Definition confidence_pct (confidence : Q) : string :=
  if negb (Qeq_bool confidence 0)
  then (format_1f (round_double (confidence * 100)) ++ "%")%string
  else "N/A".

Definition send_alert_email (text label : string) (confidence : Q)
    (model_name : string) (s : email_state)
  : email_state * (exn + send_result) :=
  match _email_config s with
  | None =>
      (s, inl (Exn ValueError
                 "Email is not configured. Please set up SMTP settings first."))
  | Some c =>
      if negb (str_truthy (smtp_host c)) || negb (str_truthy (sender_email c))
      then (s, inl (Exn ValueError
                      "Incomplete email configuration. Please fill in all SMTP fields."))
      else
        let html := html_body label (confidence_pct confidence) model_name text in
        match mime_message (sender_email c) (recipient_email c) html with
        | inl e => (s, inl e)
        | inr msg =>
            match try_send c msg s with
            | (s', inr _) =>
                (s', inr (SendResult true
                            ("Alert email sent to " ++ recipient_email c)))
            | (s', inl e) =>
                (s', inr (SendResult false
                            ("Failed to send email: " ++ exn_msg e)))
            end
        end
  end.

(** [POST /email/send-alert] *)
Definition send_email_alert (text label : string) (confidence : Q)
    (model_name : string) (s : email_state)
  : email_state * response send_result :=
  match send_alert_email text label confidence model_name s with
  | (s', inr result) =>
      if negb (success result)
      then (s', HTTPException 500 (message result))
      else (s', Ok result)
  | (s', inl e) =>
      if isinstance_ValueError e
      then (s', HTTPException 400 (exn_msg e))
      else (s', HTTPException 500 (exn_msg e))
  end.
End Smtp.

(** [POST /email/config] *)
Definition save_email_config (config : EmailConfig) (s : email_state)
  : email_state * response send_result :=
  (save_config config s,
   Ok (SendResult true "Email configuration saved successfully")).

(** [GET /email/config] *)
Definition get_email_config (s : email_state)
  : email_state * response (option config_view) :=
  (s, Ok (get_config s)).

(** A mail server that refuses one login, and plain renderings, to run the
    code on; the message cannot be written when the recipient has a line
    break in it. *)
Definition toy_smtp (a : smtp_action) : option exn :=
  match a with
  | login _ "wrong" =>
      Some (Exn (OtherException "SMTPAuthenticationError") "535 bad credentials")
  | _ => None
  end.
Definition toy_format (q : Q) : string := "87.5".
Definition toy_html (label pct model_name text : string) : string :=
  (label ++ " " ++ pct ++ " " ++ model_name ++ " " ++ text)%string.
Definition toy_mime (from_addr to_addr html : string)
  : exn + (string * string * string) :=
  inr (from_addr, to_addr, html).
Definition has_newline (s : string) : bool :=
  existsb (Ascii.eqb "010") (list_ascii_of_string s).
Definition toy_as_string (msg : string * string * string) : exn + string :=
  let '(from_addr, to_addr, html) := msg in
  if has_newline to_addr
  then inl (Exn (OtherException "HeaderParseError")
              "header value appears to contain an embedded header")
  else inr (from_addr ++ " " ++ to_addr ++ " " ++ html)%string.
Definition toy_config (password : string) : EmailConfig :=
  {| smtp_host := "smtp.example.org"; smtp_port := 587;
     sender_email := "alerts@example.org"; sender_password := password;
     recipient_email := "admin@example.org"; use_tls := true |}.
Definition toy_state : email_state := {| _email_config := None; wire := [] |}.

End EmailService.


(** ** [routes.train_all]: the training loop *)

Section TrainAll.
Context {L : Library}.

(** The [for] loop of [POST /train-all], over the keys still to train. *)
Fixpoint train_all_loop (keys : list string) (X_train X_test : list string)
    (y_train y_test : list Z) (req_dataset_id : string) (results : list result)
  : M (list result) :=
  match keys with
  | [] => ret results
  | model_key :: rest =>
      result <- train_model model_key X_train X_test y_train y_test ;;
      let result := set_dataset_id result req_dataset_id in
      train_all_loop rest X_train X_test y_train y_test req_dataset_id
        (results ++ [result])
  end.
End TrainAll.


(** * Properties *)

(** ** Strings *)

Example clean_text_sample :
  @clean_text (Toy.library Toy.NoFault)
    "Hey @Bob_1, LOOK at https://x.io/a?b  NOW!! www.y.z 42" = "hey look at now".
Proof. vm_compute. reflexivity. Qed.

Example clean_text_digits : @clean_text (Toy.library Toy.NoFault) "12345 !!" = "".
Proof. vm_compute. reflexivity. Qed.

(** The no-break space U+00A0, bytes 0xC2 0xA0, is whitespace. *)
Example strip_no_break_space :
  let nbsp := String "194" (String "160" "") in
  PyStr.points nbsp = [160%N]
  /\ @PyStr.strip (Toy.library Toy.NoFault) nbsp = ""
  /\ @clean_text (Toy.library Toy.NoFault) ("a" ++ nbsp ++ "b") = "a b".
Proof. vm_compute. auto. Qed.

(** [1 / 160] as a double rounds to 0.0063, the exact quotient to 0.0062. *)
Example round_double_sample :
  round_ndigits (int_truediv 1 160) 4 = (63 # 10000)%Q
  /\ round_ndigits (1 # 160) 4 = (62 # 10000)%Q.
Proof. vm_compute. auto. Qed.

Example title_sample :
  PyStr.title (PyStr.replace_char "_" " " "logistic_regression") = "Logistic Regression".
Proof. vm_compute. reflexivity. Qed.


(** ** Running the state monad symbolically *)

Section Execution.
Context {L : Library}.

Lemma lookup_last (h : list obj) (o : obj) : (h ++ [o]) !! length h = Some o.
Proof. rewrite lookup_app_r by lia. rewrite Nat.sub_diag. reflexivity. Qed.

Lemma insert_last (h : list obj) (o o' : obj) :
  <[length h := o']> (h ++ [o]) = h ++ [o'].
Proof. rewrite insert_app_r_alt by lia. rewrite Nat.sub_diag. reflexivity. Qed.

Lemma bind_assoc {A B C} (c : M A) (f : A -> M B) (k : B -> M C) (s : pystate) :
  bind (bind c f) k s = bind c (fun x => bind (f x) k) s.
Proof. unfold bind. destruct (c s) as [s' [e|a]]; reflexivity. Qed.

Lemma bind_deref {A} (r : ref) (o : obj) (k : obj -> M A) (s : pystate) :
  heap s !! r = Some o -> bind (deref r) k s = k o s.
Proof. intros H. unfold bind, deref. rewrite H. reflexivity. Qed.

Lemma bind_call {A B} (r : exn + A) (k : A -> M B) (s : pystate) :
  bind (call r) k s = match r with inr a => k a s | inl e => (s, inl e) end.
Proof. destruct r; reflexivity. Qed.

Lemma pystate_eq (s1 s2 : pystate) :
  heap s1 = heap s2 ->
  _tfidf_vectorizer s1 = _tfidf_vectorizer s2 ->
  _embedding_pipeline s1 = _embedding_pipeline s2 ->
  _trained_models s1 = _trained_models s2 ->
  _comparison_results s1 = _comparison_results s2 ->
  clock s1 = clock s2 ->
  ticks s1 = ticks s2 ->
  s1 = s2.
Proof. destruct s1, s2; simpl; intros; subst; reflexivity. Qed.

Lemma only_allocated_refl (s : pystate) : only_allocated s s.
Proof.
  repeat split. exists []. symmetry. apply app_nil_r.
Qed.

Lemma only_allocated_trans (s1 s2 s3 : pystate) :
  only_allocated s1 s2 -> only_allocated s2 s3 -> only_allocated s1 s3.
Proof.
  intros ([o1 H1] & T1 & C1 & K1) ([o2 H2] & T2 & C2 & K2).
  repeat split; try congruence.
  exists (o1 ++ o2). rewrite H2, H1, app_assoc. reflexivity.
Qed.
End Execution.

Ltac state_simpl :=
  cbn [heap _tfidf_vectorizer _embedding_pipeline _trained_models
       _comparison_results clock ticks set_heap set_tfidf_vectorizer
       set_embedding_pipeline set_trained_models set_comparison_results
       set_ticks fst snd].

(** One step of the computation at the head of the goal; a library call
    splits into its two outcomes. *)
Ltac step :=
  state_simpl;
  match goal with
  | |- context [bind (bind ?c ?f) ?k ?s] => rewrite (bind_assoc c f k s)
  | |- context [bind (ret ?a) ?k ?s] =>
      change (bind (ret a) k s) with (k a s); cbv beta
  | |- context [bind (raise ?e) ?k ?s] =>
      change (bind (raise e) k s) with (s, @inl exn _ e)
  | |- context [bind (gets ?f) ?k ?s] =>
      change (bind (gets f) k s) with (k (f s) s); cbv beta
  | |- context [bind (modify ?f) ?k ?s] =>
      change (bind (modify f) k s) with (k tt (f s)); cbv beta
  | |- context [bind (alloc ?o) ?k ?s] =>
      change (bind (alloc o) k s)
        with (k (length (heap s)) (set_heap (heap s ++ [o]) s)); cbv beta
  | |- context [bind (store ?r ?o) ?k ?s] =>
      change (bind (store r o) k s)
        with (k tt (set_heap (<[r := o]> (heap s)) s)); cbv beta
  | |- context [bind time_time ?k ?s] =>
      change (bind time_time k s)
        with (k (clock s (ticks s)) (set_ticks (S (ticks s)) s)); cbv beta
  | |- context [bind (call ?r) ?k ?s] =>
      rewrite (bind_call r k s); destruct r as [?e|?a] eqn:?;
      cbn [ebind]; cbv beta iota
  | |- context [bind (if ?b then _ else _) ?k ?s] =>
      destruct b eqn:?; cbn [ebind]; cbv beta iota
  | |- context [bind (deref ?r) ?k ?s] =>
      rewrite (bind_deref r _ k s) by (state_simpl; apply lookup_last)
  | |- context [<[length ?h := ?o']> (?h ++ [?o])] => rewrite (insert_last h o o')
  end.

Ltac failed_call :=
  eexists; split; [reflexivity|];
  repeat split; try reflexivity; state_simpl;
  eexists; rewrite <- ?app_assoc; reflexivity.

(** ** [train_model] computes [evaluate] *)

Section TrainModel.
Context {L : Library}.

Lemma train_model_evaluate (key : string) (X_train X_test : list string)
    (y_train y_test : list Z) (s : pystate) :
  match evaluate key X_train X_test y_train y_test with
  | inl e =>
      exists s', train_model key X_train X_test y_train y_test s = (s', inl e)
                 /\ only_allocated s s'
  | inr ev =>
      train_model key X_train X_test y_train y_test s =
        (trained_state key ev s,
         inr (bundle key ev (feat_time_of s) (train_time_of s) (pred_time_of s)
                (length y_train) (length y_test)))
  end.
Proof.
  unfold evaluate, train_model, getitem_config.
  destruct (PyDict.get key MODEL_CONFIGS) as [config|].
  2: { eexists; split; [reflexivity|]. apply only_allocated_refl. }
  step.
  unfold extract, build_tfidf, build_word_embeddings, fit_transform, transform,
    _create_classifier, choose_estimator, mean_confidence, fit, predict,
    hasattr_predict_proba, predict_proba.
  repeat step.
  all: state_simpl.
  all: try failed_call.
  all: unfold ret; f_equal.
  all: try (apply pystate_eq; unfold trained_state, entry_of; state_simpl).
  all: try (unfold bundle, feat_time_of, train_time_of, pred_time_of).
  all: cbn [ev_config ev_extractor ev_classifier ev_confidence ev_accuracy
            ev_precision ev_recall ev_f1 ev_confusion Nat.add].
  all: rewrite ?length_app; cbn [length];
       rewrite <- ?app_assoc, ?Nat.add_1_r; cbn [app].
  all: try match goal with
           | H : String.eqb (cfg_feature ?c) "tfidf" = true |- _ =>
               let H' := fresh in
               assert (H' : String.eqb (cfg_feature c) "word_embeddings" = false)
                 by (apply String.eqb_eq in H; rewrite H; reflexivity);
               rewrite ?H'
           end.
  all: repeat match goal with
              | H : String.eqb _ _ = _ |- _ => rewrite ?H; clear H
              end.
  all: reflexivity.
Qed.
End TrainModel.

(** ** [predict_text] reads the cache and writes nothing *)

Section PredictText.
Context {L : Library}.


Lemma read_only_ret {A} (a : A) : read_only (ret a).
Proof. intros s. reflexivity. Qed.

Lemma read_only_raise {A} (e : exn) : read_only (@raise _ A e).
Proof. intros s. reflexivity. Qed.

Lemma read_only_gets {A} (f : pystate -> A) : read_only (gets f).
Proof. intros s. reflexivity. Qed.

Lemma read_only_call {A} (r : exn + A) : read_only (call r).
Proof. intros s. destruct r; reflexivity. Qed.

Lemma read_only_deref (r : ref) : read_only (deref r).
Proof. intros s. unfold deref. destruct (heap s !! r); reflexivity. Qed.

Lemma read_only_bind {A B} (c : M A) (k : A -> M B) :
  read_only c -> (forall a, read_only (k a)) -> read_only (bind c k).
Proof.
  intros Hc Hk s. unfold bind. specialize (Hc s).
  destruct (c s) as [s' [e|a]]; simpl in *; subst; [reflexivity|apply Hk].
Qed.

Create HintDb read_only.
Hint Resolve read_only_ret read_only_raise read_only_gets read_only_call
  read_only_deref : read_only.

Ltac read_only :=
  repeat first
    [ apply read_only_bind; [|intros ?]
    | solve [auto with read_only]
    | match goal with
      | |- read_only (match ?x with _ => _ end) => destruct x
      | |- read_only (if ?x then _ else _) => destruct x
      end ].

Lemma read_only_transform (recv : option ref) (docs : list string) :
  read_only (transform recv docs).
Proof. unfold transform. read_only. Qed.

Lemma read_only_predict (clf : ref) (X : Matrix) : read_only (predict clf X).
Proof. unfold predict. read_only. Qed.

Lemma read_only_hasattr (clf : ref) : read_only (hasattr_predict_proba clf).
Proof. unfold hasattr_predict_proba. read_only. Qed.

Lemma read_only_predict_proba (clf : ref) (X : Matrix) :
  read_only (predict_proba clf X).
Proof. unfold predict_proba. read_only. Qed.

Hint Resolve read_only_transform read_only_predict read_only_hasattr
  read_only_predict_proba : read_only.

Lemma read_only_predict_text (model_key text : string) :
  read_only (predict_text model_key text).
Proof.
  unfold predict_text. apply read_only_bind; [auto with read_only|].
  intros trained. destruct (PyDict.get model_key trained); read_only.
Qed.

Lemma read_only_try_except {A} (c : M A) (h : exn -> M A) :
  read_only c -> (forall e, read_only (h e)) -> read_only (try_except c h).
Proof.
  intros Hc Hh s. unfold try_except. specialize (Hc s).
  destruct (c s) as [s' [e|a]]; simpl in *; subst; [apply Hh|reflexivity].
Qed.

Lemma read_only_getitem_config (k : string) : read_only (getitem_config k).
Proof. unfold getitem_config. read_only. Qed.

Lemma read_only_predict_all_loop (text : string) (keys : list string) :
  forall results, read_only (predict_all_loop text keys results).
Proof.
  induction keys as [|k keys IH]; intros results; simpl.
  - apply read_only_ret.
  - apply read_only_bind; [|intros; apply IH].
    apply read_only_try_except; [|intros; apply read_only_ret].
    apply read_only_bind; [apply read_only_predict_text|intros].
    apply read_only_bind; [apply read_only_getitem_config|intros].
    apply read_only_ret.
Qed.

Lemma read_only_predict_all_models (text : string) :
  read_only (predict_all_models text).
Proof.
  unfold predict_all_models.
  apply read_only_bind; [apply read_only_gets|intros].
  apply read_only_predict_all_loop.
Qed.

(** The result of a read-only computation, as a pair. *)
Lemma read_only_run {A} (c : M A) (s : pystate) :
  read_only c -> c s = (s, snd (c s)).
Proof. intros H. specialize (H s). destruct (c s); simpl in *; congruence. Qed.
End PredictText.

Section PredictTextInfer.
Context {L : Library}.

Lemma bind_run {A B} (c : M A) (k : A -> M B) (s : pystate) (r : exn + A) :
  c s = (s, r) ->
  bind c k s = match r with inr a => k a s | inl e => (s, inl e) end.
Proof. intros H. unfold bind. rewrite H. destruct r; reflexivity. Qed.

Lemma transform_run (r : ref) (o : obj) (docs : list string) (s : pystate) :
  heap s !! r = Some o -> transform (Some r) docs s = (s, transform_obj o docs).
Proof.
  intros H. unfold transform. rewrite (bind_deref r o) by exact H.
  destruct o as [p [st|]|p [st|]|e st]; simpl;
    try reflexivity; match goal with |- call ?x _ = _ => destruct x end; reflexivity.
Qed.

Lemma predict_run (r : ref) (o : obj) (X : Matrix) (s : pystate) :
  heap s !! r = Some o -> predict r X s = (s, predict_obj o X).
Proof.
  intros H. unfold predict. rewrite (bind_deref r o) by exact H.
  destruct o as [p st|p st|e [st|]]; simpl;
    try reflexivity; match goal with |- call ?x _ = _ => destruct x end; reflexivity.
Qed.

Lemma hasattr_run (r : ref) (o : obj) (s : pystate) :
  heap s !! r = Some o -> hasattr_predict_proba r s = (s, inr (hasattr_obj o)).
Proof.
  intros H. unfold hasattr_predict_proba. rewrite (bind_deref r o) by exact H.
  destruct o; reflexivity.
Qed.

Lemma predict_proba_run (r : ref) (o : obj) (X : Matrix) (s : pystate) :
  heap s !! r = Some o -> predict_proba r X s = (s, predict_proba_obj o X).
Proof.
  intros H. unfold predict_proba. rewrite (bind_deref r o) by exact H.
  destruct o as [p st|p st|e [st|]]; simpl;
    try reflexivity; match goal with |- call ?x _ = _ => destruct x end; reflexivity.
Qed.

(** With the entry of [model_key] and the two objects it refers to in
    hand, [predict_text] is [infer] on these objects. *)
Lemma predict_text_infer (model_key text : string) (s : pystate)
    (entry : cache_entry) (rx : ref) (ext clf : obj) :
  PyDict.get model_key (_trained_models s) = Some entry ->
  extractor_ref entry = Some rx ->
  heap s !! rx = Some ext ->
  heap s !! ce_model entry = Some clf ->
  predict_text model_key text s = (s, infer ext clf model_key text).
Proof.
  intros Hget Hrx Hext Hclf.
  unfold predict_text.
  change (bind (gets _trained_models) ?k s) with (k (_trained_models s) s).
  cbv beta. rewrite Hget.
  assert (Hvec :
    (if String.eqb (ce_feature_type entry) "tfidf"
     then transform (ce_tfidf_vec entry) [text]
     else transform (ce_embedding_pipeline entry) [text]) s
    = (s, transform_obj ext [text])).
  { unfold extractor_ref in Hrx.
    destruct (String.eqb (ce_feature_type entry) "tfidf");
      rewrite Hrx; apply transform_run; exact Hext. }
  rewrite (bind_run _ _ s _ Hvec).
  unfold infer, classify, single_confidence.
  destruct (transform_obj ext [text]) as [e|vec]; [reflexivity|]. cbn [ebind].
  rewrite (bind_run _ _ s _ (predict_run _ _ vec s Hclf)).
  destruct (predict_obj clf vec) as [e|preds]; [reflexivity|]. cbn [ebind].
  destruct preds as [|p preds]; [reflexivity|]. cbn [ebind].
  change (bind (ret p) ?k s) with (k p s). cbv beta.
  rewrite (bind_run _ _ s _ (hasattr_run _ _ s Hclf)).
  destruct (hasattr_obj clf).
  - rewrite bind_assoc.
    rewrite (bind_run _ _ s _ (predict_proba_run _ _ vec s Hclf)).
    destruct (predict_proba_obj clf vec) as [e|[|[|x row] rest]]; reflexivity.
  - reflexivity.
Qed.

Lemma predict_text_not_trained (model_key text : string) (s : pystate) :
  PyDict.get model_key (_trained_models s) = None ->
  predict_text model_key text s = (s, inl (not_trained model_key)).
Proof.
  intros Hget. unfold predict_text.
  change (bind (gets _trained_models) ?k s) with (k (_trained_models s) s).
  cbv beta. rewrite Hget. reflexivity.
Qed.
End PredictTextInfer.

(** ** Dictionaries *)

Section DictFacts.
Context {V : Type}.
Implicit Types (d : PyDict.dict V) (k : string) (v : V).

Lemma get_set_same k v d : PyDict.get k (PyDict.set k v d) = Some v.
Proof.
  induction d as [|[k' v'] d IH]; simpl.
  - rewrite String.eqb_refl. reflexivity.
  - destruct (String.eqb k k') eqn:E; simpl; rewrite ?String.eqb_refl, ?E; auto.
Qed.

Lemma get_set_other k k' v d :
  k <> k' -> PyDict.get k' (PyDict.set k v d) = PyDict.get k' d.
Proof.
  intros Hne. induction d as [|[k0 v0] d IH]; simpl.
  - destruct (String.eqb k' k) eqn:E; [|reflexivity].
    apply String.eqb_eq in E. congruence.
  - destruct (String.eqb k k0) eqn:E; simpl.
    + apply String.eqb_eq in E. subst k0.
      destruct (String.eqb k' k) eqn:E'; [|reflexivity].
      apply String.eqb_eq in E'. congruence.
    + rewrite IH. reflexivity.
Qed.

Lemma get_In_keys k v d : PyDict.get k d = Some v -> In k (PyDict.keys d).
Proof.
  induction d as [|[k' v'] d IH]; simpl; [discriminate|].
  destruct (String.eqb k k') eqn:E.
  - apply String.eqb_eq in E. auto.
  - auto.
Qed.
End DictFacts.

(** ** The frame of a call: what it leaves as it was *)

Section Frame.
Context {L : Library}.


Lemma objects_kept_app (s s' : pystate) (objs : list obj) :
  heap s' = heap s ++ objs -> objects_kept s s'.
Proof.
  intros H r o Hr. rewrite H. rewrite lookup_app_l; [exact Hr|].
  eapply lookup_lt_Some; eauto.
Qed.

Lemma only_allocated_kept (s s' : pystate) :
  only_allocated s s' -> objects_kept s s'.
Proof. intros ([objs H] & _). eapply objects_kept_app; eauto. Qed.

Lemma train_model_fails (key : string) X_train X_test y_train y_test
    (s s' : pystate) (e : exn) :
  train_model key X_train X_test y_train y_test s = (s', inl e) ->
  evaluate key X_train X_test y_train y_test = inl e /\ only_allocated s s'.
Proof.
  intros H.
  pose proof (train_model_evaluate key X_train X_test y_train y_test s) as T.
  destruct (evaluate key X_train X_test y_train y_test) as [e'|ev].
  - destruct T as (s0 & T & A). rewrite T in H. inversion H; subst. auto.
  - rewrite T in H. discriminate.
Qed.

Lemma train_model_succeeds (key : string) X_train X_test y_train y_test
    (s s' : pystate) (r : result) :
  train_model key X_train X_test y_train y_test s = (s', inr r) ->
  exists ev,
    evaluate key X_train X_test y_train y_test = inr ev
    /\ s' = trained_state key ev s
    /\ r = bundle key ev (feat_time_of s) (train_time_of s) (pred_time_of s)
             (length y_train) (length y_test).
Proof.
  intros H.
  pose proof (train_model_evaluate key X_train X_test y_train y_test s) as T.
  destruct (evaluate key X_train X_test y_train y_test) as [e'|ev].
  - destruct T as (s0 & T & A). rewrite T in H. discriminate.
  - rewrite T in H. inversion H; subst. eauto.
Qed.

Lemma trained_state_kept (key : string) (ev : evaluation) (s : pystate) :
  objects_kept s (trained_state key ev s).
Proof. eapply objects_kept_app. reflexivity. Qed.

(** [train_model] on [A] keeps the objects and the entry of any other [B]. *)
Lemma train_model_frame (A B : string) X_train X_test y_train y_test (s : pystate) :
  A <> B ->
  let s' := fst (train_model A X_train X_test y_train y_test s) in
  PyDict.get B (_trained_models s') = PyDict.get B (_trained_models s)
  /\ objects_kept s s'.
Proof.
  intros Hne s'. subst s'.
  destruct (train_model A X_train X_test y_train y_test s) as [s' [e|r]] eqn:E;
    simpl.
  - apply train_model_fails in E as (_ & A0).
    split; [|apply only_allocated_kept; exact A0].
    destruct A0 as (_ & T & _). rewrite T. reflexivity.
  - apply train_model_succeeds in E as (ev & _ & -> & _).
    split; [|apply trained_state_kept].
    simpl. apply get_set_other. exact Hne.
Qed.

(** The body of [POST /train], case by case. *)
Lemma train_body_run (key did : string) (s : pystate) :
  Routes.train_body key did s =
    match get_train_test_split did with
    | inl e => (s, inl e)
    | inr (X_train, X_test, y_train, y_test) =>
        match train_model key X_train X_test y_train y_test s with
        | (s', inl e) => (s', inl e)
        | (s', inr r) =>
            (set_comparison_results
               (Routes.update_comparison key (set_dataset_id r did)
                  (_comparison_results s')) s',
             inr (set_dataset_id r did))
        end
    end.
Proof.
  unfold Routes.train_body. rewrite bind_call.
  destruct (get_train_test_split did) as [e|[[[X_train X_test] y_train] y_test]];
    [reflexivity|].
  unfold bind at 1.
  destruct (train_model key X_train X_test y_train y_test s) as [s' [e|r]];
    reflexivity.
Qed.
End Frame.

Section CallsFrame.
Context {L : Library}.


Lemma kept_refl (key : string) (s : pystate) : kept key s s.
Proof. split; [intros r o H; exact H|reflexivity]. Qed.

Lemma kept_trans (key : string) (s1 s2 s3 : pystate) :
  kept key s1 s2 -> kept key s2 s3 -> kept key s1 s3.
Proof.
  intros [O1 G1] [O2 G2]. split; [|congruence].
  intros r o H. apply O2, O1, H.
Qed.

Lemma predict_endpoint_state (text key : string) (s : pystate) :
  fst (Routes.predict text key s) = s.
Proof.
  unfold Routes.predict.
  destruct (String.eqb (PyStr.strip text) ""); [reflexivity|].
  pose proof (read_only_predict_text key (clean_text text) s) as H.
  destruct (predict_text key (clean_text text) s) as [s' [e|p]]; simpl in *;
    [destruct (isinstance_ValueError e)|]; exact H.
Qed.

Lemma predict_all_endpoint_state (text : string) (s : pystate) :
  fst (Routes.predict_all text s) = s.
Proof.
  unfold Routes.predict_all.
  destruct (String.eqb (PyStr.strip text) ""); [reflexivity|].
  pose proof (read_only_predict_all_models (clean_text text) s) as H.
  destruct (predict_all_models (clean_text text) s) as [s' [e|p]]; exact H.
Qed.

Lemma train_endpoint_frame (A B did : string) (s : pystate) :
  A <> B -> kept B s (fst (Routes.train_model A did s)).
Proof.
  intros Hne. unfold Routes.train_model.
  destruct (negb (PyDict.mem A MODEL_CONFIGS)); [apply kept_refl|].
  rewrite train_body_run.
  destruct (get_train_test_split did) as [e|[[[X_train X_test] y_train] y_test]];
    [apply kept_refl|].
  pose proof (train_model_frame A B X_train X_test y_train y_test s Hne) as [G O].
  destruct (train_model A X_train X_test y_train y_test s) as [s' [e|r]];
    simpl in *; split; assumption.
Qed.

Lemma run_op_frame (key : string) (o : op) (s : pystate) :
  trains o <> Some key -> kept key s (run_op o s).
Proof.
  intros H. destruct o as [k Xtr Xte ytr yte|k t|t|k d|t k|t]; simpl in *.
  - assert (k <> key) as Hne by congruence.
    destruct (train_model_frame k key Xtr Xte ytr yte s Hne). split; assumption.
  - rewrite (read_only_predict_text k t s). apply kept_refl.
  - rewrite (read_only_predict_all_models t s). apply kept_refl.
  - apply train_endpoint_frame. congruence.
  - rewrite predict_endpoint_state. apply kept_refl.
  - rewrite predict_all_endpoint_state. apply kept_refl.
Qed.

Lemma run_ops_frame (key : string) (ops : list op) :
  leaves_alone key ops -> forall s, kept key s (run_ops ops s).
Proof.
  induction 1 as [|o ops Ho _ IH]; intros s; simpl.
  - apply kept_refl.
  - eapply kept_trans; [apply run_op_frame; exact Ho|apply IH].
Qed.
End CallsFrame.

(** ** The ranking: a stable sort by F1, one bundle per identity *)

Section RankingFacts.
Import Routes Ranking.
Implicit Types (r x y : result) (l rs : list result).

Lemma insert_desc_perm x l : Permutation (insert_desc x l) (x :: l).
Proof.
  induction l as [|y l IH]; simpl; [reflexivity|].
  destruct (Qle_bool (f1_of y) (f1_of x)); [reflexivity|].
  rewrite IH. apply perm_swap.
Qed.

Lemma sort_perm l : Permutation (sort_by_f1_desc l) l.
Proof.
  induction l as [|x l IH]; simpl; [reflexivity|].
  rewrite insert_desc_perm, IH. reflexivity.
Qed.

Lemma insert_desc_sorted x l : sorted_desc l -> sorted_desc (insert_desc x l).
Proof.
  unfold sorted_desc. induction 1 as [|y l Hs IH Hy]; simpl.
  - repeat constructor.
  - destruct (Qle_bool (f1_of y) (f1_of x)) eqn:E.
    + apply Qle_bool_iff in E.
      constructor; [constructor; assumption|].
      constructor; [exact E|].
      eapply Forall_impl; [exact Hy|]. intros z Hz. simpl in *.
      eapply Qle_trans; eauto.
    + assert (f1_of x <= f1_of y)%Q as Hxy.
      { destruct (Qlt_le_dec (f1_of y) (f1_of x)) as [Hlt|Hle]; [|exact Hle].
        apply Qlt_le_weak in Hlt. apply Qle_bool_iff in Hlt. congruence. }
      constructor; [exact IH|].
      eapply Permutation_Forall; [symmetry; apply insert_desc_perm|].
      constructor; assumption.
Qed.

Lemma sort_sorted l : sorted_desc (sort_by_f1_desc l).
Proof.
  induction l as [|x l IH]; simpl; [constructor|].
  apply insert_desc_sorted, IH.
Qed.

(** Stability: bundles with equal F1 keep their order. *)
Lemma with_f1_insert q x l :
  with_f1 q (insert_desc x l) = with_f1 q (x :: l).
Proof.
  unfold with_f1. induction l as [|y l IH]; [reflexivity|].
  simpl insert_desc.
  destruct (Qle_bool (f1_of y) (f1_of x)) eqn:E; [reflexivity|].
  simpl in *. rewrite IH.
  destruct (Qeq_bool (f1_of x) q) eqn:Ex; [|reflexivity].
  destruct (Qeq_bool (f1_of y) q) eqn:Ey; [|reflexivity].
  apply Qeq_bool_iff in Ex, Ey.
  assert (f1_of y <= f1_of x)%Q as Hle by (rewrite Ex, Ey; apply Qle_refl).
  apply Qle_bool_iff in Hle. congruence.
Qed.

Lemma with_f1_sort q l : with_f1 q (sort_by_f1_desc l) = with_f1 q l.
Proof.
  induction l as [|x l IH]; [reflexivity|].
  simpl sort_by_f1_desc. rewrite with_f1_insert.
  unfold with_f1 in *. simpl. rewrite IH. reflexivity.
Qed.

Lemma record_unfold r rs : record r rs = sort_by_f1_desc (append_or_replace r rs).
Proof. reflexivity. Qed.

Lemma record_perm r rs : Permutation (record r rs) (append_or_replace r rs).
Proof. rewrite record_unfold. apply sort_perm. Qed.

Lemma append_or_replace_keys r rs :
  NoDup (map model_key rs) -> NoDup (map model_key (append_or_replace r rs)).
Proof.
  intros H. unfold append_or_replace. rewrite map_app. simpl.
  apply NoDup_app. split; [|split].
  - induction rs as [|x rs IH]; simpl in *; [constructor|].
    apply NoDup_cons in H as [Hx H].
    destruct (negb (String.eqb (model_key x) (model_key r))); simpl; [|auto].
    apply NoDup_cons. split; [|auto].
    intros Hin. apply Hx.
    apply list_elem_of_In in Hin. apply list_elem_of_In.
    apply in_map_iff in Hin as (y & Hy & Hin). apply in_map_iff.
    exists y. split; [exact Hy|]. apply filter_In in Hin. tauto.
  - intros k Hk Hk'. apply list_elem_of_In in Hk, Hk'.
    destruct Hk' as [<-|[]].
    apply in_map_iff in Hk as (y & Hy & Hin). apply filter_In in Hin as [_ Hin].
    rewrite Hy, String.eqb_refl in Hin. discriminate.
  - apply NoDup_singleton.
Qed.

Lemma record_keys r rs :
  NoDup (map model_key rs) -> NoDup (map model_key (record r rs)).
Proof.
  intros H. rewrite (Permutation_map model_key (record_perm r rs)).
  apply append_or_replace_keys, H.
Qed.

Lemma record_all_keys rs : forall start,
  NoDup (map model_key start) -> NoDup (map model_key (record_all rs start)).
Proof.
  induction rs as [|r rs IH]; intros start H; simpl; [exact H|].
  apply IH, record_keys, H.
Qed.

Lemma record_all_sorted rs : forall start,
  sorted_desc start -> sorted_desc (record_all rs start).
Proof.
  induction rs as [|r rs IH]; intros start H; simpl; [exact H|].
  apply IH. rewrite record_unfold. apply sort_sorted.
Qed.

Lemma filter_swap (f g : result -> bool) l :
  List.filter f (List.filter g l) = List.filter g (List.filter f l).
Proof.
  induction l as [|x l IH]; simpl; [reflexivity|].
  destruct (g x) eqn:Eg, (f x) eqn:Ef; simpl; rewrite ?Eg, ?Ef, IH; reflexivity.
Qed.

Lemma with_f1_append_or_replace q r l l' :
  with_f1 q l = with_f1 q l' ->
  with_f1 q (append_or_replace r l) = with_f1 q (append_or_replace r l').
Proof.
  intros H. unfold with_f1, append_or_replace in *.
  rewrite !List.filter_app. f_equal.
  rewrite (filter_swap _ _ l), (filter_swap _ _ l'), H. reflexivity.
Qed.

(** Ties are in the order in which the bundles were last recorded. *)
Lemma record_all_ties q rs : forall start start',
  with_f1 q start = with_f1 q start' ->
  with_f1 q (record_all rs start) = with_f1 q (latest rs start').
Proof.
  induction rs as [|r rs IH]; intros start start' H; simpl; [exact H|].
  apply IH. rewrite record_unfold, with_f1_sort.
  apply with_f1_append_or_replace, H.
Qed.

Lemma append_or_replace_in_keys r rs k :
  In k (map model_key (append_or_replace r rs)) ->
  k = model_key r \/ In k (map model_key rs).
Proof.
  unfold append_or_replace. rewrite map_app, in_app_iff. simpl.
  intros [H|[H|[]]]; [right|left; congruence].
  apply in_map_iff in H as (y & Hy & Hin). apply filter_In in Hin as [Hin _].
  apply in_map_iff. eauto.
Qed.

Lemma record_all_in_keys rs : forall start k,
  In k (map model_key (record_all rs start)) ->
  In k (map model_key rs) \/ In k (map model_key start).
Proof.
  induction rs as [|r rs IH]; intros start k H; simpl in *; [auto|].
  apply IH in H as [H|H]; [auto|].
  rewrite (Permutation_map model_key (record_perm r start)) in H.
  apply append_or_replace_in_keys in H as [H|H]; auto.
Qed.

(** At most one bundle per distinct identity. *)
Lemma record_all_length rs :
  (length (record_all rs []) <= length (remove_dups (map model_key rs)))%nat.
Proof.
  rewrite <- (length_map model_key (record_all rs [])).
  apply submseteq_length, NoDup_submseteq.
  - apply record_all_keys. constructor.
  - intros k Hk. apply elem_of_remove_dups.
    apply list_elem_of_In in Hk. apply list_elem_of_In.
    apply record_all_in_keys in Hk as [Hk|[]]. exact Hk.
Qed.
End RankingFacts.

(** ** Rounding *)

Section Rounding.
Lemma round_half_even_le (x : Q) (T : Z) :
  (x <= inject_Z T)%Q -> (round_half_even x <= T)%Z.
Proof.
  destruct x as [n d]. unfold Qle, round_half_even. simpl. intros H.
  pose proof (Z.div_mod n (Z.pos d) ltac:(lia)) as Hdm.
  pose proof (Z.mod_pos_bound n (Z.pos d) ltac:(lia)) as Hb.
  assert (n / Z.pos d <= T)%Z as Hf.
  { apply Z.div_le_upper_bound; lia. }
  destruct (Z.eq_dec (n / Z.pos d)%Z T) as [E|E].
  - assert (n mod Z.pos d = 0)%Z as -> by nia.
    simpl. rewrite E. lia.
  - destruct (2 * (n mod Z.pos d) ?= Z.pos d)%Z; try lia.
    destruct (Z.even _); lia.
Qed.

Lemma round_half_even_ge (x : Q) (T : Z) :
  (inject_Z T <= x)%Q -> (T <= round_half_even x)%Z.
Proof.
  destruct x as [n d]. unfold Qle, round_half_even. simpl. intros H.
  assert (T <= n / Z.pos d)%Z as Hf.
  { apply Z.div_le_lower_bound; lia. }
  destruct (2 * (n mod Z.pos d) ?= Z.pos d)%Z; try lia.
  destruct (Z.even _); lia.
Qed.

(** The nearest integer is at most one half away. *)
Lemma round_half_even_error (x : Q) :
  (Qabs (inject_Z (round_half_even x) - x) <= 1 # 2)%Q.
Proof.
  apply Qabs_Qle_condition.
  destruct x as [n d]. unfold round_half_even. simpl.
  pose proof (Z.div_mod n (Z.pos d) ltac:(lia)) as Hdm.
  pose proof (Z.mod_pos_bound n (Z.pos d) ltac:(lia)) as Hb.
  set (f := (n / Z.pos d)%Z) in *. set (r := (n mod Z.pos d)%Z) in *.
  destruct (2 * r ?= Z.pos d)%Z eqn:C.
  - apply Z.compare_eq in C.
    destruct (Z.even f); unfold Qle, Qminus, Qplus, Qopp; simpl; split; nia.
  - rewrite Z.compare_lt_iff in C.
    unfold Qle, Qminus, Qplus, Qopp; simpl; split; nia.
  - rewrite Z.compare_gt_iff in C.
    unfold Qle, Qminus, Qplus, Qopp; simpl; split; nia.
Qed.


(** Rounding a rate gives a rate. *)
Lemma round_ndigits_unit (x : Q) (k : nat) :
  unit_interval x -> unit_interval (round_ndigits x k).
Proof.
  intros [H0 H1]. unfold round_ndigits.
  set (T := Z.pos (ten_pow k)).
  assert (0 <= round_half_even (x * inject_Z T))%Z as Hlo.
  { apply round_half_even_ge. change (inject_Z 0) with 0%Q.
    apply Qmult_le_0_compat; [exact H0|]. unfold Qle; simpl; lia. }
  assert (round_half_even (x * inject_Z T) <= T)%Z as Hhi.
  { apply round_half_even_le.
    rewrite <- (Qmult_1_l (inject_Z T)) at 2.
    apply Qmult_le_compat_r; [exact H1|]. unfold Qle; simpl; lia. }
  split; unfold Qle; simpl; lia.
Qed.

(** [round(x, k)] is within half a unit of the last digit of [x]. *)
Lemma round_ndigits_error (x : Q) (k : nat) :
  (Qabs (round_ndigits x k - x) <= 1 # (2 * ten_pow k))%Q.
Proof.
  unfold round_ndigits.
  set (T := ten_pow k).
  pose proof (round_half_even_error (x * inject_Z (Z.pos T))) as E.
  set (z := round_half_even (x * inject_Z (Z.pos T))) in *.
  assert ((z # T) - x == (inject_Z z - x * inject_Z (Z.pos T)) * (1 # T))%Q as ->.
  { unfold inject_Z. destruct x as [n d].
    unfold Qeq, Qminus, Qplus, Qmult, Qopp. simpl. nia. }
  rewrite Qabs_Qmult.
  assert (1 # (2 * T) == (1 # 2) * (1 # T))%Q as -> by reflexivity.
  rewrite (Qabs_pos (1 # T)) by (unfold Qle; simpl; lia).
  apply Qmult_le_compat_r; [exact E|]. unfold Qle; simpl; lia.
Qed.




(** *** Doubles *)

Lemma binade_nonpos (n : Z) (d : positive) :
  (0 < n <= Z.pos d)%Z -> (binade n d <= 0)%Z.
Proof.
  intros [Hn Hd]. unfold binade.
  pose proof (Z.log2_le_mono n (Z.pos d) Hd) as Hl.
  destruct (0 <=? _)%Z; destruct (_ <=? _)%Z; lia.
Qed.


Lemma round_to_unit (q : Z) (x : Q) :
  (q < 0)%Z -> unit_interval x -> unit_interval (round_to q x).
Proof.
  intros Hq [H0 H1]. unfold round_to.
  assert ((0 <=? q)%Z = false) as -> by (apply Z.leb_gt; exact Hq).
  set (T := (2 ^ (- q))%Z).
  assert (0 < T)%Z as HT by (apply Z.pow_pos_nonneg; lia).
  assert (0 <= round_half_even (x * inject_Z T))%Z as Hlo.
  { apply round_half_even_ge. change (inject_Z 0) with 0%Q.
    apply Qmult_le_0_compat; [exact H0|]. unfold Qle; simpl; lia. }
  assert (round_half_even (x * inject_Z T) <= T)%Z as Hhi.
  { apply round_half_even_le.
    rewrite <- (Qmult_1_l (inject_Z T)) at 2.
    apply Qmult_le_compat_r; [exact H1|]. unfold Qle; simpl; lia. }
  split; unfold Qle; simpl; rewrite ?Z2Pos.id by exact HT; lia.
Qed.

(** A double of a rate is a rate. *)
Lemma round_double_unit (x : Q) : unit_interval x -> unit_interval (round_double x).
Proof.
  intros H. pose proof H as [H0 H1]. unfold round_double.
  destruct x as [n d]. cbn [Qnum Qden].
  destruct n as [|n|n].
  - split; unfold Qle; simpl; lia.
  - apply round_to_unit; [|exact H].
    assert (binade (Z.pos n) d <= 0)%Z; [|lia].
    apply binade_nonpos. unfold Qle in H1. simpl in H1. lia.
  - unfold Qle in H0. simpl in H0. lia.
Qed.


(** The double of a quotient of two counts is a rate. *)
Lemma int_truediv_unit (b t : Z) :
  (0 <= b <= t)%Z -> (0 < t)%Z -> unit_interval (int_truediv b t).
Proof.
  intros Hb Ht. apply round_double_unit.
  assert (0 < inject_Z t)%Q as Hq by (unfold Qlt; simpl; lia).
  split.
  - apply Qle_shift_div_l; [exact Hq|]. rewrite Qmult_0_l. unfold Qle; simpl; lia.
  - apply Qle_shift_div_r; [exact Hq|]. rewrite Qmult_1_l. unfold Qle; simpl; lia.
Qed.
End Rounding.

(** * The claims *)

(** ** C7: cache isolation *)

(** C7. Training identity [A] never changes the cache entry of another
    identity [B]: after [train_model A] (whether it succeeds or raises) and
    after [POST /train] for [A], the entry stored under [B] is the entry
    that was there before, and every object that existed before the call,
    so in particular the classifier and the extractor that [B]'s entry
    refers to, is unchanged. *)
Theorem C7_training_keeps_other_entries {L : Library} (A B : string)
    (X_train X_test : list string) (y_train y_test : list Z)
    (dataset_id : string) (s : pystate) :
  A <> B ->
  kept B s (fst (train_model A X_train X_test y_train y_test s))
  /\ kept B s (fst (Routes.train_model A dataset_id s)).
Proof.
  intros Hne. split.
  - destruct (train_model_frame A B X_train X_test y_train y_test s Hne).
    split; assumption.
  - apply train_endpoint_frame, Hne.
Qed.

(** A run of C7: [tfidf_svm] is trained first, then [w2v_svm]. *)
Lemma C7_witness :
  let s := fst (@train_model (Toy.library Toy.NoFault) "tfidf_svm"
                  ["you are awful"; "nice day"] ["what a lovely cat"; "ok"]
                  [1; 0]%Z [0; 0]%Z (Toy.init Toy.NoFault 1)) in
  "w2v_svm" <> "tfidf_svm"
  /\ (kept "tfidf_svm" s
        (fst (train_model "w2v_svm" ["so very stupid"; "hello"] ["ok"]
                [1; 0]%Z [0]%Z s))
      /\ kept "tfidf_svm" s (fst (Routes.train_model "w2v_svm" "combined" s))).
Proof.
  intros s. split; [discriminate|].
  apply (C7_training_keeps_other_entries "w2v_svm" "tfidf_svm"). discriminate.
Defined.

(** ** C1: a failed training call *)

Section C1.
Context {L : Library}.

(** [evaluate], with the five scores taken together. *)
Lemma evaluate_scoring (key : string) (X_train X_test : list string)
    (y_train y_test : list Z) :
  evaluate key X_train X_test y_train y_test =
  match PyDict.get key MODEL_CONFIGS with
  | None => inl (Exn KeyError ("'" ++ key ++ "'"))
  | Some config =>
      ebind (extract (cfg_feature config) X_train X_test) (fun ex =>
      ebind (choose_estimator (cfg_classifier config) (cfg_feature config)) (fun e =>
      ebind (estimator_fit e (snd (fst ex)) y_train) (fun st =>
      ebind (estimator_predict st (snd ex)) (fun y_pred =>
      ebind (mean_confidence e st (snd ex)) (fun confidence =>
      ebind (scoring y_test y_pred) (fun sc =>
      inr (Evaluation config (fst (fst ex)) (Classifier e (Some st)) (snd ex)
             confidence (fst (fst (fst (fst sc)))) (snd (fst (fst (fst sc))))
             (snd (fst (fst sc))) (snd (fst sc)) (snd sc))))))))
  end.
Proof.
  unfold evaluate, scoring.
  destruct (PyDict.get key MODEL_CONFIGS) as [config|]; [|reflexivity].
  destruct (extract _ X_train X_test) as [e|[[ex Xtr] Xte]]; [reflexivity|].
  cbn [ebind fst snd].
  destruct (choose_estimator _ _) as [e|est]; [reflexivity|]. cbn [ebind].
  destruct (estimator_fit est Xtr y_train) as [e|st]; [reflexivity|]. cbn [ebind].
  destruct (estimator_predict st Xte) as [e|y_pred]; [reflexivity|]. cbn [ebind].
  destruct (mean_confidence est st Xte) as [e|c]; [reflexivity|]. cbn [ebind].
  destruct (accuracy_score y_test y_pred) as [e|acc]; [reflexivity|]. cbn [ebind].
  destruct (precision_score y_test y_pred) as [e|prec]; [reflexivity|]. cbn [ebind].
  destruct (recall_score y_test y_pred) as [e|rec]; [reflexivity|]. cbn [ebind].
  destruct (f1_score y_test y_pred) as [e|f1]; [reflexivity|]. cbn [ebind].
  destruct (confusion_matrix y_test y_pred) as [e|cm]; reflexivity.
Qed.






End C1.




(** ** C3: prediction before training *)

(** C3, as the code has it. For a model key with no cache entry,
    [predict_text] raises the built-in [ValueError] with the message
    "Model '<key>' is not trained yet. Train it first." and leaves the whole
    state, the cache included, as it was; for a text that is not blank,
    [POST /predict] answers with status 400 and that message.  The error has
    no kind of its own: a blank text is answered with status 400 as well,
    and so is every [ValueError] that [predict_text] raises, for whatever
    key, with [str(e)] as detail; and [ValueError] is what
    [_create_classifier] raises for an unknown classifier. *)
Theorem C3_untrained_prediction {L : Library} (key text : string) (s : pystate) :
  PyDict.get key (_trained_models s) = None ->
  predict_text key text s
    = (s, inl (Exn ValueError
                 ("Model '" ++ key ++ "' is not trained yet. Train it first.")))
  /\ (PyStr.strip text <> "" ->
      Routes.predict text key s
        = (s, HTTPException 400
                ("Model '" ++ key ++ "' is not trained yet. Train it first.")))
  /\ (PyStr.strip text = "" ->
      Routes.predict text key s = (s, HTTPException 400 "Text cannot be empty"))
  /\ (forall key' s' e,
        PyStr.strip text <> "" ->
        predict_text key' (clean_text text) s = (s', inl e) ->
        isinstance_ValueError e = true ->
        Routes.predict text key' s = (s', HTTPException 400 (exn_msg e)))
  /\ (forall classifier_type feature_type,
        ~ In classifier_type ["naive_bayes"; "svm"; "logistic_regression"] ->
        _create_classifier classifier_type feature_type s
        = (s, inl (Exn ValueError ("Unknown classifier: " ++ classifier_type)))).
Proof.
  intros Hget.
  pose proof (predict_text_not_trained key (clean_text text) s Hget) as Hc.
  split; [apply predict_text_not_trained, Hget|].
  split; [|split; [|split]].
  - intros Hne. unfold Routes.predict.
    destruct (String.eqb (PyStr.strip text) "") eqn:E.
    + apply String.eqb_eq in E. contradiction.
    + rewrite Hc. reflexivity.
  - intros He. unfold Routes.predict. rewrite He. reflexivity.
  - intros key' s' e Hne Hp Hv. unfold Routes.predict.
    destruct (String.eqb (PyStr.strip text) "") eqn:E.
    + apply String.eqb_eq in E. contradiction.
    + rewrite Hp, Hv. reflexivity.
  - intros classifier_type feature_type Hnot. unfold _create_classifier.
    destruct (String.eqb classifier_type "naive_bayes") eqn:E1;
      [apply String.eqb_eq in E1; exfalso; apply Hnot; simpl; auto|].
    destruct (String.eqb classifier_type "svm") eqn:E2;
      [apply String.eqb_eq in E2; exfalso; apply Hnot; simpl; auto|].
    destruct (String.eqb classifier_type "logistic_regression") eqn:E3;
      [apply String.eqb_eq in E3; exfalso; apply Hnot; simpl; auto|].
    reflexivity.
Qed.

(** A run of C3 in a fresh process. *)
Lemma C3_witness :
  let s := Toy.init Toy.NoFault 1 in
  PyDict.get "w2v_svm" (_trained_models s) = None
  /\ predict_text "w2v_svm" "hello there" s
     = (s, inl (Exn ValueError "Model 'w2v_svm' is not trained yet. Train it first."))
  /\ Routes.predict "Hello there!" "w2v_svm" s
     = (s, HTTPException 400 "Model 'w2v_svm' is not trained yet. Train it first.")
  /\ Routes.predict "  " "w2v_svm" s = (s, HTTPException 400 "Text cannot be empty")
  /\ Routes.predict "Hello there!" "tfidf_svm" s
     = (s, HTTPException 400 "Model 'tfidf_svm' is not trained yet. Train it first.").
Proof.
  intros s.
  assert (PyDict.get "w2v_svm" (_trained_models s) = None) as H by reflexivity.
  destruct (C3_untrained_prediction "w2v_svm" "hello there" s H) as [P _].
  destruct (C3_untrained_prediction "w2v_svm" "Hello there!" s H)
    as (_ & E & _ & V & _).
  destruct (C3_untrained_prediction "w2v_svm" "  " s H) as (_ & _ & B & _ & _).
  assert (@PyStr.strip (Toy.library Toy.NoFault) "Hello there!" <> "") as Hne
    by (intros X; vm_compute in X; discriminate X).
  split; [exact H|]. split; [exact P|]. split; [exact (E Hne)|].
  split; [apply B; vm_compute; reflexivity|].
  apply (V "tfidf_svm" s (not_trained "tfidf_svm") Hne); reflexivity.
Defined.

(** C3 as stated fails: "not trained" has no kind of its own.  The answer to
    an untrained model and the answer to a blank text both carry status 400,
    and the exception is the built-in [ValueError] that [_create_classifier]
    raises for an unknown classifier too; only the message tells them
    apart. *)
Lemma C3_counterexample :
  let L := Toy.library Toy.NoFault in
  let s := Toy.init Toy.NoFault 1 in
  snd (Routes.predict "hello" "tfidf_svm" s)
    = HTTPException 400 "Model 'tfidf_svm' is not trained yet. Train it first."
  /\ snd (Routes.predict "   " "tfidf_svm" s)
     = HTTPException 400 "Text cannot be empty"
  /\ snd (predict_text "tfidf_svm" "hello" s)
     = inl (Exn ValueError "Model 'tfidf_svm' is not trained yet. Train it first.")
  /\ snd (_create_classifier "knn" "tfidf" s)
     = inl (Exn ValueError "Unknown classifier: knn").
Proof. repeat split; vm_compute; reflexivity. Qed.

(** ** C5: determinism *)

Section C5.
Context {L : Library}.
Variable other_fit : estimator -> Matrix -> list Z -> exn + ClfState.
Variable other_pipeline_fit :
  pipeline_params -> list string -> exn + (EmbeddingState * Matrix).

Let L' : Library := reseeded L other_fit other_pipeline_fit.

(** Every classifier that the code creates is given its seed. *)
Lemma choose_estimator_seeded (classifier_type feature_type : string)
    (e : estimator) :
  choose_estimator classifier_type feature_type = inr e -> seeded e = true.
Proof.
  unfold choose_estimator.
  destruct (String.eqb classifier_type "naive_bayes").
  { destruct (String.eqb feature_type "tfidf"); intros [= <-]; reflexivity. }
  destruct (String.eqb classifier_type "svm"); [intros [= <-]; reflexivity|].
  destruct (String.eqb classifier_type "logistic_regression");
    [intros [= <-]; reflexivity|discriminate].
Qed.

(** The extractors are fitted with a seed, or draw no random numbers. *)
Lemma extract_reseeded (feature_type : string) (X_train X_test : list string) :
  match @extract L feature_type X_train X_test,
        @extract L' feature_type X_train X_test with
  | inl e1, inl e2 => e1 = e2
  | inr x1, inr x2 => snd (fst x1) = snd (fst x2) /\ snd x1 = snd x2
  | _, _ => False
  end.
Proof.
  unfold extract, L', reseeded.
  cbn [Matrix TfidfState EmbeddingState ClfState tfidf_fit_transform tfidf_transform
       pipeline_fit_transform pipeline_transform seeded_pipeline has_seed
       svd_random_state].
  destruct (String.eqb feature_type "tfidf"); cbv zeta.
  - destruct (tfidf_fit_transform _ X_train) as [e|x]; cbn [ebind]; [reflexivity|].
    destruct (tfidf_transform (fst x) X_test) as [e|m]; cbn [ebind fst snd]; auto.
  - destruct (pipeline_fit_transform _ X_train) as [e|x]; cbn [ebind]; [reflexivity|].
    destruct (pipeline_transform (fst x) X_test) as [e|m]; cbn [ebind fst snd]; auto.
Qed.

(** What an evaluation computes does not depend on the fits that are given
    no seed. *)
Lemma evaluate_reseeded (key : string) (X_train X_test : list string)
    (y_train y_test : list Z) :
  match @evaluate L key X_train X_test y_train y_test,
        @evaluate L' key X_train X_test y_train y_test with
  | inl e1, inl e2 => e1 = e2
  | inr ev1, inr ev2 =>
      ev_config ev1 = ev_config ev2
      /\ ev_confidence ev1 = ev_confidence ev2
      /\ ev_accuracy ev1 = ev_accuracy ev2
      /\ ev_precision ev1 = ev_precision ev2
      /\ ev_recall ev1 = ev_recall ev2
      /\ ev_f1 ev1 = ev_f1 ev2
      /\ ev_confusion ev1 = ev_confusion ev2
  | _, _ => False
  end.
Proof.
  rewrite (@evaluate_scoring L), (@evaluate_scoring L').
  destruct (PyDict.get key MODEL_CONFIGS) as [config|]; [|reflexivity].
  pose proof (extract_reseeded (cfg_feature config) X_train X_test) as E.
  destruct (@extract L _ X_train X_test) as [e1|[[ex1 Xtr1] Xte1]],
           (@extract L' _ X_train X_test) as [e2|[[ex2 Xtr2] Xte2]];
    cbn [ebind fst snd] in *; try contradiction; [exact E|].
  destruct E as [<- <-].
  destruct (choose_estimator _ _) as [e|est] eqn:Hc; cbn [ebind]; [reflexivity|].
  pose proof (choose_estimator_seeded _ _ _ Hc) as Hseed.
  unfold mean_confidence, scoring, L', reseeded.
  cbn [Matrix TfidfState EmbeddingState ClfState estimator_fit estimator_predict
       has_predict_proba estimator_predict_proba np_mean accuracy_score
       precision_score recall_score f1_score confusion_matrix].
  rewrite Hseed.
  destruct (estimator_fit est Xtr1 y_train) as [e|st]; cbn [ebind]; [reflexivity|].
  destruct (estimator_predict st Xte1) as [e|y_pred]; cbn [ebind]; [reflexivity|].
  destruct (has_predict_proba est).
  - destruct (estimator_predict_proba st Xte1) as [e|probas];
      cbn [ebind]; [reflexivity|].
    destruct (np_max_axis1 probas) as [e|ms]; cbn [ebind]; [reflexivity|].
    destruct (accuracy_score y_test y_pred) as [e|acc]; cbn [ebind]; [reflexivity|].
    destruct (precision_score y_test y_pred) as [e|prec]; cbn [ebind]; [reflexivity|].
    destruct (recall_score y_test y_pred) as [e|rec]; cbn [ebind]; [reflexivity|].
    destruct (f1_score y_test y_pred) as [e|f1]; cbn [ebind]; [reflexivity|].
    destruct (confusion_matrix y_test y_pred) as [e|cm]; cbn [ebind]; [reflexivity|].
    cbn. repeat split; reflexivity.
  - cbn [ebind].
    destruct (accuracy_score y_test y_pred) as [e|acc]; cbn [ebind]; [reflexivity|].
    destruct (precision_score y_test y_pred) as [e|prec]; cbn [ebind]; [reflexivity|].
    destruct (recall_score y_test y_pred) as [e|rec]; cbn [ebind]; [reflexivity|].
    destruct (f1_score y_test y_pred) as [e|f1]; cbn [ebind]; [reflexivity|].
    destruct (confusion_matrix y_test y_pred) as [e|cm]; cbn [ebind]; [reflexivity|].
    cbn. repeat split; reflexivity.
Qed.
End C5.

(** C5, as the code has it. Two training calls with the same arguments,
    from any two states and under any two clocks, the second one in a run of
    the process in which every fit that is given no seed may answer
    differently: both raise the same exception or both return; when they
    return, the two bundles agree in every field other than the timing
    breakdown, and the timing breakdown of each is the rounded differences of
    its own clock readings.  The seeds matter: every randomized estimator
    that [train_model] builds is given [random_state=42]. *)
Theorem C5_deterministic_but_for_timing {L : Library}
    (other_fit : estimator -> Matrix -> list Z -> exn + ClfState)
    (other_pipeline_fit :
       pipeline_params -> list string -> exn + (EmbeddingState * Matrix))
    (key : string) (X_train X_test : list string) (y_train y_test : list Z)
    (s1 : @pystate L)
    (s2 : @pystate (reseeded L other_fit other_pipeline_fit)) :
  match snd (@train_model L key X_train X_test y_train y_test s1),
        snd (@train_model (reseeded L other_fit other_pipeline_fit)
               key X_train X_test y_train y_test s2) with
  | inl e1, inl e2 => e1 = e2
  | inr r1, inr r2 =>
      erase_timing r1 = erase_timing r2
      /\ r_timing r1 = timing_of s1
      /\ r_timing r2 = timing_of s2
  | _, _ => False
  end.
Proof.
  pose proof (@train_model_evaluate L key X_train X_test y_train y_test s1) as T1.
  pose proof (@train_model_evaluate (reseeded L other_fit other_pipeline_fit)
                key X_train X_test y_train y_test s2) as T2.
  pose proof (evaluate_reseeded other_fit other_pipeline_fit
                key X_train X_test y_train y_test) as E.
  destruct (@evaluate L key X_train X_test y_train y_test) as [e1|ev1],
           (@evaluate (reseeded L other_fit other_pipeline_fit)
              key X_train X_test y_train y_test) as [e2|ev2];
    try contradiction.
  - destruct T1 as (s1' & -> & _), T2 as (s2' & -> & _). exact E.
  - rewrite T1, T2. cbn [snd].
    destruct E as (E1 & E2 & E3 & E4 & E5 & E6 & E7).
    split; [|split; reflexivity].
    unfold bundle, erase_timing.
    cbn [model_key display_name description feature_method classifier r_metrics
         r_confusion_matrix avg_confidence train_samples test_samples dataset_id].
    rewrite E1, E2, E3, E4, E5, E6, E7. reflexivity.
Qed.

(** C5 as stated fails: the same call under two clocks returns two bundles
    that differ in the timing breakdown. *)
Lemma C5_counterexample :
  let L := Toy.library Toy.NoFault in
  let run := train_model "tfidf_svm" ["you are awful"; "nice day"]
               ["what a lovely cat"; "ok"] [1; 0]%Z [0; 0]%Z in
  let total out :=
    match out with
    | inr r => Some (total_sec (r_timing r))
    | inl _ => None
    end in
  let out1 := snd (run (Toy.init Toy.NoFault (1 # 3))) in
  let out2 := snd (run (Toy.init Toy.NoFault (1 # 2))) in
  total out1 = Some (1000 # 1000)%Q
  /\ total out2 = Some (1500 # 1000)%Q
  /\ out1 <> out2.
Proof.
  intros L run total out1 out2.
  assert (total out1 = Some (1000 # 1000)%Q) as H1 by (vm_compute; reflexivity).
  assert (total out2 = Some (1500 # 1000)%Q) as H2 by (vm_compute; reflexivity).
  split; [exact H1|]. split; [exact H2|].
  intros H. rewrite H, H2 in H1. discriminate H1.
Qed.

(** Without a seed there is no such agreement: [ml_engine] builds its
    [LogisticRegression] with no [random_state], and a run in which that fit
    answers differently gives another report. *)
Remark unseeded_fit_not_reproducible :
  let L := Toy.library Toy.NoFault in
  let L' := reseeded L (fun _ _ _ => inl Toy.invalid_input)
              (fun p docs => inl Toy.invalid_input) in
  seeded (LogisticRegression 1000%N None 1) = false
  /\ snd (@MlEngine.train_model L "logistic_regression" ["you are awful"] [1]%Z
            ["ok"] [0]%Z (Toy.init Toy.NoFault 1))
     <> snd (@MlEngine.train_model L' "logistic_regression" ["you are awful"] [1]%Z
               ["ok"] [0]%Z (PyState [] None None [] [] (fun _ => 0%Q) 0)).
Proof.
  split; [reflexivity|]. vm_compute. discriminate.
Qed.

(** ** Reading a successful evaluation backwards *)

Section EvaluateInv.
Context {L : Library}.

Lemma ebind_inr {A B} (r : exn + A) (k : A -> exn + B) (b : B) :
  ebind r k = inr b -> exists a, r = inr a /\ k a = inr b.
Proof. destruct r as [e|a]; simpl; [discriminate|eauto]. Qed.

Lemma evaluate_inv (key : string) (X_train X_test : list string)
    (y_train y_test : list Z) (ev : evaluation) :
  evaluate key X_train X_test y_train y_test = inr ev ->
  exists (X_train_vec : Matrix) (e : estimator) (st : ClfState) (y_pred : list Z),
    PyDict.get key MODEL_CONFIGS = Some (ev_config ev)
    /\ extract (cfg_feature (ev_config ev)) X_train X_test
       = inr (ev_extractor ev, X_train_vec, ev_test_matrix ev)
    /\ choose_estimator (cfg_classifier (ev_config ev)) (cfg_feature (ev_config ev))
       = inr e
    /\ estimator_fit e X_train_vec y_train = inr st
    /\ ev_classifier ev = Classifier e (Some st)
    /\ estimator_predict st (ev_test_matrix ev) = inr y_pred
    /\ mean_confidence e st (ev_test_matrix ev) = inr (ev_confidence ev)
    /\ accuracy_score y_test y_pred = inr (ev_accuracy ev)
    /\ precision_score y_test y_pred = inr (ev_precision ev)
    /\ recall_score y_test y_pred = inr (ev_recall ev)
    /\ f1_score y_test y_pred = inr (ev_f1 ev)
    /\ confusion_matrix y_test y_pred = inr (ev_confusion ev).
Proof.
  unfold evaluate. destruct (PyDict.get key MODEL_CONFIGS) as [config|]; [|discriminate].
  intros H.
  apply ebind_inr in H as ([[ext Xtr] Xte] & Hex & H).
  apply ebind_inr in H as (e & He & H).
  apply ebind_inr in H as (st & Hst & H).
  apply ebind_inr in H as (y_pred & Hp & H).
  apply ebind_inr in H as (c & Hc & H).
  apply ebind_inr in H as (acc & Hacc & H).
  apply ebind_inr in H as (prec & Hprec & H).
  apply ebind_inr in H as (rec & Hrec & H).
  apply ebind_inr in H as (f1 & Hf1 & H).
  apply ebind_inr in H as (cm & Hcm & H).
  inversion H; subst; clear H. simpl.
  exists Xtr, e, st, y_pred. repeat split; assumption.
Qed.

(** The dense-semantic branch of [extract]. *)
Lemma extract_embeddings (ft : string) (X_train X_test : list string)
    (ext : obj) (X_train_vec X_test_vec : Matrix) :
  String.eqb ft "tfidf" = false ->
  extract ft X_train X_test = inr (ext, X_train_vec, X_test_vec) ->
  exists E : EmbeddingState,
    let p := PipelineParams 20000%N (1, 2)%nat 200%N (Some 42%N) false in
    pipeline_fit_transform p X_train = inr (E, X_train_vec)
    /\ pipeline_transform E X_test = inr X_test_vec
    /\ ext = Pipeline p (Some E).
Proof.
  intros Hft. unfold extract. rewrite Hft. intros H.
  apply ebind_inr in H as ([E Xtr] & Hfit & H).
  apply ebind_inr in H as (Xte & Htr & H).
  inversion H; subst; clear H. exists E. simpl in *. auto.
Qed.

(** The objects and the entry of a freshly trained identity. *)
Lemma trained_state_lookup (key : string) (ev : evaluation) (s : pystate) :
  let s' := trained_state key ev s in
  let n := length (heap s) in
  PyDict.get key (_trained_models s') = Some (entry_of ev n)
  /\ heap s' !! n = Some (ev_extractor ev)
  /\ heap s' !! S n = Some (ev_classifier ev).
Proof.
  simpl. split; [apply get_set_same|]. split.
  - rewrite lookup_app_r by lia. rewrite Nat.sub_diag. reflexivity.
  - rewrite lookup_app_r by lia.
    replace (S (length (heap s)) - length (heap s))%nat with 1%nat by lia.
    reflexivity.
Qed.
End EvaluateInv.

(** ** C6: the projection is fit once, on the training documents *)

(** C6. For a dense-semantic identity, a successful training call fits the
    pipeline on the training documents alone ([pipeline_fit_transform] gets
    [X_train] and nothing else); the test documents of the call are
    transformed with the fitted state [E] it returned; and after any later
    calls that do not train this identity again, the cache entry still
    refers to a pipeline whose fitted state is [E], every [predict_text] for
    the identity transforms its text with [E], and it leaves the state, so
    also the pipeline, as it was. *)
Theorem C6_projection_fit_once {L : Library} (key : string) (config : config)
    (X_train X_test : list string) (y_train y_test : list Z)
    (s s' : pystate) (r : result) :
  PyDict.get key MODEL_CONFIGS = Some config ->
  cfg_feature config = "word_embeddings" ->
  train_model key X_train X_test y_train y_test s = (s', inr r) ->
  exists (E : EmbeddingState) (ev : evaluation) (X_train_vec : Matrix),
    let p := PipelineParams 20000%N (1, 2)%nat 200%N (Some 42%N) false in
    evaluate key X_train X_test y_train y_test = inr ev
    /\ pipeline_fit_transform p X_train = inr (E, X_train_vec)
    /\ pipeline_transform E X_test = inr (ev_test_matrix ev)
    /\ forall (ops : list op) (text : string),
         leaves_alone key ops ->
         let s'' := run_ops ops s' in
         (exists entry rx,
             PyDict.get key (_trained_models s'') = Some entry
             /\ ce_embedding_pipeline entry = Some rx
             /\ heap s'' !! rx = Some (Pipeline p (Some E)))
         /\ predict_text key text s''
            = (s'', ebind (pipeline_transform E [text])
                      (classify (ev_classifier ev) key text)).
Proof.
  intros Hcfg Hft Htrain.
  apply train_model_succeeds in Htrain as (ev & Hev & -> & _).
  pose proof (evaluate_inv _ _ _ _ _ _ Hev)
    as (Xtr & e & st & y_pred & Hc & Hex & _).
  assert (ev_config ev = config) as Hconf by congruence.
  rewrite Hconf, Hft in Hex.
  apply extract_embeddings in Hex as (E & Hfit & Htr & Hext); [|reflexivity].
  exists E, ev, Xtr. simpl. split; [exact Hev|]. split; [exact Hfit|].
  split; [exact Htr|].
  intros ops text Hops.
  pose proof (trained_state_lookup key ev s) as (Hget & Hx & Hclf).
  pose proof (run_ops_frame key ops Hops (trained_state key ev s)) as [Hobj Hsame].
  rewrite <- Hsame in Hget.
  assert (extractor_ref (entry_of ev (length (heap s))) = Some (length (heap s))) as Href.
  { unfold extractor_ref, entry_of. simpl. rewrite Hconf, Hft. reflexivity. }
  split.
  - exists (entry_of ev (length (heap s))), (length (heap s)).
    split; [exact Hget|]. split.
    + unfold entry_of. simpl. rewrite Hconf, Hft. reflexivity.
    + rewrite <- Hext. apply Hobj, Hx.
  - rewrite (predict_text_infer key text _ _ _ (ev_extractor ev) (ev_classifier ev)
               Hget Href (Hobj _ _ Hx) (Hobj _ _ Hclf)).
    unfold infer. rewrite Hext. reflexivity.
Qed.

(** A run of C6: [w2v_svm] is trained, then another identity is trained
    twice and predictions are served, then [w2v_svm] predicts. *)
Lemma C6_witness :
  let L := Toy.library Toy.NoFault in
  let X_train := ["you are awful"; "nice day"] in
  let X_test := ["what a lovely cat"; "ok"] in
  let s := Toy.init Toy.NoFault 1 in
  let out := train_model "w2v_svm" X_train X_test [1; 0]%Z [0; 0]%Z s in
  let ops := [PostPredict "Hello!" "w2v_svm";
              CallTrainModel "w2v_naive_bayes" ["so very stupid"; "hello"] ["ok"]
                [1; 0]%Z [0]%Z;
              PostTrain "tfidf_svm" "combined";
              CallPredictAllModels "hello"] in
  let p := PipelineParams 20000%N (1, 2)%nat 200%N (Some 42%N) false in
  PyDict.get "w2v_svm" MODEL_CONFIGS
    = Some (Config "Word Embeddings + SVM" "word_embeddings" "svm"
              "Linear SVM with dense LSA embeddings — semantic margin classifier")
  /\ leaves_alone "w2v_svm" ops
  /\ exists r E ev X_train_vec,
       out = (fst out, inr r)
       /\ pipeline_fit_transform p X_train = inr (E, X_train_vec)
       /\ pipeline_transform E X_test = inr (ev_test_matrix ev)
       /\ predict_text "w2v_svm" "you are so awful" (run_ops ops (fst out))
          = (run_ops ops (fst out),
             ebind (pipeline_transform E ["you are so awful"])
               (classify (ev_classifier ev) "w2v_svm" "you are so awful")).
Proof.
  intros L X_train X_test s out ops p.
  assert (PyDict.get "w2v_svm" MODEL_CONFIGS
          = Some (Config "Word Embeddings + SVM" "word_embeddings" "svm"
                    "Linear SVM with dense LSA embeddings — semantic margin classifier"))
    as Hcfg by reflexivity.
  assert (leaves_alone "w2v_svm" ops) as Hops
    by (repeat constructor; discriminate).
  assert (exists r, snd out = inr r) as [r Hr] by (vm_compute; eexists; reflexivity).
  assert (out = (fst out, inr r)) as Hrun
    by (rewrite <- Hr; apply surjective_pairing).
  destruct (C6_projection_fit_once "w2v_svm" _ X_train X_test [1; 0]%Z [0; 0]%Z
              s (fst out) r Hcfg eq_refl Hrun)
    as (E & ev & Xtr & Hev & Hfit & Htr & Hlater).
  destruct (Hlater ops "you are so awful" Hops) as [_ Hpred].
  split; [exact Hcfg|]. split; [exact Hops|].
  exists r, E, ev, Xtr. split; [exact Hrun|].
  split; [exact Hfit|]. split; [exact Htr|exact Hpred].
Defined.

(** ** C2: the ranking *)

Section C2.
Context {L : Library}.

(** A successful [POST /train] records the bundle it returns. *)
Lemma train_endpoint_records (key did : string) (s s' : pystate) (r : result) :
  Routes.train_model key did s = (s', Ok r) ->
  model_key r = key
  /\ _comparison_results s' = Ranking.record r (_comparison_results s).
Proof.
  unfold Routes.train_model.
  destruct (negb (PyDict.mem key MODEL_CONFIGS)); [discriminate|].
  rewrite train_body_run.
  destruct (get_train_test_split did) as [e|[[[X_train X_test] y_train] y_test]];
    [discriminate|].
  destruct (train_model key X_train X_test y_train y_test s) as [s1 [e|r1]] eqn:Ht;
    [discriminate|].
  intros H. inversion H; subst; clear H.
  apply train_model_succeeds in Ht as (ev & _ & -> & ->).
  split; reflexivity.
Qed.
End C2.

(** C2. After any sequence of [record] calls, repeated identities included,
    the comparison result set has at most one bundle per model identity (no
    key twice, and no more bundles than distinct identities recorded), is
    sorted non-increasing by F1, and keeps bundles of equal F1 in insertion
    order, the order in which they were recorded, an identity that was
    recorded again counting from its latest record; [best] is the first
    element, or [None] for the empty set.  [record] is what a successful
    [POST /train] does to [_comparison_results], and [GET /results] returns
    the set and its first element. *)
Theorem C2_ranking_invariant {L : Library} :
  (forall rs : list result,
      let all := Ranking.record_all rs [] in
      NoDup (map model_key all)
      /\ (length all <= length (remove_dups (map model_key rs)))%nat
      /\ Ranking.sorted_desc all
      /\ (forall q, Ranking.with_f1 q all = Ranking.with_f1 q (Ranking.latest rs []))
      /\ Ranking.best all = head all
      /\ Ranking.best [] = None)
  /\ (forall key did s s' r,
        Routes.train_model key did s = (s', Ok r) ->
        _comparison_results s' = Ranking.record r (_comparison_results s))
  /\ (forall s : pystate,
        Routes.get_results s
        = (_comparison_results s, Ranking.best (_comparison_results s))).
Proof.
  split; [|split].
  - intros rs all. subst all. split; [apply record_all_keys; constructor|].
    split; [apply record_all_length|].
    split; [apply record_all_sorted; constructor|].
    split; [intros q; apply record_all_ties; reflexivity|].
    split; reflexivity.
  - intros key did s s' r H. apply train_endpoint_records in H as [_ H]. exact H.
  - intros s. reflexivity.
Qed.

(** A run of C2: three identities are trained through [POST /train] on the
    same split, so that all F1 scores tie, and the first one is trained
    again: one bundle per identity, the retrained one last. *)
Lemma C2_witness :
  let L := Toy.library Toy.NoFault in
  let post key s := fst (Routes.train_model key "combined" s) in
  let s3 := post "w2v_svm" (post "tfidf_naive_bayes" (post "tfidf_svm"
              (Toy.init Toy.NoFault 1))) in
  let out := Routes.train_model "tfidf_svm" "combined" s3 in
  exists r,
    out = (fst out, Ok r)
    /\ _comparison_results (fst out) = Ranking.record r (_comparison_results s3)
    /\ map model_key (_comparison_results (fst out))
       = ["tfidf_naive_bayes"; "w2v_svm"; "tfidf_svm"]
    /\ option_map model_key (snd (Routes.get_results (fst out)))
       = Some "tfidf_naive_bayes".
Proof.
  intros L post s3 out.
  assert (exists r, snd out = Ok r) as [r Hr] by (vm_compute; eexists; reflexivity).
  assert (out = (fst out, Ok r)) as Hrun
    by (rewrite <- Hr; apply surjective_pairing).
  destruct (@C2_ranking_invariant L) as (_ & Hrec & _).
  exists r. split; [exact Hrun|]. split; [exact (Hrec _ _ _ _ _ Hrun)|].
  split; vm_compute; reflexivity.
Defined.

(** ** What [predict_text] returns *)

Section PredictTextResult.
Context {L : Library}.

Lemma predict_text_result (key text : string) (s s' : pystate) (p : prediction) :
  predict_text key text s = (s', inr p) ->
  exists (entry : cache_entry) (label : Z) (confidence : option pyfloat),
    PyDict.get key (_trained_models s) = Some entry
    /\ p = Prediction key text label
             (if (label =? 1)%Z then "Cyberbullying" else "Not Cyberbullying")
             (report_confidence confidence) None None
    /\ (confidence = None
        \/ exists st X x row rest,
             estimator_predict_proba st X = inr ((x :: row) :: rest)
             /\ confidence = Some (Fin (max_list x row))).
Proof.
  unfold predict_text, transform, predict, hasattr_predict_proba, predict_proba,
    bind, gets, deref, call, ret, raise.
  destruct (PyDict.get key (_trained_models s)) as [entry|]; [|discriminate].
  intros H. exists entry.
  repeat match type of H with
         | context [match ?x with _ => _ end] =>
             lazymatch x with
             | context [match _ with _ => _ end] => fail
             | Z.eqb _ _ => fail
             | _ => destruct x eqn:?; try discriminate
             end
         end.
  all: inversion H; subst; clear H.
  all: eexists; eexists; split; [reflexivity|]; split; [reflexivity|].
  all: try (left; reflexivity).
  all: right; repeat eexists; eassumption.
Qed.

Lemma predict_all_step_run (text : string) (results : list prediction)
    (k : string) (s : pystate) :
  predict_all_step text results k s = (s, inr (results ++ served text s k)).
Proof.
  unfold predict_all_step, try_except, served.
  unfold bind at 1. rewrite (read_only_run _ s (read_only_predict_text k text)).
  destruct (snd (predict_text k text s)) as [e|p]; cbv beta iota.
  - rewrite app_nil_r. reflexivity.
  - unfold getitem_config, bind.
    destruct (PyDict.get k MODEL_CONFIGS) as [c|];
      cbv beta iota delta [ret raise].
    + reflexivity.
    + rewrite app_nil_r. reflexivity.
Qed.

Lemma predict_all_loop_run (text : string) (s : pystate) (keys : list string) :
  forall results,
    predict_all_loop text keys results s
    = (s, inr (results ++ concat (map (served text s) keys))).
Proof.
  induction keys as [|k keys IH]; intros results; simpl.
  - rewrite app_nil_r. reflexivity.
  - unfold bind. rewrite predict_all_step_run, IH, <- app_assoc. reflexivity.
Qed.

Lemma served_length (text : string) (s : pystate) (k : string) :
  (length (served text s k) <= 1)%nat.
Proof.
  unfold served. destruct (snd (predict_text k text s)); [simpl; lia|].
  destruct (PyDict.get k MODEL_CONFIGS); simpl; lia.
Qed.

Lemma served_key (text : string) (s : pystate) (k : string) (p : prediction) :
  In p (served text s k) -> p_model_key p = k.
Proof.
  unfold served.
  destruct (predict_text k text s) as [s' [e|p0]] eqn:E; cbn [snd]; [intros []|].
  apply predict_text_result in E as (entry & label & c & _ & -> & _).
  destruct (PyDict.get k MODEL_CONFIGS); [|intros []].
  intros [<-|[]]. reflexivity.
Qed.

Lemma concat_served_length (text : string) (s : pystate) (keys : list string) :
  (length (concat (map (served text s) keys)) <= length keys)%nat.
Proof.
  induction keys as [|k keys IH]; simpl; [lia|].
  rewrite length_app. pose proof (served_length text s k). lia.
Qed.
End PredictTextResult.

(** ** C10: prediction with all trained models *)

(** C10. [predict_all_models] goes through the keys of the trained-model
    cache, in their order, and returns, without changing the state, the
    results of the identities whose [predict_text] succeeds, each with its
    display name; an identity whose prediction raises contributes nothing,
    not even a marker.  So the list is never longer than the cache, every
    result belongs to a cached identity, the list can be strictly shorter
    than the cache, and a cache in which an identity is missing and a cache
    in which its prediction raises give the same list. *)
Theorem C10_predict_all_skips_failures :
  (forall (L : Library) (text : string) (s : pystate),
      let keys := PyDict.keys (_trained_models s) in
      let results := concat (map (served text s) keys) in
      predict_all_models text s = (s, inr results)
      /\ (length results <= length keys)%nat
      /\ forall p, In p results -> In (p_model_key p) keys)
  /\ (let L := Toy.library Toy.GaussianPredictFails in
      let train key s :=
        fst (train_model key ["you are awful"; "nice day"]
               ["what a lovely cat"; "ok"] [1; 0]%Z [0; 0]%Z s) in
      let s1 := train "tfidf_svm" (Toy.init Toy.GaussianPredictFails 1) in
      let s2 := train "w2v_naive_bayes" s1 in
      PyDict.keys (_trained_models s1) = ["tfidf_svm"]
      /\ PyDict.keys (_trained_models s2) = ["tfidf_svm"; "w2v_naive_bayes"]
      /\ snd (predict_text "w2v_naive_bayes" "" s2) = inl Toy.invalid_input
      /\ option_map (map p_model_key)
           (match snd (predict_all_models "" s2) with
            | inr l => Some l
            | inl _ => None
            end) = Some ["tfidf_svm"]
      /\ snd (predict_all_models "" s1) = snd (predict_all_models "" s2)).
Proof.
  split.
  - intros L text s keys results. subst keys results.
    split; [|split].
    + unfold predict_all_models.
      change (bind (gets _trained_models) ?k s) with (k (_trained_models s) s).
      cbv beta. rewrite predict_all_loop_run. reflexivity.
    + apply concat_served_length.
    + intros p Hp. apply in_concat in Hp as (l & Hl & Hp).
      apply in_map_iff in Hl as (k & <- & Hk).
      apply served_key in Hp. rewrite Hp. exact Hk.
  - repeat split; vm_compute; reflexivity.
Qed.

(** ** Confidence is a rate *)

Section Confidence.
Context {L : Library}.



End Confidence.

(** ** The report of [ml_engine] *)

Section EngineReport.
Context {L : Library}.

End EngineReport.

(** ** C8: rounding and ranges *)


(** The toy library is in range. *)








(** ** The confidence that [train_model] reports *)

Section ReportedConfidence.
Context {L : Library}.


End ReportedConfidence.

Section ConfidenceFacts.
Context {L : Library}.








End ConfidenceFacts.






(** * Further properties of the code *)

(** ** More on dictionaries *)

Section DictMore.
Context {V : Type}.
Implicit Types (d : PyDict.dict V) (k : string) (v : V).

Lemma mem_In_keys k d : PyDict.mem k d = true <-> In k (PyDict.keys d).
Proof.
  unfold PyDict.mem. induction d as [|[k' v'] d IH]; simpl.
  - split; [discriminate|tauto].
  - destruct (String.eqb k k') eqn:E.
    + apply String.eqb_eq in E. subst. tauto.
    + apply String.eqb_neq in E. rewrite IH. split; [tauto|].
      intros [H|H]; [congruence|exact H].
Qed.

Lemma keys_set k v d :
  PyDict.keys (PyDict.set k v d)
  = if PyDict.mem k d then PyDict.keys d else PyDict.keys d ++ [k].
Proof.
  unfold PyDict.mem. induction d as [|[k' v'] d IH]; simpl; [reflexivity|].
  destruct (String.eqb k k') eqn:E; simpl.
  - apply String.eqb_eq in E. subst. reflexivity.
  - rewrite IH. destruct (PyDict.get k d); reflexivity.
Qed.

Lemma NoDup_keys_set k v d :
  NoDup (PyDict.keys d) -> NoDup (PyDict.keys (PyDict.set k v d)).
Proof.
  intros H. rewrite keys_set. destruct (PyDict.mem k d) eqn:E; [exact H|].
  apply NoDup_app. split; [exact H|]. split; [|apply NoDup_singleton].
  intros x Hx Hk. apply list_elem_of_In in Hx, Hk. destruct Hk as [<-|[]].
  apply mem_In_keys in Hx. congruence.
Qed.

Lemma mem_set k k' v d :
  PyDict.mem k' (PyDict.set k v d) = String.eqb k k' || PyDict.mem k' d.
Proof.
  unfold PyDict.mem. destruct (String.eqb k k') eqn:E.
  - apply String.eqb_eq in E. subst. rewrite get_set_same. reflexivity.
  - apply String.eqb_neq in E. rewrite get_set_other by exact E. reflexivity.
Qed.
End DictMore.

(** ** The configured identities *)

Lemma config_feature_cases (key : string) (c : config) :
  PyDict.get key MODEL_CONFIGS = Some c ->
  cfg_feature c = "tfidf" \/ cfg_feature c = "word_embeddings".
Proof.
  unfold MODEL_CONFIGS. simpl.
  repeat match goal with
         | |- context [String.eqb key ?k] => destruct (String.eqb key k)
         end;
    intros H; inversion H; subst; simpl; auto.
Qed.

Section CacheFacts.
Context {L : Library}.

Lemma extract_fitted (ft : string) (X_train X_test : list string)
    (ext : obj) (Xtr Xte : Matrix) :
  ft = "tfidf" \/ ft = "word_embeddings" ->
  extract ft X_train X_test = inr (ext, Xtr, Xte) ->
  fitted_extractor ft ext.
Proof.
  intros Hft H. unfold extract in H.
  destruct Hft as [-> | ->]; simpl in H.
  - apply ebind_inr in H as ([st M1] & _ & H).
    apply ebind_inr in H as (M2 & _ & H). inversion H; subst.
    left. split; [reflexivity|]. eauto.
  - apply ebind_inr in H as ([st M1] & _ & H).
    apply ebind_inr in H as (M2 & _ & H). inversion H; subst.
    right. split; [reflexivity|]. eauto.
Qed.

Lemma extractor_ref_entry_of (ev : evaluation) (n : nat) :
  cfg_feature (ev_config ev) = "tfidf"
  \/ cfg_feature (ev_config ev) = "word_embeddings" ->
  extractor_ref (entry_of ev n) = Some n.
Proof.
  unfold extractor_ref, entry_of. simpl. intros [-> | ->]; reflexivity.
Qed.

Lemma entry_ok_kept (s s' : pystate) (k : string) (e : cache_entry) :
  objects_kept s s' -> entry_ok s k e -> entry_ok s' k e.
Proof.
  intros K (c & rx & ext & est & st & H1 & H2 & H3 & H4 & H5 & H6 & H7).
  exists c, rx, ext, est, st. repeat split; auto.
Qed.

(** The entry written by a successful call is in order. *)
Lemma entry_ok_trained (key : string) X_train X_test y_train y_test
    (ev : evaluation) (s : pystate) :
  evaluate key X_train X_test y_train y_test = inr ev ->
  entry_ok (trained_state key ev s) key (entry_of ev (length (heap s))).
Proof.
  intros Hev.
  pose proof (evaluate_inv _ _ _ _ _ _ Hev)
    as (Xtr & e & st & y_pred & Hc & Hex & He & _ & Hclf & _).
  pose proof (config_feature_cases _ _ Hc) as Hft.
  pose proof (trained_state_lookup key ev s) as (_ & Hx & Hm).
  exists (ev_config ev), (length (heap s)), (ev_extractor ev), e, st.
  split; [exact Hc|]. split; [reflexivity|].
  split; [apply extractor_ref_entry_of, Hft|]. split; [exact Hx|].
  split; [eapply extract_fitted; eauto|]. split; [|exact He].
  simpl ce_model. rewrite <- Hclf. exact Hm.
Qed.

Lemma train_model_cache_ok (key : string) X_train X_test y_train y_test
    (s : pystate) :
  cache_ok s -> cache_ok (fst (train_model key X_train X_test y_train y_test s)).
Proof.
  intros [Hnd Hok].
  destruct (train_model key X_train X_test y_train y_test s) as [s' [e|r]] eqn:E;
    simpl.
  - apply train_model_fails in E as (_ & A).
    pose proof (only_allocated_kept _ _ A) as K. destruct A as (_ & T & _).
    split; [rewrite T; exact Hnd|].
    intros k e0 Hk. rewrite T in Hk. eapply entry_ok_kept; eauto.
  - apply train_model_succeeds in E as (ev & Hev & -> & _).
    split; [simpl; apply NoDup_keys_set, Hnd|].
    intros k e0 Hk. simpl in Hk.
    destruct (String.eqb key k) eqn:Ek.
    + apply String.eqb_eq in Ek. subst k. rewrite get_set_same in Hk.
      inversion Hk; subst. eapply entry_ok_trained; eauto.
    + apply String.eqb_neq in Ek. rewrite get_set_other in Hk by exact Ek.
      eapply entry_ok_kept; [apply trained_state_kept|]. apply Hok, Hk.
Qed.

Lemma cache_ok_set_comparison (l : list result) (s : pystate) :
  cache_ok s -> cache_ok (set_comparison_results l s).
Proof. intros H. exact H. Qed.

(** The state after [POST /train], case by case. *)
Lemma train_endpoint_state (key did : string) (s : pystate) :
  let s' := fst (Routes.train_model key did s) in
  s' = s
  \/ exists X_train X_test y_train y_test,
       let out := train_model key X_train X_test y_train y_test s in
       match snd out with
       | inl _ => s' = fst out
       | inr r =>
           s' = set_comparison_results
                  (Routes.update_comparison key (set_dataset_id r did)
                     (_comparison_results (fst out))) (fst out)
       end.
Proof.
  simpl. unfold Routes.train_model.
  destruct (negb (PyDict.mem key MODEL_CONFIGS)); [left; reflexivity|].
  rewrite train_body_run.
  destruct (get_train_test_split did) as [e|[[[X_train X_test] y_train] y_test]];
    [left; reflexivity|].
  right. exists X_train, X_test, y_train, y_test.
  destruct (train_model key X_train X_test y_train y_test s) as [s1 [e|r]];
    reflexivity.
Qed.

Lemma run_op_cache_ok (o : op) (s : pystate) : cache_ok s -> cache_ok (run_op o s).
Proof.
  intros H. destruct o as [k Xtr Xte ytr yte|k t|t|k d|t k|t]; simpl.
  - apply train_model_cache_ok, H.
  - rewrite (read_only_predict_text k t s). exact H.
  - rewrite (read_only_predict_all_models t s). exact H.
  - destruct (train_endpoint_state k d s) as [->|(Xtr & Xte & ytr & yte & Hs)];
      [exact H|].
    pose proof (train_model_cache_ok k Xtr Xte ytr yte s H) as H'.
    simpl in Hs.
    destruct (snd (train_model k Xtr Xte ytr yte s)); rewrite Hs; exact H'.
  - rewrite predict_endpoint_state. exact H.
  - rewrite predict_all_endpoint_state. exact H.
Qed.

Lemma run_ops_cache_ok (ops : list op) : forall s,
  cache_ok s -> cache_ok (run_ops ops s).
Proof.
  induction ops as [|o ops IH]; intros s H; simpl; [exact H|].
  apply IH, run_op_cache_ok, H.
Qed.
End CacheFacts.

(** ** X1-X4: the cache of a running process *)

(** X1. Whatever calls are made (training, prediction, the endpoints), the
    cache stays in order: no key twice, every key a configured identity, and
    every entry refers to a fitted extractor of its feature type and to a
    fitted classifier of the configured family. *)
Theorem X1_cache_invariant {L : Library} (ops : list op) (s : pystate) :
  cache_ok s -> cache_ok (run_ops ops s).
Proof. apply run_ops_cache_ok. Qed.

(** A run of X1 from a fresh process, with a failing prediction and a
    retraining on the way. *)
Lemma X1_witness :
  let L := Toy.library Toy.GaussianPredictFails in
  let s := Toy.init Toy.GaussianPredictFails 1 in
  let ops := [PostTrain "w2v_naive_bayes" "combined";
              PostPredict "12345" "w2v_naive_bayes";
              CallTrainModel "tfidf_svm" ["so very stupid"; "hello"] ["ok"]
                [1; 0]%Z [0]%Z;
              PostTrain "w2v_naive_bayes" "combined";
              PostTrain "no_such_model" "combined";
              PostPredictAll "hello"] in
  cache_ok s
  /\ cache_ok (run_ops ops s)
  /\ PyDict.keys (_trained_models (run_ops ops s)) = ["w2v_naive_bayes"; "tfidf_svm"].
Proof.
  intros L s ops.
  assert (cache_ok s) as H by (split; [constructor|intros k e Hk; discriminate Hk]).
  split; [exact H|]. split; [apply (X1_cache_invariant ops s H)|].
  vm_compute. reflexivity.
Defined.

(** X2. In a cache that is in order, [predict_text] for a cached identity
    never fails on the cache itself (no missing attribute, no unfitted
    object): the entry refers to a fitted extractor and to a fitted
    classifier on the heap, and the call leaves the state as it was and
    returns what the library's [transform] of that extractor, followed by
    that classifier, returns for the text. *)
Theorem X2_cached_prediction {L : Library} (key : string) (e : cache_entry)
    (s : pystate) (text : string) :
  cache_ok s ->
  PyDict.get key (_trained_models s) = Some e ->
  exists (rx : ref) (ext : obj) (est : estimator) (st : ClfState)
         (T : list string -> exn + Matrix),
    extractor_ref e = Some rx
    /\ heap s !! rx = Some ext
    /\ ((exists p ts, ext = TfidfVectorizer p (Some ts) /\ T = tfidf_transform ts)
        \/ (exists p ps, ext = Pipeline p (Some ps) /\ T = pipeline_transform ps))
    /\ heap s !! ce_model e = Some (Classifier est (Some st))
    /\ predict_text key text s
       = (s, ebind (T [text]) (classify (Classifier est (Some st)) key text)).
Proof.
  intros [_ Hok] Hget.
  destruct (Hok _ _ Hget)
    as (c & rx & ext & est & st & _ & _ & Hrx & Hext & Hfit & Hclf & _).
  destruct Hfit as [(_ & p & ts & ->)|(_ & p & ps & ->)].
  - exists rx, (TfidfVectorizer p (Some ts)), est, st, (tfidf_transform ts).
    split; [exact Hrx|]. split; [exact Hext|]. split; [left; eauto|].
    split; [exact Hclf|].
    rewrite (predict_text_infer key text s e rx _ _ Hget Hrx Hext Hclf).
    reflexivity.
  - exists rx, (Pipeline p (Some ps)), est, st, (pipeline_transform ps).
    split; [exact Hrx|]. split; [exact Hext|]. split; [right; eauto|].
    split; [exact Hclf|].
    rewrite (predict_text_infer key text s e rx _ _ Hget Hrx Hext Hclf).
    reflexivity.
Qed.

(** A run of X2: a prediction after two trainings, from the pipeline and the
    classifier the second training left on the heap. *)
Lemma X2_witness :
  let L := Toy.library Toy.NoFault in
  let s := run_ops [PostTrain "tfidf_svm" "combined"; PostTrain "w2v_svm" "combined"]
             (Toy.init Toy.NoFault 1) in
  cache_ok s
  /\ PyDict.get "w2v_svm" (_trained_models s)
     = Some (CacheEntry 3 "word_embeddings" None (Some 2%nat))
  /\ exists ext est st (T : list string -> exn + Matrix),
       heap s !! 2%nat = Some ext
       /\ heap s !! 3%nat = Some (Classifier est (Some st))
       /\ predict_text "w2v_svm" "you are so awful" s
          = (s, ebind (T ["you are so awful"])
                  (classify (Classifier est (Some st)) "w2v_svm" "you are so awful")).
Proof.
  intros L s.
  assert (cache_ok (Toy.init Toy.NoFault 1)) as H0
    by (split; [constructor|intros k e Hk; discriminate Hk]).
  assert (cache_ok s) as H by (apply run_ops_cache_ok, H0).
  assert (PyDict.get "w2v_svm" (_trained_models s)
          = Some (CacheEntry 3 "word_embeddings" None (Some 2%nat))) as Hget
    by (vm_compute; reflexivity).
  destruct (X2_cached_prediction "w2v_svm" _ s "you are so awful" H Hget)
    as (rx & ext & est & st & T & Hrx & Hext & _ & Hclf & HT).
  injection Hrx as <-.
  split; [exact H|]. split; [exact Hget|].
  exists ext, est, st, T. auto.
Defined.

Section CacheBound.
Context {L : Library}.

Lemma cache_keys_configured (s : pystate) (k : string) :
  cache_ok s -> In k (PyDict.keys (_trained_models s)) ->
  In k (PyDict.keys MODEL_CONFIGS).
Proof.
  intros [_ Hok] Hk. apply mem_In_keys in Hk. unfold PyDict.mem in Hk.
  destruct (PyDict.get k (_trained_models s)) as [e|] eqn:E; [|discriminate].
  destruct (Hok _ _ E) as (c & _ & _ & _ & _ & Hc & _).
  eapply get_In_keys. exact Hc.
Qed.
End CacheBound.

(** X3. The cache never holds more than the six configured identities, and
    [predict_all_models] never returns more than six results. *)
Theorem X3_cache_bounded {L : Library} (s : pystate) :
  cache_ok s ->
  (length (_trained_models s) <= 6)%nat
  /\ forall text s' l,
       predict_all_models text s = (s', inr l) -> (length l <= 6)%nat.
Proof.
  intros H.
  assert (length (PyDict.keys (_trained_models s)) <= 6)%nat as Hlen.
  { change 6%nat with (length (PyDict.keys MODEL_CONFIGS)).
    apply submseteq_length, NoDup_submseteq; [exact (proj1 H)|].
    intros k Hk. apply list_elem_of_In. apply list_elem_of_In in Hk.
    eapply cache_keys_configured; eauto. }
  split.
  - unfold PyDict.keys in Hlen. rewrite length_map in Hlen. exact Hlen.
  - intros text s' l Hl.
    unfold predict_all_models in Hl.
    change (bind (gets _trained_models) ?k s) with (k (_trained_models s) s) in Hl.
    cbv beta in Hl. rewrite predict_all_loop_run in Hl.
    pose proof (concat_served_length text s (PyDict.keys (_trained_models s))) as Hc.
    inversion Hl; subst. simpl. lia.
Qed.

(** A run of X3. *)
Lemma X3_witness :
  let L := Toy.library Toy.NoFault in
  let s := run_ops [PostTrain "tfidf_svm" "combined"; PostTrain "w2v_svm" "combined";
                    PostTrain "tfidf_svm" "combined"]
             (Toy.init Toy.NoFault 1) in
  cache_ok s
  /\ (length (_trained_models s) <= 6)%nat
  /\ forall text s' l,
       predict_all_models text s = (s', inr l) -> (length l <= 6)%nat.
Proof.
  intros L s.
  assert (cache_ok (Toy.init Toy.NoFault 1)) as H0
    by (split; [constructor|intros k e Hk; discriminate Hk]).
  assert (cache_ok s) as H by (apply run_ops_cache_ok, H0).
  split; [exact H|]. exact (X3_cache_bounded s H).
Defined.

Section RankingCached.
Context {L : Library}.

Lemma train_model_comparison (key : string) X_train X_test y_train y_test
    (s : pystate) :
  _comparison_results (fst (train_model key X_train X_test y_train y_test s))
  = _comparison_results s.
Proof.
  destruct (train_model key X_train X_test y_train y_test s) as [s' [e|r]] eqn:E;
    simpl.
  - apply train_model_fails in E as (_ & _ & _ & C & _). exact C.
  - apply train_model_succeeds in E as (ev & _ & -> & _). reflexivity.
Qed.

(** Training never removes a cache entry. *)
Lemma train_model_mem_kept (key k : string) X_train X_test y_train y_test
    (s : pystate) :
  PyDict.mem k (_trained_models s) = true ->
  PyDict.mem k (_trained_models (fst (train_model key X_train X_test y_train y_test s)))
  = true.
Proof.
  intros H.
  destruct (train_model key X_train X_test y_train y_test s) as [s' [e|r]] eqn:E;
    simpl.
  - apply train_model_fails in E as (_ & _ & T & _). rewrite T. exact H.
  - apply train_model_succeeds in E as (ev & _ & -> & _). simpl.
    rewrite mem_set, H. apply orb_true_r.
Qed.

Lemma update_comparison_In (key : string) (r x : result) (rs : list result) :
  In x (Routes.update_comparison key r rs) ->
  x = r \/ (In x rs /\ model_key x <> key).
Proof.
  unfold Routes.update_comparison. intros H.
  eapply Permutation_in in H; [|apply sort_perm].
  apply in_app_iff in H as [H|[H|[]]]; [right|left; congruence].
  apply filter_In in H as [H1 H2]. split; [exact H1|].
  intros Heq. rewrite Heq, String.eqb_refl in H2. discriminate.
Qed.

Lemma run_op_ranking_cached (o : op) (s : pystate) :
  ranking_cached s -> ranking_cached (run_op o s).
Proof.
  intros H. destruct o as [k Xtr Xte ytr yte|k t|t|k d|t k|t]; simpl.
  - intros r Hr. rewrite train_model_comparison in Hr.
    apply train_model_mem_kept, H, Hr.
  - rewrite (read_only_predict_text k t s). exact H.
  - rewrite (read_only_predict_all_models t s). exact H.
  - destruct (train_endpoint_state k d s) as [->|(Xtr & Xte & ytr & yte & Hs)];
      [exact H|].
    simpl in Hs.
    destruct (train_model k Xtr Xte ytr yte s) as [s1 [e|r]] eqn:E;
      simpl in Hs; rewrite Hs.
    + pose proof (train_model_comparison k Xtr Xte ytr yte s) as C.
      pose proof (fun x => train_model_mem_kept k x Xtr Xte ytr yte s) as K.
      rewrite E in C, K. simpl in C, K.
      intros x Hx. rewrite C in Hx. apply K, H, Hx.
    + pose proof (train_model_comparison k Xtr Xte ytr yte s) as C.
      pose proof (fun x => train_model_mem_kept k x Xtr Xte ytr yte s) as K.
      rewrite E in C, K. simpl in C, K.
      apply train_model_succeeds in E as (ev & _ & -> & ->).
      intros x Hx. simpl in Hx.
      apply update_comparison_In in Hx as [->|[Hx _]].
      * simpl. rewrite mem_set, String.eqb_refl. reflexivity.
      * apply K, H. exact Hx.
  - rewrite predict_endpoint_state. exact H.
  - rewrite predict_all_endpoint_state. exact H.
Qed.
End RankingCached.

(** X4. Every identity that appears in the comparison results has a cache
    entry, whatever calls are made: a model that is ranked can be asked to
    predict. *)
Theorem X4_ranked_models_are_cached {L : Library} (ops : list op) (s : pystate) :
  ranking_cached s -> ranking_cached (run_ops ops s).
Proof.
  revert s. induction ops as [|o ops IH]; intros s H; simpl; [exact H|].
  apply IH, run_op_ranking_cached, H.
Qed.

(** A run of X4 from a fresh process. *)
Lemma X4_witness :
  let L := Toy.library Toy.NoFault in
  let s := Toy.init Toy.NoFault 1 in
  let ops := [PostTrain "tfidf_svm" "combined";
              CallTrainModel "w2v_svm" ["so very stupid"; "hello"] ["ok"] [1; 0]%Z [0]%Z;
              PostTrain "tfidf_naive_bayes" "combined";
              PostTrain "tfidf_svm" "nowhere"] in
  ranking_cached s
  /\ ranking_cached (run_ops ops s)
  /\ map model_key (_comparison_results (run_ops ops s))
     = ["tfidf_svm"; "tfidf_naive_bayes"]
  /\ PyDict.keys (_trained_models (run_ops ops s))
     = ["tfidf_svm"; "w2v_svm"; "tfidf_naive_bayes"].
Proof.
  intros L s ops.
  assert (ranking_cached s) as H by (intros r []).
  split; [exact H|]. split; [apply (X4_ranked_models_are_cached ops s H)|].
  split; vm_compute; reflexivity.
Defined.

(** ** X5: training, then predicting *)

(** X5. After a successful training call, a first one or a retraining,
    every prediction for that identity uses the extractor and the classifier
    fitted by this very call, for both feature strategies; the identity keeps
    its place in the cache if it was there and is appended if it was not. *)
Theorem X5_train_then_predict {L : Library} (key : string)
    (X_train X_test : list string) (y_train y_test : list Z)
    (s s' : pystate) (r : result) :
  train_model key X_train X_test y_train y_test s = (s', inr r) ->
  exists ev,
    evaluate key X_train X_test y_train y_test = inr ev
    /\ PyDict.keys (_trained_models s')
       = (if PyDict.mem key (_trained_models s)
          then PyDict.keys (_trained_models s)
          else PyDict.keys (_trained_models s) ++ [key])
    /\ forall text,
         predict_text key text s'
         = (s', infer (ev_extractor ev) (ev_classifier ev) key text).
Proof.
  intros H. apply train_model_succeeds in H as (ev & Hev & -> & _).
  exists ev. split; [exact Hev|]. split; [apply keys_set|].
  intros text.
  pose proof (evaluate_inv _ _ _ _ _ _ Hev) as (_ & _ & _ & _ & Hc & _).
  pose proof (config_feature_cases _ _ Hc) as Hft.
  pose proof (trained_state_lookup key ev s) as (Hget & Hx & Hm).
  apply (predict_text_infer key text _ _ (length (heap s)) _ _ Hget
           (extractor_ref_entry_of ev _ Hft) Hx Hm).
Qed.

(** A run of X5: [tfidf_svm] is trained twice, on different documents. *)
Lemma X5_witness :
  let L := Toy.library Toy.NoFault in
  let s1 := fst (train_model "tfidf_svm" ["you are awful"; "nice day"]
                   ["what a lovely cat"; "ok"] [1; 0]%Z [0; 0]%Z
                   (Toy.init Toy.NoFault 1)) in
  let out := train_model "tfidf_svm" ["so very stupid"; "hello"] ["ok"]
               [1; 0]%Z [0]%Z s1 in
  exists r ev,
    out = (fst out, inr r)
    /\ ev_extractor ev
       = TfidfVectorizer (TfidfParams 15000%N (1, 2)%nat true)
           (Some ["so very stupid"; "hello"])
    /\ PyDict.keys (_trained_models (fst out)) = ["tfidf_svm"]
    /\ predict_text "tfidf_svm" "you are so awful" (fst out)
       = (fst out,
          infer (ev_extractor ev) (ev_classifier ev) "tfidf_svm" "you are so awful").
Proof.
  intros L s1 out.
  assert (exists r, snd out = inr r) as [r Hr] by (vm_compute; eexists; reflexivity).
  assert (out = (fst out, inr r)) as Hrun
    by (rewrite <- Hr; apply surjective_pairing).
  destruct (X5_train_then_predict "tfidf_svm" _ _ _ _ s1 (fst out) r Hrun)
    as (ev & Hev & Hkeys & Hpred).
  exists r, ev. split; [exact Hrun|].
  split; [|split; [rewrite Hkeys; reflexivity|apply Hpred]].
  apply evaluate_inv in Hev as (Xtr & e & st & y_pred & Hcfg & Hex & _).
  injection Hcfg as Hcfg. rewrite <- Hcfg in Hex.
  injection Hex as Hex _ _. symmetry. exact Hex.
Defined.

(** ** X6: the list of models *)

Section AvailableModelsFacts.
Context {L : Library}.

Lemma available_models_loop_run (s : pystate) (items : list (string * config)) :
  forall result,
    available_models_loop items result s
    = (s, inr (result ++ map (info_of s) items)).
Proof.
  induction items as [|[k c] items IH]; intros result; simpl.
  - rewrite app_nil_r. reflexivity.
  - change (bind (gets _trained_models) ?f s) with (f (_trained_models s) s).
    cbv beta. rewrite IH, <- app_assoc. reflexivity.
Qed.
End AvailableModelsFacts.

(** X6. [get_available_models] changes nothing and lists the six configured
    identities in the order of [MODEL_CONFIGS]; [is_trained] is false exactly
    for the identities without a cache entry, and for those [predict_text]
    raises the not-trained [ValueError]; after a successful [train_model] the
    trained identity is listed with [is_trained] true. *)
Theorem X6_available_models {L : Library} (s : pystate) :
  exists l,
    get_available_models s = (s, inr l)
    /\ map mi_model_key l = PyDict.keys MODEL_CONFIGS
    /\ (forall info, In info l ->
          mi_is_trained info = PyDict.mem (mi_model_key info) (_trained_models s)
          /\ (mi_is_trained info = false ->
              forall text,
                predict_text (mi_model_key info) text s
                = (s, inl (not_trained (mi_model_key info)))))
    /\ (forall key X_train X_test y_train y_test s' r l' info,
          train_model key X_train X_test y_train y_test s = (s', inr r) ->
          get_available_models s' = (s', inr l') ->
          In info l' -> mi_model_key info = key -> mi_is_trained info = true).
Proof.
  exists (map (info_of s) MODEL_CONFIGS).
  split; [apply (available_models_loop_run s MODEL_CONFIGS [])|].
  split; [rewrite map_map; reflexivity|]. split.
  - intros info Hin. apply in_map_iff in Hin as ([k c] & <- & _). simpl.
    split; [reflexivity|]. intros Hm text.
    apply predict_text_not_trained. unfold PyDict.mem in Hm.
    destruct (PyDict.get k (_trained_models s)); [discriminate|reflexivity].
  - intros key X_train X_test y_train y_test s' r l' info Ht Hl Hin Hk.
    unfold get_available_models in Hl.
    rewrite (available_models_loop_run s' MODEL_CONFIGS []) in Hl.
    injection Hl as <-.
    change (In info (map (info_of s') MODEL_CONFIGS)) in Hin.
    apply in_map_iff in Hin as ([k c] & <- & _). simpl in *. subst k.
    apply train_model_succeeds in Ht as (ev & _ & -> & _). simpl.
    rewrite mem_set, String.eqb_refl. reflexivity.
Qed.

(** ** X7-X9: the ranking as a whole *)

Section RankingMore.
Import Routes Ranking.
Implicit Types (r x y : result) (l rs : list result).

Lemma with_f1_head x l : with_f1 (f1_of x) (x :: l) = x :: with_f1 (f1_of x) l.
Proof.
  unfold with_f1. simpl.
  assert (Qeq_bool (f1_of x) (f1_of x) = true) as ->
    by (apply Qeq_bool_iff; reflexivity).
  reflexivity.
Qed.

Lemma with_f1_In q x l : In x (with_f1 q l) -> In x l.
Proof. unfold with_f1. intros H. apply filter_In in H. tauto. Qed.

(** A list sorted by F1 is determined by its bundles of each F1, in their
    order: a stable sort has one result. *)
Lemma sorted_classes_eq l1 : forall l2,
  sorted_desc l1 -> sorted_desc l2 ->
  (forall q, with_f1 q l1 = with_f1 q l2) ->
  l1 = l2.
Proof.
  induction l1 as [|a l1 IH]; intros [|b l2] S1 S2 H.
  - reflexivity.
  - specialize (H (f1_of b)). rewrite with_f1_head in H. discriminate.
  - specialize (H (f1_of a)). rewrite with_f1_head in H. discriminate.
  - apply StronglySorted_inv in S1 as [S1 F1].
    apply StronglySorted_inv in S2 as [S2 F2].
    assert (a = b) as <-.
    { pose proof (H (f1_of a)) as Ha. rewrite with_f1_head in Ha.
      unfold with_f1 in Ha at 2. simpl in Ha.
      destruct (Qeq_bool (f1_of b) (f1_of a)) eqn:E; [congruence|].
      exfalso.
      assert (In a l2) as Hin.
      { eapply with_f1_In. unfold with_f1. rewrite <- Ha. left. reflexivity. }
      pose proof (H (f1_of b)) as Hb. rewrite with_f1_head in Hb.
      unfold with_f1 in Hb at 1. simpl in Hb.
      assert (Qeq_bool (f1_of a) (f1_of b) = false) as E'.
      { destruct (Qeq_bool (f1_of a) (f1_of b)) eqn:E2; [|reflexivity].
        apply Qeq_bool_iff in E2. symmetry in E2. apply Qeq_bool_iff in E2.
        congruence. }
      rewrite E' in Hb.
      assert (In b l1) as Hin'.
      { eapply with_f1_In. unfold with_f1. rewrite Hb. left. reflexivity. }
      rewrite Forall_forall in F1, F2.
      apply list_elem_of_In in Hin, Hin'.
      pose proof (F2 _ Hin) as L1. pose proof (F1 _ Hin') as L2. simpl in L1, L2.
      assert (f1_of b == f1_of a)%Q as Heq by (apply Qle_antisym; assumption).
      apply Qeq_bool_iff in Heq. congruence. }
    f_equal. apply IH; [assumption|assumption|].
    intros q. specialize (H q). unfold with_f1 in *. simpl in H.
    destruct (Qeq_bool (f1_of a) q); congruence.
Qed.

Lemma latest_keys rs : forall start,
  NoDup (map model_key start) -> NoDup (map model_key (latest rs start)).
Proof.
  induction rs as [|r rs IH]; intros start H; simpl; [exact H|].
  apply IH, append_or_replace_keys, H.
Qed.

Lemma sorted_desc_head x l y :
  sorted_desc (x :: l) -> In y (x :: l) -> (f1_of y <= f1_of x)%Q.
Proof.
  intros S [<-|Hin]; [apply Qle_refl|].
  apply StronglySorted_inv in S as [_ F]. rewrite Forall_forall in F.
  apply F, list_elem_of_In, Hin.
Qed.
End RankingMore.

(** X7. After any sequence of [record] calls the comparison result set is
    exactly the stable sort by F1, best first, of the bundles in the order
    in which each identity was last recorded: sorting after every call gives
    the same list as one sort at the end. *)
Theorem X7_ranking_is_sorted_latest (rs : list result) :
  Ranking.record_all rs []
  = Routes.sort_by_f1_desc (Ranking.latest rs []).
Proof.
  apply sorted_classes_eq.
  - apply record_all_sorted. constructor.
  - apply sort_sorted.
  - intros q. rewrite with_f1_sort. apply record_all_ties. reflexivity.
Qed.

(** X8. [record] drops exactly the old bundle of the recorded identity: a
    bundle is in the set after [record r] if and only if it is [r] or it was
    in the set before and belongs to another identity. *)
Theorem X8_record_membership (r x : result) (rs : list result) :
  In x (Ranking.record r rs)
  <-> x = r \/ (In x rs /\ model_key x <> model_key r).
Proof.
  split.
  - apply update_comparison_In.
  - intros H. eapply Permutation_in; [symmetry; apply record_perm|].
    unfold Ranking.append_or_replace. apply in_app_iff.
    destruct H as [->|[Hin Hne]]; [right; left; reflexivity|left].
    apply filter_In. split; [exact Hin|].
    destruct (String.eqb (model_key x) (model_key r)) eqn:E; [|reflexivity].
    apply String.eqb_eq in E. contradiction.
Qed.

(** X9. [best] has the largest F1 of the set: after any sequence of
    [record] calls, no bundle of the set has a larger F1 than the first
    one, which [GET /results] returns as [best_model]. *)
Theorem X9_best_is_maximal (rs : list result) (x : result) :
  In x (Ranking.record_all rs []) ->
  exists b, Ranking.best (Ranking.record_all rs []) = Some b
            /\ (Routes.f1_of x <= Routes.f1_of b)%Q.
Proof.
  intros Hx.
  pose proof (record_all_sorted rs [] ltac:(constructor)) as S.
  destruct (Ranking.record_all rs []) as [|b l]; [destruct Hx|].
  exists b. split; [reflexivity|]. eapply sorted_desc_head; eauto.
Qed.

(** A run of X9: three bundles, the second with the largest F1. *)
Lemma X9_witness :
  let bundle_of key f1 :=
    Result key key "" "TF-IDF" "Svm" (Metrics 1 1 1 f1) (Timing 0 0 0 0)
      [] None 2 2 None in
  let low := bundle_of "tfidf_svm" (2500 # 10000)%Q in
  let high := bundle_of "w2v_svm" (7500 # 10000)%Q in
  let mid := bundle_of "tfidf_naive_bayes" (5000 # 10000)%Q in
  In low (Ranking.record_all [low; high; mid] [])
  /\ exists b, Ranking.best (Ranking.record_all [low; high; mid] []) = Some b
               /\ (Routes.f1_of low <= Routes.f1_of b)%Q.
Proof.
  intros bundle_of low high mid.
  assert (In low (Ranking.record_all [low; high; mid] [])) as H
    by (vm_compute; auto).
  split; [exact H|]. exact (X9_best_is_maximal [low; high; mid] low H).
Defined.

(** ** X10: the total time and the three stage times *)

(** X10. The reported total time is the rounded sum of the unrounded stage
    times, so it need not equal the sum of the three reported stage times;
    the two differ by at most 0.002 seconds. *)
Theorem X10_total_close_to_sum {L : Library} (key : string)
    (X_train X_test : list string) (y_train y_test : list Z)
    (s s' : pystate) (r : result) :
  train_model key X_train X_test y_train y_test s = (s', inr r) ->
  (Qabs (total_sec (r_timing r)
         - (feature_extraction_sec (r_timing r) + training_sec (r_timing r)
            + prediction_sec (r_timing r)))
   <= 2 # 1000)%Q.
Proof.
  intros H. apply train_model_succeeds in H as (ev & _ & _ & ->).
  unfold bundle.
  cbn [r_timing total_sec feature_extraction_sec training_sec prediction_sec].
  set (a := feat_time_of s). set (b := train_time_of s). set (c := pred_time_of s).
  pose proof (round_ndigits_error a 3) as Ea.
  pose proof (round_ndigits_error b 3) as Eb.
  pose proof (round_ndigits_error c 3) as Ec.
  pose proof (round_ndigits_error (a + b + c) 3) as Et.
  change (1 # 2 * ten_pow 3)%Q with (1 # 2000)%Q in *.
  apply Qabs_Qle_condition in Ea, Eb, Ec, Et.
  apply Qabs_Qle_condition.
  destruct Ea, Eb, Ec, Et. split; lra.
Qed.

(** A run of X10 in which the two differ: each stage takes a third of a
    second, the total is 1.000 and the stage times add up to 0.999. *)
Lemma X10_witness :
  let L := Toy.library Toy.NoFault in
  let out := train_model "tfidf_svm" ["you are awful"; "nice day"]
               ["what a lovely cat"; "ok"] [1; 0]%Z [0; 0]%Z
               (Toy.init Toy.NoFault (1 # 3)) in
  exists r,
    out = (fst out, inr r)
    /\ total_sec (r_timing r) = (1000 # 1000)%Q
    /\ feature_extraction_sec (r_timing r) = (333 # 1000)%Q
    /\ (Qabs (total_sec (r_timing r)
              - (feature_extraction_sec (r_timing r) + training_sec (r_timing r)
                 + prediction_sec (r_timing r)))
        <= 2 # 1000)%Q.
Proof.
  intros L out.
  assert (exists r, snd out = inr r) as [r Hr] by (vm_compute; eexists; reflexivity).
  assert (out = (fst out, inr r)) as Hrun
    by (rewrite <- Hr; apply surjective_pairing).
  exists r. split; [exact Hrun|].
  assert (Some (total_sec (r_timing r)) = Some (1000 # 1000)%Q) as H1.
  { transitivity (match snd out with
                  | inr r => Some (total_sec (r_timing r)) | inl _ => None end).
    - rewrite Hr. reflexivity.
    - vm_compute. reflexivity. }
  assert (Some (feature_extraction_sec (r_timing r)) = Some (333 # 1000)%Q) as H2.
  { transitivity (match snd out with
                  | inr r => Some (feature_extraction_sec (r_timing r))
                  | inl _ => None end).
    - rewrite Hr. reflexivity.
    - vm_compute. reflexivity. }
  split; [congruence|]. split; [congruence|].
  exact (X10_total_close_to_sum _ _ _ _ _ _ _ _ Hrun).
Defined.

(** ** X11: what [clean_text] returns *)

Section CleanText.
Import PyStr.
Context {L : Library}.
Implicit Types (l : list N) (c : N).

(** ASCII text is its own sequence of code points. *)
Lemma points_of_points l :
  Forall (fun c => (c < 128)%N) l -> points (of_points l) = l.
Proof.
  unfold points, of_points. rewrite list_ascii_of_string_of_list_ascii.
  induction 1 as [|c l Hc _ IH]; [reflexivity|].
  unfold encode. cbn [flat_map]. fold (encode l). unfold encode1.
  assert ((c <? 128)%N = true) as -> by (apply N.ltb_lt; exact Hc).
  cbn [app decode].
  rewrite N_ascii_embedding by lia.
  assert ((c <? 192)%N = true) as -> by (apply N.ltb_lt; lia).
  rewrite IH. reflexivity.
Qed.

Lemma az_or_space_ascii c : is_az c = true \/ c = SP -> (c < 128)%N.
Proof.
  unfold is_az, SP. intros [H| ->]; [|lia].
  apply andb_true_iff in H as [_ H]. apply N.leb_le in H. lia.
Qed.

Lemma collapse_ws_chars l : forall b,
  Forall (fun c => is_az c || unicode_isspace c = true) l ->
  Forall (fun c => is_az c = true \/ c = SP) (collapse_ws b l).
Proof.
  induction l as [|c l IH]; intros b H; simpl; [constructor|].
  apply Forall_cons in H as [Hc H].
  destruct (unicode_isspace c) eqn:Es.
  - destruct b; [apply IH, H|]. constructor; [right; reflexivity|apply IH, H].
  - constructor; [|apply IH, H]. left. rewrite orb_false_r in Hc. exact Hc.
Qed.

(** After a space was emitted ([b] true) the output does not start with a
    space; in any case it has no two spaces in a row. *)
Lemma collapse_ws_spaced l : forall b,
  unicode_isspace SP = true ->
  single_spaced (collapse_ws b l) = true
  /\ (b = true -> forall c l', collapse_ws b l = c :: l' -> N.eqb c SP = false).
Proof.
  intros b Hsp. revert b.
  induction l as [|c l IH]; intros b; simpl.
  - split; [reflexivity|]. intros _ c l' H. discriminate.
  - destruct (unicode_isspace c) eqn:Es.
    + destruct b.
      * destruct (IH true) as [S1 S2]. split; [exact S1|]. intros _. apply S2.
        reflexivity.
      * destruct (IH true) as [S1 S2]. split; [|discriminate].
        destruct (collapse_ws true l) as [|c2 tl] eqn:E; [reflexivity|].
        change (single_spaced (SP :: c2 :: tl))
          with (negb (N.eqb SP SP && N.eqb c2 SP) && single_spaced (c2 :: tl)).
        rewrite (S2 eq_refl c2 tl eq_refl), S1. reflexivity.
    + destruct (IH false) as [S1 _].
      assert (N.eqb c SP = false) as Ec.
      { destruct (N.eqb c SP) eqn:E; [|reflexivity].
        apply N.eqb_eq in E. subst. congruence. }
      split.
      * destruct (collapse_ws false l) as [|c2 tl] eqn:E; [reflexivity|].
        change (single_spaced (c :: c2 :: tl))
          with (negb (N.eqb c SP && N.eqb c2 SP) && single_spaced (c2 :: tl)).
        rewrite Ec, S1. reflexivity.
      * intros _ c' l' H. inversion H; subst. exact Ec.
Qed.

Lemma single_spaced_app l1 l2 :
  single_spaced (l1 ++ l2) = true ->
  single_spaced l1 = true /\ single_spaced l2 = true.
Proof.
  induction l1 as [|c1 l1 IH]; simpl; [auto|].
  destruct l1 as [|c2 l1].
  - simpl. destruct l2 as [|c2 l2]; [auto|].
    intros H. apply andb_true_iff in H as [_ H]. auto.
  - change ((c2 :: l1) ++ l2) with (c2 :: (l1 ++ l2)).
    intros H. apply andb_true_iff in H as [H1 H2].
    change (c2 :: l1 ++ l2) with ((c2 :: l1) ++ l2) in H2.
    apply IH in H2 as [H2 H3]. rewrite H1, H2. auto.
Qed.

(** [lstrip] drops a prefix and leaves no whitespace in front. *)
Lemma lstrip_spec l :
  (exists pre, l = pre ++ lstrip l)
  /\ forall c l', lstrip l = c :: l' -> unicode_isspace c = false.
Proof.
  induction l as [|c l [[pre IH1] IH2]]; simpl.
  - split; [exists []; reflexivity|]. intros c l' H. discriminate.
  - destruct (unicode_isspace c) eqn:Es.
    + split; [exists (c :: pre); simpl; congruence|exact IH2].
    + split; [exists []; reflexivity|]. intros c' l' H. inversion H; subst. exact Es.
Qed.

(** [strip_list] cuts a prefix and a suffix off and leaves no whitespace at
    either end. *)
Lemma strip_list_spec l :
  (exists pre post, l = pre ++ strip_list l ++ post)
  /\ (forall c l', strip_list l = c :: l' -> unicode_isspace c = false)
  /\ (forall c, last (strip_list l) = Some c -> unicode_isspace c = false).
Proof.
  unfold strip_list.
  destruct (lstrip_spec l) as [[pre Hpre] Hhead].
  destruct (lstrip_spec (rev (lstrip l))) as [[post Hpost] Hlast].
  set (m := lstrip (rev (lstrip l))) in *.
  assert (lstrip l = rev m ++ rev post) as Hmid.
  { rewrite <- rev_app_distr, <- Hpost, rev_involutive. reflexivity. }
  split; [exists pre, (rev post); rewrite <- Hmid; exact Hpre|]. split.
  - intros c l' H. rewrite H in Hmid. simpl in Hmid. eapply Hhead. exact Hmid.
  - intros c H. destruct m as [|c0 m0] eqn:Em; [discriminate|].
    simpl in H. rewrite last_snoc in H. inversion H; subst.
    eapply Hlast. reflexivity.
Qed.

(** Stripping twice is stripping once. *)
Lemma strip_list_idempotent l : strip_list (strip_list l) = strip_list l.
Proof.
  destruct (strip_list_spec l) as (_ & Hhead & Hlast).
  set (out := strip_list l) in *.
  assert (lstrip out = out) as E1.
  { destruct out as [|c l'] eqn:E; [reflexivity|]. simpl.
    rewrite (Hhead c l' eq_refl). reflexivity. }
  unfold strip_list at 1. rewrite E1.
  assert (lstrip (rev out) = rev out) as E2.
  { destruct (rev out) as [|c l'] eqn:E; [reflexivity|]. simpl.
    assert (last out = Some c) as Hc.
    { rewrite <- (rev_involutive out), E. simpl. apply last_snoc. }
    rewrite (Hlast c Hc). reflexivity. }
  rewrite E2. apply rev_involutive.
Qed.

(** The code points of a cleaned text: the letters a to z and the space. *)
Lemma clean_text_points (text : string) :
  exists out,
    clean_text text = of_points out
    /\ points (clean_text text) = out
    /\ Forall (fun c => is_az c = true \/ c = SP) out
    /\ strip_list out = out
    /\ (unicode_isspace SP = true ->
        single_spaced out = true /\ head out <> Some SP /\ last out <> Some SP).
Proof.
  unfold clean_text.
  set (kept := keep_letters _).
  set (col := collapse_ws false kept).
  assert (Forall (fun c => is_az c = true \/ c = SP) col) as Hchars.
  { apply collapse_ws_chars. unfold kept, keep_letters.
    apply Forall_forall. intros c Hc. apply list_elem_of_In in Hc.
    apply filter_In in Hc as [_ Hc]. exact Hc. }
  destruct (strip_list_spec col) as ((pre & post & Hcut) & Hhead & Hlast).
  pose proof (strip_list_idempotent col) as Hidem.
  set (out := strip_list col) in *.
  assert (Forall (fun c => is_az c = true \/ c = SP) out) as Hout.
  { rewrite Hcut in Hchars.
    apply Forall_app in Hchars as [_ Hchars].
    apply Forall_app in Hchars as [Hchars _]. exact Hchars. }
  exists out. split; [reflexivity|]. split.
  { apply points_of_points. eapply Forall_impl; [exact Hout|].
    intros c Hc. apply az_or_space_ascii, Hc. }
  split; [exact Hout|]. split; [exact Hidem|].
  intros Hsp.
  destruct (collapse_ws_spaced kept false Hsp) as [Hs _]. fold col in Hs.
  split; [|split].
  - rewrite Hcut in Hs.
    apply single_spaced_app in Hs as [_ Hs].
    apply single_spaced_app in Hs as [Hs _]. exact Hs.
  - destruct out as [|c l'] eqn:E; simpl; [discriminate|].
    intros H. inversion H; subst. specialize (Hhead _ _ eq_refl). congruence.
  - intros H. apply Hlast in H. congruence.
Qed.

(** Stripping a cleaned text changes nothing. *)
Lemma strip_clean_text (text : string) :
  strip (clean_text text) = clean_text text.
Proof.
  destruct (clean_text_points text) as (out & E & Hp & _ & Hs & _).
  unfold strip. rewrite Hp, Hs. symmetry. exact E.
Qed.

(** The shape of a cleaned text. *)
Lemma clean_text_clean_shape (text : string) :
  unicode_isspace SP = true -> clean_shape (clean_text text).
Proof.
  intros Hsp.
  destruct (clean_text_points text) as (out & _ & Hp & Hout & _ & H).
  destruct (H Hsp) as (H1 & H2 & H3).
  unfold clean_shape. rewrite Hp. auto.
Qed.
End CleanText.

(** X11. Whatever the input, [clean_text] returns letters from a to z
    separated by single spaces, with no space at the beginning or at the
    end, the space being whitespace in Python's tables; and stripping a
    cleaned text changes nothing, so that it is blank only if it is
    empty. *)
Theorem X11_clean_text_shape {L : Library} (text : string) :
  unicode_isspace PyStr.SP = true ->
  clean_shape (clean_text text)
  /\ PyStr.strip (clean_text text) = clean_text text.
Proof.
  intros Hsp. split; [apply clean_text_clean_shape, Hsp|apply strip_clean_text].
Qed.

(** A run of X11, on a text with a mention, a link and capitals. *)
Lemma X11_witness :
  let L := Toy.library Toy.NoFault in
  unicode_isspace PyStr.SP = true
  /\ clean_text "Hey @Bob_1, LOOK at https://x.io/a?b  NOW!!" = "hey look at now"
  /\ clean_shape (clean_text "Hey @Bob_1, LOOK at https://x.io/a?b  NOW!!").
Proof.
  intros L.
  assert (unicode_isspace PyStr.SP = true) as Hsp by reflexivity.
  split; [exact Hsp|]. split; [vm_compute; reflexivity|].
  exact (proj1 (X11_clean_text_shape
                  "Hey @Bob_1, LOOK at https://x.io/a?b  NOW!!" Hsp)).
Defined.

(** ** X12-X13: the prediction endpoints *)

Section PredictionEndpoints.
Context {L : Library}.


End PredictionEndpoints.


(** X13. When [POST /predict] answers with a prediction, the state is as it
    was, the text was not blank, the identity is cached, the result carries
    the request's original text, its cleaned form and the model key, and the
    label is "Cyberbullying" exactly when the predicted class is 1. *)
Theorem X13_predict_endpoint_success {L : Library} (text key : string)
    (s s' : pystate) (p : prediction) :
  Routes.predict text key s = (s', Ok p) ->
  s' = s
  /\ PyStr.strip text <> ""
  /\ PyDict.mem key (_trained_models s) = true
  /\ p_original_text p = Some text
  /\ p_text p = clean_text text
  /\ p_model_key p = key
  /\ (p_label p = "Cyberbullying" <-> p_prediction p = 1%Z).
Proof.
  unfold Routes.predict.
  destruct (String.eqb (PyStr.strip text) "") eqn:E; [discriminate|].
  apply String.eqb_neq in E.
  destruct (predict_text key (clean_text text) s) as [s1 [e|p0]] eqn:Hp.
  { destruct (isinstance_ValueError e); discriminate. }
  intros H. inversion H; subst; clear H.
  pose proof (read_only_predict_text key (clean_text text) s) as Hs.
  rewrite Hp in Hs. simpl in Hs.
  apply predict_text_result in Hp as (entry & label & c & Hget & -> & _). simpl.
  split; [exact Hs|]. split; [exact E|].
  split; [unfold PyDict.mem; rewrite Hget; reflexivity|].
  repeat split; try reflexivity.
  - destruct (label =? 1)%Z eqn:El; [intros _; apply Z.eqb_eq, El|discriminate].
  - intros ->. reflexivity.
Qed.

(** A run of X13 on a trained model. *)
Lemma X13_witness :
  let L := Toy.library Toy.NoFault in
  let s := run_ops [PostTrain "tfidf_svm" "combined"] (Toy.init Toy.NoFault 1) in
  let out := Routes.predict "You are SO awful!! http://x.y" "tfidf_svm" s in
  exists p,
    out = (fst out, Ok p)
    /\ fst out = s
    /\ p_text p = "you are so awful"
    /\ p_original_text p = Some "You are SO awful!! http://x.y"
    /\ (p_label p = "Cyberbullying" <-> p_prediction p = 1%Z).
Proof.
  intros L s out.
  assert (exists p, snd out = Ok p) as [p Hp] by (vm_compute; eexists; reflexivity).
  assert (out = (fst out, Ok p)) as Hrun
    by (rewrite <- Hp; apply surjective_pairing).
  destruct (X13_predict_endpoint_success _ _ s (fst out) p Hrun)
    as (Hs & _ & _ & Ho & Ht & _ & Hl).
  exists p. split; [exact Hrun|]. split; [exact Hs|].
  split; [rewrite Ht; vm_compute; reflexivity|]. split; [exact Ho|exact Hl].
Defined.

(** ** X14-X15: [ml_engine]'s [train_model] *)

Lemma engine_get_model_none (name : string) :
  MlEngine._get_model name = None <->
  ~ In name ["svm"; "naive_bayes"; "logistic_regression"; "xgboost"].
Proof.
  unfold MlEngine._get_model.
  destruct (String.eqb name "svm") eqn:E1.
  { apply String.eqb_eq in E1. subst. split; [discriminate|]. intros H. exfalso. apply H. simpl. auto. }
  destruct (String.eqb name "naive_bayes") eqn:E2.
  { apply String.eqb_eq in E2. subst. split; [discriminate|]. intros H. exfalso. apply H. simpl. auto. }
  destruct (String.eqb name "logistic_regression") eqn:E3.
  { apply String.eqb_eq in E3. subst. split; [discriminate|]. intros H. exfalso. apply H. simpl. auto. }
  destruct (String.eqb name "xgboost") eqn:E4.
  { apply String.eqb_eq in E4. subst. split; [discriminate|]. intros H. exfalso. apply H. simpl. auto 6. }
  apply String.eqb_neq in E1, E2, E3, E4.
  split; [|reflexivity]. intros _ [H|[H|[H|[H|[]]]]]; congruence.
Qed.

Section EngineEdges.
Context {L : Library}.

Lemma engine_error_cases (name : string) (X_train : Matrix) (y_train : list Z)
    (X_test : Matrix) (y_test : list Z) (s : pystate) :
  match MlEngine.train_model name X_train y_train X_test y_test s with
  | (s', inr (MlEngine.Error msg)) =>
      s' = s /\ msg = ("Unknown model: " ++ name)%string
      /\ String.eqb name "ffn" = false /\ MlEngine._get_model name = None
  | _ => True
  end.
Proof.
  unfold MlEngine.train_model.
  destruct (String.eqb name "ffn") eqn:Ef.
  - unfold MlEngine._train_ffn, MlEngine.score, MlEngine.perf_counter.
    repeat step. all: exact I.
  - destruct (MlEngine._get_model name) as [model|] eqn:Em.
    + unfold MlEngine.fit_and_predict, MlEngine.score, MlEngine.perf_counter.
      repeat step. all: exact I.
    + simpl. auto.
Qed.

Lemma engine_naive_bayes_run (X_train : Matrix) (y_train : list Z)
    (X_test : Matrix) (y_test : list Z) (s : pystate) :
  match MlEngine.train_model "naive_bayes" X_train y_train X_test y_test s with
  | (_, inr (MlEngine.Report m acc f1 t l)) =>
      exists sc X_train' X_test' st preds a,
        minmax_fit_transform X_train = inr (sc, X_train')
        /\ minmax_transform sc X_test = inr X_test'
        /\ estimator_fit (MultinomialNB 1) X_train' y_train = inr st
        /\ estimator_predict st X_test' = inr preds
        /\ accuracy_score y_test preds = inr a
        /\ acc = round_ndigits a 4
  | (_, inr (MlEngine.Error _)) => False
  | _ => True
  end.
Proof.
  unfold MlEngine.train_model.
  change (String.eqb "naive_bayes" "ffn") with false. cbv iota.
  change (MlEngine._get_model "naive_bayes") with (Some (MultinomialNB 1)).
  cbv iota.
  unfold MlEngine.fit_and_predict, MlEngine.score, MlEngine.perf_counter.
  change (String.eqb "naive_bayes" "naive_bayes") with true. cbv iota.
  repeat step. all: try exact I.
  unfold ret.
  match goal with H : minmax_fit_transform _ = inr ?x |- _ => destruct x as [sc Xtr'] end.
  simpl in *.
  repeat eexists; eassumption.
Qed.
End EngineEdges.

(** X14. [ml_engine]'s [train_model] does not raise for an unknown model
    name: it returns the dictionary with the single key "error", reads no
    clock and changes nothing; and it returns that dictionary only for a name
    that is neither "ffn" nor one of the four registered models. *)
Theorem X14_engine_unknown_model {L : Library} (name : string) (X_train : Matrix)
    (y_train : list Z) (X_test : Matrix) (y_test : list Z) (s : pystate) :
  (~ In name ["ffn"; "svm"; "naive_bayes"; "logistic_regression"; "xgboost"] ->
   MlEngine.train_model name X_train y_train X_test y_test s
   = (s, inr (MlEngine.Error ("Unknown model: " ++ name))))
  /\ (forall s' msg,
        MlEngine.train_model name X_train y_train X_test y_test s
        = (s', inr (MlEngine.Error msg)) ->
        s' = s
        /\ ~ In name ["ffn"; "svm"; "naive_bayes"; "logistic_regression"; "xgboost"]).
Proof.
  split.
  - intros Hn. unfold MlEngine.train_model.
    destruct (String.eqb name "ffn") eqn:Ef.
    { apply String.eqb_eq in Ef. exfalso. apply Hn. left. auto. }
    assert (MlEngine._get_model name = None) as ->.
    { apply engine_get_model_none. intros H. apply Hn. right. exact H. }
    reflexivity.
  - intros s' msg H.
    pose proof (engine_error_cases name X_train y_train X_test y_test s) as C.
    rewrite H in C. destruct C as (-> & _ & Ef & Em).
    split; [reflexivity|]. intros [<-|Hin]; [discriminate Ef|].
    apply engine_get_model_none in Em. contradiction.
Qed.

(** A run of X14. *)
Lemma X14_witness :
  let L := Toy.library Toy.NoFault in
  let s := Toy.init Toy.NoFault 1 in
  ~ In "random_forest" ["ffn"; "svm"; "naive_bayes"; "logistic_regression"; "xgboost"]
  /\ MlEngine.train_model "random_forest" ["you are awful"] [1]%Z ["ok"] [0]%Z s
     = (s, inr (MlEngine.Error "Unknown model: random_forest")).
Proof.
  intros L s.
  assert (~ In "random_forest"
            ["ffn"; "svm"; "naive_bayes"; "logistic_regression"; "xgboost"]) as H
    by (intros [H|[H|[H|[H|[H|[]]]]]]; discriminate H).
  split; [exact H|].
  exact (proj1 (X14_engine_unknown_model "random_forest" ["you are awful"] [1]%Z
                  ["ok"] [0]%Z s) H).
Defined.

(** X15. For "naive_bayes", [ml_engine]'s [train_model] fits the min-max
    scaler on the training matrix only and transforms the test matrix with
    that fitted scaler; the classifier is trained and evaluated on the scaled
    matrices, and the call never ends in the "error" dictionary. *)
Theorem X15_engine_scaler_fit_on_train {L : Library} (X_train : Matrix)
    (y_train : list Z) (X_test : Matrix) (y_test : list Z) (s s' : pystate)
    (r : MlEngine.report) :
  MlEngine.train_model "naive_bayes" X_train y_train X_test y_test s = (s', inr r) ->
  exists m acc f1 t l sc X_train' X_test' st preds a,
    r = MlEngine.Report m acc f1 t l
    /\ minmax_fit_transform X_train = inr (sc, X_train')
    /\ minmax_transform sc X_test = inr X_test'
    /\ estimator_fit (MultinomialNB 1) X_train' y_train = inr st
    /\ estimator_predict st X_test' = inr preds
    /\ accuracy_score y_test preds = inr a
    /\ acc = round_ndigits a 4.
Proof.
  intros H.
  pose proof (engine_naive_bayes_run X_train y_train X_test y_test s) as R.
  rewrite H in R. destruct r as [msg|m acc f1 t l]; [destruct R|].
  destruct R as (sc & Xtr' & Xte' & st & preds & a & R).
  exists m, acc, f1, t, l, sc, Xtr', Xte', st, preds, a.
  split; [reflexivity|exact R].
Qed.

(** A run of X15. *)
Lemma X15_witness :
  let L := Toy.library Toy.NoFault in
  let out := MlEngine.train_model "naive_bayes" ["you are awful"; "nice day"]
               [1; 0]%Z ["what a lovely cat"; "ok"] [0; 0]%Z
               (Toy.init Toy.NoFault 1) in
  exists r sc X_train' X_test',
    out = (fst out, inr r)
    /\ minmax_fit_transform ["you are awful"; "nice day"] = inr (sc, X_train')
    /\ minmax_transform sc ["what a lovely cat"; "ok"] = inr X_test'.
Proof.
  intros L out.
  assert (exists r, snd out = inr r) as [r Hr] by (vm_compute; eexists; reflexivity).
  assert (out = (fst out, inr r)) as Hrun
    by (rewrite <- Hr; apply surjective_pairing).
  destruct (@X15_engine_scaler_fit_on_train L ["you are awful"; "nice day"]
              [1; 0]%Z ["what a lovely cat"; "ok"] [0; 0]%Z
              (Toy.init Toy.NoFault 1) (fst out) r Hrun)
    as (m & acc & f1 & t & l & sc & Xtr' & Xte' & st & preds & a & _ & H1 & H2 & _).
  exists r, sc, Xtr', Xte'. split; [exact Hrun|]. split; assumption.
Defined.

(** ** X16-X19: [data_loader] and [GET /datasets] *)

Section DataLoaderFacts.
Import DataLoader.
Context {L : Library}.

Lemma binarize_cases (l : option Q) : binarize l = 0%Z \/ binarize l = 1%Z.
Proof.
  unfold binarize. destruct l as [q|]; [|auto].
  destruct (Qle_bool (1 # 2) q); auto.
Qed.

(** The label is 1 exactly for a present value of at least one half. *)
Lemma binarize_one (l : option Q) :
  binarize l = 1%Z <-> exists q, l = Some q /\ (1 # 2 <= q)%Q.
Proof.
  unfold binarize. destruct l as [q|].
  - destruct (Qle_bool (1 # 2) q) eqn:E.
    + apply Qle_bool_iff in E. split; [eauto|reflexivity].
    + split; [discriminate|]. intros (q' & [= <-] & H).
      apply Qle_bool_iff in H. congruence.
  - split; [discriminate|]. intros (q & H & _). discriminate H.
Qed.

(** The frames are prepared row by row. *)
Lemma prepare_concat (frames : list (list raw_row)) :
  prepare frames = flat_map (fun df => prepare [df]) frames.
Proof.
  unfold prepare, nonblank, apply_clean_text, dropna, binarize_labels.
  induction frames as [|df frames IH]; [reflexivity|].
  cbn [concat flat_map].
  rewrite List.map_app, flat_map_app, List.filter_app, List.map_app, List.filter_app.
  rewrite IH. simpl. rewrite app_nil_r. reflexivity.
Qed.

Lemma In_prepare (frames : list (list raw_row)) (r : row) :
  In r (prepare frames) <->
  exists raw t,
    In raw (concat frames) /\ Text raw = Some t
    /\ PyStr.strip t <> "" /\ clean_text t <> ""
    /\ r = Row (clean_text t) (binarize (oh_label raw)).
Proof.
  unfold prepare, nonblank, apply_clean_text, dropna, binarize_labels.
  rewrite filter_In, in_map_iff. split.
  - intros [(r0 & <- & Hr0) Hne].
    apply filter_In in Hr0 as [Hr0 Hne0].
    apply in_flat_map in Hr0 as (p & Hp & Hr0).
    apply in_map_iff in Hp as (raw & <- & Hraw).
    cbn [fst snd] in Hr0. destruct (Text raw) as [t|] eqn:Et; [|destruct Hr0].
    destruct Hr0 as [<-|[]]. cbn [text label] in *.
    exists raw, t. split; [exact Hraw|]. split; [exact Et|].
    apply negb_true_iff, String.eqb_neq in Hne0, Hne.
    rewrite strip_clean_text in Hne. auto.
  - intros (raw & t & Hraw & Et & Hne0 & Hne & ->). split.
    + exists (Row t (binarize (oh_label raw))). split; [reflexivity|].
      apply filter_In. split.
      * apply in_flat_map. exists (Text raw, binarize (oh_label raw)).
        split; [apply in_map_iff; eauto|]. cbn [fst snd]. rewrite Et. left. reflexivity.
      * cbn [text]. apply negb_true_iff, String.eqb_neq. exact Hne0.
    + cbn [text]. rewrite strip_clean_text.
      apply negb_true_iff, String.eqb_neq. exact Hne.
Qed.

(** [load_dataset], one dataset identifier at a time. *)
Lemma load_dataset_cases (read_csv : string -> exn + list raw_row)
    (dataset_id : string) :
  load_dataset read_csv dataset_id =
  if String.eqb dataset_id "1" then
    ebind (read_csv DATASET_1_PATH) (fun df1 => inr (prepare [df1]))
  else if String.eqb dataset_id "2" then
    ebind (read_csv DATASET_2_PATH) (fun df2 => inr (prepare [df2]))
  else if String.eqb dataset_id "combined" then
    ebind (read_csv DATASET_1_PATH) (fun df1 =>
    ebind (read_csv DATASET_2_PATH) (fun df2 => inr (prepare [df1; df2])))
  else inl (Exn ValueError ("Unknown dataset_id: " ++ dataset_id)).
Proof.
  unfold load_dataset.
  destruct (String.eqb dataset_id "1") eqn:E1.
  { apply String.eqb_eq in E1. subst. cbn [String.eqb Ascii.eqb Bool.eqb orb andb].
    destruct (read_csv DATASET_1_PATH); reflexivity. }
  destruct (String.eqb dataset_id "2") eqn:E2.
  { apply String.eqb_eq in E2. subst. cbn [String.eqb Ascii.eqb Bool.eqb orb andb].
    destruct (read_csv DATASET_2_PATH); reflexivity. }
  destruct (String.eqb dataset_id "combined") eqn:E3.
  { cbn [orb]. destruct (read_csv DATASET_1_PATH); [reflexivity|].
    cbn [ebind app]. destruct (read_csv DATASET_2_PATH); reflexivity. }
  reflexivity.
Qed.

Lemma known_dataset_id (dataset_id : string) :
  In dataset_id ["1"; "2"; "combined"] <->
  String.eqb dataset_id "1" || String.eqb dataset_id "2"
  || String.eqb dataset_id "combined" = true.
Proof.
  rewrite !orb_true_iff, !String.eqb_eq. simpl. intuition congruence.
Qed.

(** Where the rows of a loaded dataset come from. *)
Lemma load_dataset_rows (read_csv : string -> exn + list raw_row)
    (dataset_id : string) (df : list row) (r : row) :
  load_dataset read_csv dataset_id = inr df -> In r df ->
  exists path frame raw t,
    In path [DATASET_1_PATH; DATASET_2_PATH]
    /\ read_csv path = inr frame /\ In raw frame /\ Text raw = Some t
    /\ clean_text t <> ""
    /\ r = Row (clean_text t) (binarize (oh_label raw)).
Proof.
  rewrite load_dataset_cases. intros Hl Hr.
  destruct (String.eqb dataset_id "1");
    [|destruct (String.eqb dataset_id "2");
      [|destruct (String.eqb dataset_id "combined"); [|discriminate]]].
  - destruct (read_csv DATASET_1_PATH) as [|df1] eqn:R1; [discriminate|].
    injection Hl as <-. apply In_prepare in Hr as (raw & t & Hraw & Et & _ & Hne & ->).
    simpl in Hraw. rewrite app_nil_r in Hraw.
    exists DATASET_1_PATH, df1, raw, t. simpl. auto 10.
  - destruct (read_csv DATASET_2_PATH) as [|df2] eqn:R2; [discriminate|].
    injection Hl as <-. apply In_prepare in Hr as (raw & t & Hraw & Et & _ & Hne & ->).
    simpl in Hraw. rewrite app_nil_r in Hraw.
    exists DATASET_2_PATH, df2, raw, t. simpl. auto 10.
  - destruct (read_csv DATASET_1_PATH) as [|df1] eqn:R1; [discriminate|].
    destruct (read_csv DATASET_2_PATH) as [|df2] eqn:R2; [discriminate|].
    injection Hl as <-. apply In_prepare in Hr as (raw & t & Hraw & Et & _ & Hne & ->).
    simpl in Hraw. rewrite app_nil_r in Hraw. apply in_app_or in Hraw as [Hraw|Hraw].
    + exists DATASET_1_PATH, df1, raw, t. simpl. auto 10.
    + exists DATASET_2_PATH, df2, raw, t. simpl. auto 10.
Qed.

Lemma label_sum_app (a b : list row) :
  label_sum (a ++ b) = (label_sum a + label_sum b)%Z.
Proof. induction a as [|r a IH]; simpl; [reflexivity|]. rewrite IH. lia. Qed.

Lemma label_sum_bounds (df : list row) :
  (forall r, In r df -> label r = 0%Z \/ label r = 1%Z) ->
  (0 <= label_sum df <= Z.of_nat (length df))%Z.
Proof.
  induction df as [|r df IH]; intros H; [simpl; lia|].
  cbn [label_sum fold_right length].
  fold (label_sum df).
  specialize (IH (fun r' Hr' => H r' (or_intror Hr'))).
  destruct (H r (or_introl eq_refl)) as [-> | ->]; lia.
Qed.

(** A text that is not empty has a code point. *)
Lemma points_nonempty (s : string) : s <> "" -> (1 <= length (PyStr.points s))%nat.
Proof.
  unfold PyStr.points. destruct s as [|b s]; [congruence|]. intros _.
  cbn [list_ascii_of_string PyStr.decode].
  destruct (N_of_ascii b <? 192)%N; [simpl; lia|].
  destruct (N_of_ascii b <? 224)%N.
  { destruct (list_ascii_of_string s); simpl; lia. }
  destruct (N_of_ascii b <? 240)%N.
  - destruct (list_ascii_of_string s) as [|c1 [|c2 l3]]; simpl; lia.
  - destruct (list_ascii_of_string s) as [|c1 [|c2 [|c3 l4]]]; simpl; lia.
Qed.
End DataLoaderFacts.

(** X16. [load_dataset] raises [ValueError] for an identifier other than "1",
    "2" and "combined".  When it returns, every row comes from a row of one of
    the two files whose text is present: its text is that text cleaned, is
    not empty and has no white space at either end, and its label is 1 if the
    file's label is present and at least 0.5, and 0 otherwise. *)
Theorem X16_loaded_rows {L : Library}
    (read_csv : string -> exn + list DataLoader.raw_row) (dataset_id : string) :
  (~ In dataset_id ["1"; "2"; "combined"] ->
   DataLoader.load_dataset read_csv dataset_id
   = inl (Exn ValueError ("Unknown dataset_id: " ++ dataset_id)))
  /\ (forall df r,
        DataLoader.load_dataset read_csv dataset_id = inr df -> In r df ->
        In dataset_id ["1"; "2"; "combined"]
        /\ DataLoader.text r <> ""
        /\ PyStr.strip (DataLoader.text r) = DataLoader.text r
        /\ (DataLoader.label r = 0%Z \/ DataLoader.label r = 1%Z)
        /\ exists path frame raw t,
             In path [DataLoader.DATASET_1_PATH; DataLoader.DATASET_2_PATH]
             /\ read_csv path = inr frame /\ In raw frame
             /\ DataLoader.Text raw = Some t
             /\ DataLoader.text r = clean_text t
             /\ (DataLoader.label r = 1%Z <->
                 exists q, DataLoader.oh_label raw = Some q /\ (1 # 2 <= q)%Q)).
Proof.
  split.
  - intros Hn. rewrite load_dataset_cases.
    destruct (String.eqb dataset_id "1") eqn:E1;
      [apply String.eqb_eq in E1; exfalso; apply Hn; simpl; auto|].
    destruct (String.eqb dataset_id "2") eqn:E2;
      [apply String.eqb_eq in E2; exfalso; apply Hn; simpl; auto|].
    destruct (String.eqb dataset_id "combined") eqn:E3;
      [apply String.eqb_eq in E3; exfalso; apply Hn; simpl; auto|].
    reflexivity.
  - intros df r Hl Hr.
    destruct (load_dataset_rows read_csv dataset_id df r Hl Hr)
      as (path & frame & raw & t & Hp & Hf & Hraw & Et & Hne & ->).
    cbn [DataLoader.text DataLoader.label].
    split; [|split; [exact Hne|split; [apply strip_clean_text|split;
      [apply binarize_cases|]]]].
    + apply known_dataset_id. rewrite load_dataset_cases in Hl.
      destruct (String.eqb dataset_id "1"); [reflexivity|].
      destruct (String.eqb dataset_id "2"); [reflexivity|].
      destruct (String.eqb dataset_id "combined"); [reflexivity|discriminate].
    + exists path, frame, raw, t.
      repeat (split; [assumption || reflexivity|]). apply binarize_one.
Qed.

(** A run of X16 on the two small files. *)
Lemma X16_witness :
  let L := Toy.library Toy.NoFault in
  let df := [DataLoader.Row "you are awful" 1; DataLoader.Row "nice day" 0] in
  DataLoader.load_dataset DataLoader.toy_csv "1" = inr df
  /\ PyStr.strip "you are awful" = "you are awful"
  /\ ~ In "3" ["1"; "2"; "combined"]
  /\ DataLoader.load_dataset DataLoader.toy_csv "3"
     = inl (Exn ValueError "Unknown dataset_id: 3").
Proof.
  intros L df.
  assert (DataLoader.load_dataset DataLoader.toy_csv "1" = inr df) as Hl
    by (vm_compute; reflexivity).
  assert (In (DataLoader.Row "you are awful" 1) df) as Hr by (left; reflexivity).
  assert (~ In "3" ["1"; "2"; "combined"]) as Hn
    by (intros [H|[H|[H|[]]]]; discriminate H).
  split; [exact Hl|]. split.
  - exact (proj1 (proj2 (proj2
             (proj2 (X16_loaded_rows DataLoader.toy_csv "1") df _ Hl Hr)))).
  - split; [exact Hn|].
    exact (proj1 (X16_loaded_rows DataLoader.toy_csv "3") Hn).
Defined.

(** X17. Loading "combined" gives the rows of dataset "1" followed by the
    rows of dataset "2", and fails with the exception of the first file that
    cannot be read. *)
Theorem X17_combined_is_concatenation {L : Library}
    (read_csv : string -> exn + list DataLoader.raw_row) :
  DataLoader.load_dataset read_csv "combined"
  = ebind (DataLoader.load_dataset read_csv "1") (fun df1 =>
    ebind (DataLoader.load_dataset read_csv "2") (fun df2 =>
    inr (df1 ++ df2))).
Proof.
  rewrite !load_dataset_cases.
  cbn [String.eqb Ascii.eqb Bool.eqb].
  destruct (read_csv DataLoader.DATASET_1_PATH) as [e|df1]; [reflexivity|].
  destruct (read_csv DataLoader.DATASET_2_PATH) as [e|df2]; [reflexivity|].
  cbn [ebind]. f_equal.
  rewrite (prepare_concat [df1; df2]). simpl. rewrite app_nil_r. reflexivity.
Qed.

(** X18. In the statistics of a dataset the bullying and safe counts add up
    to the total, and the bullying ratio is a rate: with at least one row it
    is the double quotient of the two counts rounded to four decimals, and
    for an empty dataset it is 0, without a division.  The average text
    length is taken over the loaded rows, each of which has a text of at
    least one character. *)
Theorem X18_dataset_stats {L : Library}
    (read_csv : string -> exn + list DataLoader.raw_row)
    (rounded_mean : list nat -> pyfloat)
    (dataset_id : string) (st : DataLoader.dataset_stats) :
  DataLoader.get_dataset_stats read_csv rounded_mean dataset_id = inr st ->
  DataLoader.dataset_id st = dataset_id
  /\ (DataLoader.total_samples st
      = DataLoader.bullying_samples st + DataLoader.safe_samples st)%Z
  /\ (0 <= DataLoader.bullying_samples st <= DataLoader.total_samples st)%Z
  /\ unit_interval (DataLoader.bullying_ratio st)
  /\ (DataLoader.total_samples st = 0%Z -> DataLoader.bullying_ratio st = 0%Q)
  /\ ((0 < DataLoader.total_samples st)%Z ->
      DataLoader.bullying_ratio st
      = round_ndigits
          (int_truediv (DataLoader.bullying_samples st)
             (DataLoader.total_samples st)) 4)
  /\ exists df,
       DataLoader.load_dataset read_csv dataset_id = inr df
       /\ DataLoader.total_samples st = Z.of_nat (length df)
       /\ DataLoader.avg_text_length st = rounded_mean (DataLoader.text_lengths df)
       /\ Forall (fun n => (1 <= n)%nat) (DataLoader.text_lengths df).
Proof.
  unfold DataLoader.get_dataset_stats. intros H.
  destruct (DataLoader.load_dataset read_csv dataset_id) as [e|df] eqn:Hl;
    [discriminate|].
  cbn [ebind] in H. injection H as <-.
  cbn [DataLoader.dataset_id DataLoader.total_samples DataLoader.bullying_samples
       DataLoader.safe_samples DataLoader.bullying_ratio DataLoader.avg_text_length].
  assert (forall r, In r df -> DataLoader.label r = 0%Z \/ DataLoader.label r = 1%Z)
    as Hlab.
  { intros r Hr.
    destruct (load_dataset_rows read_csv dataset_id df r Hl Hr)
      as (_ & _ & raw & t & _ & _ & _ & _ & _ & ->). apply binarize_cases. }
  assert (forall r, In r df -> DataLoader.text r <> "") as Htxt.
  { intros r Hr.
    destruct (load_dataset_rows read_csv dataset_id df r Hl Hr)
      as (_ & _ & raw & t & _ & _ & _ & _ & Hne & ->). exact Hne. }
  pose proof (label_sum_bounds df Hlab) as Hb.
  split; [reflexivity|]. split; [lia|]. split; [exact Hb|].
  split; [|split; [|split]].
  - destruct (0 <? Z.of_nat (length df))%Z eqn:Ht.
    + apply Z.ltb_lt in Ht. apply round_ndigits_unit, int_truediv_unit; assumption.
    + unfold unit_interval; lra.
  - intros ->. reflexivity.
  - intros Ht. apply Z.ltb_lt in Ht. rewrite Ht. reflexivity.
  - exists df. split; [reflexivity|]. split; [reflexivity|].
    split; [reflexivity|].
    unfold DataLoader.text_lengths. apply Forall_forall. intros n Hn.
    apply list_elem_of_In in Hn. apply in_map_iff in Hn as (r & <- & Hr).
    apply points_nonempty, Htxt, Hr.
Qed.

(** A run of X18 on the two small files. *)
Lemma X18_witness :
  let L := Toy.library Toy.NoFault in
  exists st,
    DataLoader.get_dataset_stats DataLoader.toy_csv DataLoader.toy_rounded_mean
      "combined" = inr st
    /\ DataLoader.total_samples st = 4%Z
    /\ DataLoader.bullying_ratio st = (5000 # 10000)%Q
    /\ unit_interval (DataLoader.bullying_ratio st).
Proof.
  intros L.
  assert (match DataLoader.get_dataset_stats DataLoader.toy_csv
                  DataLoader.toy_rounded_mean "combined" with
          | inr st => Some (DataLoader.total_samples st, DataLoader.bullying_ratio st)
          | inl _ => None
          end = Some (4%Z, (5000 # 10000)%Q)) as Hc by (vm_compute; reflexivity).
  destruct (DataLoader.get_dataset_stats DataLoader.toy_csv
              DataLoader.toy_rounded_mean "combined") as [e|st] eqn:Hs;
    [discriminate Hc|].
  injection Hc as Ht Hr.
  exists st. split; [reflexivity|]. split; [exact Ht|]. split; [exact Hr|].
  exact (proj1 (proj2 (proj2 (proj2
           (X18_dataset_stats DataLoader.toy_csv DataLoader.toy_rounded_mean
              "combined" st Hs))))).
Defined.

(** X19. [GET /datasets] answers with the statistics of "1", "2" and
    "combined", in this order, none of them with [nan] as average length,
    and the counts of "combined" are the sums of the counts of the other
    two.  It answers 500 with the message of a file that could not be read,
    or, both files read, the plain 500 of a body with a [nan] in it. *)
Theorem X19_datasets_endpoint {L : Library}
    (read_csv : string -> exn + list DataLoader.raw_row)
    (rounded_mean : list nat -> pyfloat) :
  match DataLoader.get_datasets read_csv rounded_mean with
  | Ok body =>
      exists s1 s2 s3,
        body = [s1; s2; s3]
        /\ DataLoader.get_dataset_stats read_csv rounded_mean "1" = inr s1
        /\ DataLoader.get_dataset_stats read_csv rounded_mean "2" = inr s2
        /\ DataLoader.get_dataset_stats read_csv rounded_mean "combined" = inr s3
        /\ (DataLoader.total_samples s3
            = DataLoader.total_samples s1 + DataLoader.total_samples s2)%Z
        /\ (DataLoader.bullying_samples s3
            = DataLoader.bullying_samples s1 + DataLoader.bullying_samples s2)%Z
        /\ (DataLoader.safe_samples s3
            = DataLoader.safe_samples s1 + DataLoader.safe_samples s2)%Z
        /\ Forall (fun st => DataLoader.avg_text_length st <> NaN) body
  | HTTPException status_code detail =>
      status_code = 500%nat
      /\ ((exists path e,
             In path [DataLoader.DATASET_1_PATH; DataLoader.DATASET_2_PATH]
             /\ read_csv path = inl e /\ detail = exn_msg e)
          \/ (detail = "Internal Server Error"
              /\ exists dataset_id st,
                   In dataset_id ["1"; "2"; "combined"]
                   /\ DataLoader.get_dataset_stats read_csv rounded_mean dataset_id
                      = inr st
                   /\ DataLoader.avg_text_length st = NaN))
  end.
Proof.
  unfold DataLoader.get_datasets, DataLoader.get_datasets_loop.
  destruct (DataLoader.get_dataset_stats read_csv rounded_mean "1")
    as [e|s1] eqn:H1.
  { cbn [ebind]. split; [reflexivity|]. left.
    unfold DataLoader.get_dataset_stats in H1. rewrite load_dataset_cases in H1.
    cbn [String.eqb Ascii.eqb Bool.eqb] in H1.
    destruct (read_csv DataLoader.DATASET_1_PATH) as [e1|df1] eqn:R1;
      [|discriminate H1].
    injection H1 as <-. exists DataLoader.DATASET_1_PATH, e1. simpl. auto. }
  destruct (DataLoader.get_dataset_stats read_csv rounded_mean "2")
    as [e|s2] eqn:H2.
  { cbn [ebind]. split; [reflexivity|]. left.
    unfold DataLoader.get_dataset_stats in H2. rewrite load_dataset_cases in H2.
    cbn [String.eqb Ascii.eqb Bool.eqb] in H2.
    destruct (read_csv DataLoader.DATASET_2_PATH) as [e2|df2] eqn:R2;
      [|discriminate H2].
    injection H2 as <-. exists DataLoader.DATASET_2_PATH, e2. simpl. auto. }
  destruct (DataLoader.get_dataset_stats read_csv rounded_mean "combined")
    as [e|s3] eqn:H3.
  { exfalso. unfold DataLoader.get_dataset_stats in H1, H2, H3.
    rewrite X17_combined_is_concatenation in H3.
    destruct (DataLoader.load_dataset read_csv "1"); [discriminate H1|].
    destruct (DataLoader.load_dataset read_csv "2"); [discriminate H2|].
    discriminate H3. }
  cbn [ebind app forallb].
  destruct (DataLoader.json_float (DataLoader.avg_text_length s1)) eqn:J1.
  2: { split; [reflexivity|]. right. split; [reflexivity|].
       exists "1", s1. split; [simpl; auto|]. split; [exact H1|].
       destruct (DataLoader.avg_text_length s1); [discriminate J1|reflexivity]. }
  destruct (DataLoader.json_float (DataLoader.avg_text_length s2)) eqn:J2.
  2: { split; [reflexivity|]. right. split; [reflexivity|].
       exists "2", s2. split; [simpl; auto|]. split; [exact H2|].
       destruct (DataLoader.avg_text_length s2); [discriminate J2|reflexivity]. }
  destruct (DataLoader.json_float (DataLoader.avg_text_length s3)) eqn:J3.
  2: { split; [reflexivity|]. right. split; [reflexivity|].
       exists "combined", s3. split; [simpl; auto|]. split; [exact H3|].
       destruct (DataLoader.avg_text_length s3); [discriminate J3|reflexivity]. }
  cbn [andb]. exists s1, s2, s3. split; [reflexivity|].
  do 3 (split; [reflexivity|]).
  assert (forall st, DataLoader.json_float (DataLoader.avg_text_length st) = true ->
                     DataLoader.avg_text_length st <> NaN) as HJ
    by (intros st J E; rewrite E in J; discriminate J).
  unfold DataLoader.get_dataset_stats in H1, H2, H3.
  rewrite X17_combined_is_concatenation in H3.
  destruct (DataLoader.load_dataset read_csv "1") as [|df1]; [discriminate H1|].
  destruct (DataLoader.load_dataset read_csv "2") as [|df2]; [discriminate H2|].
  cbn [ebind] in H1, H2, H3.
  injection H1 as <-. injection H2 as <-. injection H3 as <-.
  cbn [DataLoader.total_samples DataLoader.bullying_samples DataLoader.safe_samples].
  rewrite length_app, label_sum_app.
  split; [lia|]. split; [lia|]. split; [lia|].
  repeat constructor; apply HJ; assumption.
Qed.

(** ** X20-X22: [email_service] and the mail endpoints *)

Section EmailFacts.
Import EmailService.

(** What [GET /email/config] reports as [is_configured]. *)
Lemma configured_cases (s : email_state) :
  match get_config s with
  | Some v =>
      exists c, _email_config s = Some c
                /\ v_is_configured v
                   = str_truthy (smtp_host c) && str_truthy (sender_email c)
  | None => _email_config s = None
  end.
Proof.
  unfold get_config. destruct (_email_config s) as [c|]; [|reflexivity].
  exists c. split; reflexivity.
Qed.

Lemma smtp_seq_cases (smtp_raises : smtp_action -> option exn)
    (actions : list smtp_action) (s : email_state) :
  match smtp_seq smtp_raises actions s with
  | (s', inr _) =>
      _email_config s' = _email_config s
      /\ wire s' = wire s ++ actions
      /\ Forall (fun a => smtp_raises a = None) actions
  | (s', inl e) =>
      _email_config s' = _email_config s
      /\ exists pre a post,
           actions = pre ++ a :: post
           /\ wire s' = wire s ++ pre ++ [a]
           /\ Forall (fun a => smtp_raises a = None) pre
           /\ smtp_raises a = Some e
  end.
Proof.
  revert s. induction actions as [|a rest IH]; intros s.
  - simpl. rewrite app_nil_r. auto.
  - cbn [smtp_seq]. unfold smtp_do.
    destruct (smtp_raises a) as [e|] eqn:Ea.
    + cbn [_email_config wire]. split; [reflexivity|].
      exists [], a, rest. simpl. auto.
    + specialize (IH {| _email_config := _email_config s; wire := wire s ++ [a] |}).
      destruct (smtp_seq smtp_raises rest _) as [s' [e|u]].
      * cbn [_email_config wire] in IH. destruct IH as (Hc & pre & b & post & -> & Hw & Hp & Hb).
        split; [exact Hc|]. exists (a :: pre), b, post.
        split; [reflexivity|]. split; [rewrite Hw, <- app_assoc; reflexivity|].
        split; [constructor; assumption|exact Hb].
      * cbn [_email_config wire] in IH. destruct IH as (Hc & Hw & Hp).
        split; [exact Hc|]. split; [rewrite Hw, <- app_assoc; reflexivity|].
        constructor; assumption.
Qed.

(** Nothing asks to quit before the message is sent. *)
Lemma session_open_no_quit (c : EmailConfig) : ~ In quit (session_open c).
Proof.
  unfold session_open. destruct (use_tls c); simpl;
    intros H; repeat destruct H as [H|H]; discriminate H || exact H.
Qed.

(** How the [try] block ends: with the whole session sent, or after the
    first action that raised, or after the login with a message that could
    not be written. *)
Lemma try_send_cases (smtp_raises : smtp_action -> option exn) (mime : Type)
    (as_string : mime -> exn + string) (c : EmailConfig) (msg : mime)
    (s : email_state) :
  match try_send smtp_raises mime as_string c msg s with
  | (s', inr _) =>
      _email_config s' = _email_config s
      /\ exists text,
           as_string msg = inr text
           /\ wire s' = wire s ++ session_open c ++ session_send c text
           /\ Forall (fun a => smtp_raises a = None)
                (session_open c ++ session_send c text)
  | (s', inl e) =>
      _email_config s' = _email_config s
      /\ exists sent,
           wire s' = wire s ++ sent
           /\ ((exists a, last sent = Some a /\ smtp_raises a = Some e)
               \/ (sent = session_open c /\ as_string msg = inl e
                   /\ Forall (fun a => smtp_raises a = None) sent))
           /\ (In quit sent -> smtp_raises quit = Some e)
  end.
Proof.
  unfold try_send.
  pose proof (smtp_seq_cases smtp_raises (session_open c) s) as H1.
  destruct (smtp_seq smtp_raises (session_open c) s) as [s1 [e|u]].
  - destruct H1 as (Hc & pre & a & post & Hs & Hw & Hp & Ha).
    split; [exact Hc|]. exists (pre ++ [a]). split; [exact Hw|]. split.
    + left. exists a. rewrite last_snoc. auto.
    + intros Hq. exfalso. apply (session_open_no_quit c). rewrite Hs.
      apply in_app_or in Hq as [Hq|[<-|[]]]; apply in_or_app; simpl; auto.
  - destruct H1 as (Hc1 & Hw1 & Hp1).
    destruct (as_string msg) as [e|text] eqn:Has.
    + split; [exact Hc1|]. exists (session_open c). split; [exact Hw1|].
      split; [right; auto|].
      intros Hq. exfalso. exact (session_open_no_quit c Hq).
    + pose proof (smtp_seq_cases smtp_raises (session_send c text) s1) as H2.
      destruct (smtp_seq smtp_raises (session_send c text) s1) as [s2 [e|u2]].
      * destruct H2 as (Hc2 & pre & a & post & Hs & Hw2 & Hp2 & Ha).
        split; [congruence|]. exists (session_open c ++ pre ++ [a]).
        split; [rewrite Hw2, Hw1, <- app_assoc; reflexivity|]. split.
        -- left. exists a. rewrite app_assoc, last_snoc. auto.
        -- intros Hq. apply in_app_or in Hq as [Hq|Hq];
             [exfalso; exact (session_open_no_quit c Hq)|].
           unfold session_send in Hs.
           destruct pre as [|x [|y pre]]; cbn [app] in Hs.
           ++ injection Hs as <- _. destruct Hq as [Hq|[]]. discriminate Hq.
           ++ injection Hs as <- <- _. exact Ha.
           ++ injection Hs as _ _ Hs. destruct pre; discriminate Hs.
      * destruct H2 as (Hc2 & Hw2 & Hp2).
        split; [congruence|]. exists text. split; [reflexivity|].
        split; [rewrite Hw2, Hw1, <- app_assoc; reflexivity|].
        apply Forall_app. auto.
Qed.
End EmailFacts.

(** The ways [send_alert_email] ends. *)
Lemma send_alert_email_cases (smtp_raises : EmailService.smtp_action -> option exn)
    (format_1f : Q -> string)
    (html_body : string -> string -> string -> string -> string)
    (mime : Type) (mime_message : string -> string -> string -> exn + mime)
    (as_string : mime -> exn + string)
    (text label : string) (confidence : Q) (model_name : string)
    (s : EmailService.email_state) :
  let configured :=
    match EmailService.get_config s with
    | Some v => EmailService.v_is_configured v
    | None => false
    end in
  match EmailService.send_alert_email smtp_raises format_1f html_body mime
          mime_message as_string text label confidence model_name s with
  | (s', inl e) =>
      s' = s
      /\ ((configured = false /\ exn_cls e = ValueError)
          \/ (configured = true
              /\ exists c html,
                   EmailService._email_config s = Some c
                   /\ mime_message (EmailService.sender_email c)
                        (EmailService.recipient_email c) html = inl e))
  | (s', inr r) =>
      configured = true
      /\ EmailService._email_config s' = EmailService._email_config s
      /\ exists c html msg sent,
           EmailService._email_config s = Some c
           /\ mime_message (EmailService.sender_email c)
                (EmailService.recipient_email c) html = inr msg
           /\ EmailService.wire s' = EmailService.wire s ++ sent
           /\ if EmailService.success r
              then exists written,
                     as_string msg = inr written
                     /\ sent = EmailService.session_open c
                               ++ EmailService.session_send c written
                     /\ Forall (fun a => smtp_raises a = None) sent
              else exists e,
                     EmailService.message r
                     = ("Failed to send email: " ++ exn_msg e)%string
                     /\ ((exists a, last sent = Some a /\ smtp_raises a = Some e)
                         \/ (sent = EmailService.session_open c
                             /\ as_string msg = inl e
                             /\ Forall (fun a => smtp_raises a = None) sent))
                     /\ (In EmailService.quit sent ->
                         smtp_raises EmailService.quit = Some e)
  end.
Proof.
  intros configured. subst configured.
  unfold EmailService.send_alert_email, EmailService.get_config.
  destruct (EmailService._email_config s) as [c|] eqn:Ec; [|cbn; auto].
  cbn [EmailService.v_is_configured].
  destruct (EmailService.str_truthy (EmailService.smtp_host c)),
           (EmailService.str_truthy (EmailService.sender_email c));
    cbn [negb orb andb]; cbv zeta; auto.
  set (html := html_body _ _ _ _).
  destruct (mime_message _ _ html) as [e|msg] eqn:Hm.
  { split; [reflexivity|]. right. split; [reflexivity|]. exists c, html. auto. }
  pose proof (try_send_cases smtp_raises mime as_string c msg s) as H.
  destruct (EmailService.try_send smtp_raises mime as_string c msg s)
    as [s' [e|u]].
  - destruct H as (Hc & sent & Hw & Hcase & Hq).
    split; [reflexivity|]. split; [rewrite Hc; exact Ec|].
    exists c, html, msg, sent. split; [reflexivity|]. split; [exact Hm|].
    split; [exact Hw|]. cbn [EmailService.success EmailService.message].
    exists e. auto.
  - destruct H as (Hc & written & Ha & Hw & Hp).
    split; [reflexivity|]. split; [rewrite Hc; exact Ec|].
    exists c, html, msg,
      (EmailService.session_open c ++ EmailService.session_send c written).
    split; [reflexivity|]. split; [exact Hm|].
    split; [exact Hw|]. cbn [EmailService.success]. exists written. auto.
Qed.


(** X20. [get_config] does not tell one stored password from another: two
    settings that differ only in their non-empty passwords have the same view,
    whatever was stored before. *)
Theorem X20_password_masked (host : string) (port : Z)
    (sender password1 password2 recipient : string) (tls : bool)
    (s1 s2 : EmailService.email_state) :
  password1 <> "" -> password2 <> "" ->
  EmailService.get_config
    (EmailService.save_config
       (EmailService.Build_EmailConfig host port sender password1 recipient tls) s1)
  = EmailService.get_config
      (EmailService.save_config
         (EmailService.Build_EmailConfig host port sender password2 recipient tls) s2).
Proof.
  intros H1 H2. unfold EmailService.get_config, EmailService.save_config.
  cbn [EmailService._email_config EmailService.sender_password
       EmailService.smtp_host EmailService.smtp_port EmailService.sender_email
       EmailService.recipient_email EmailService.use_tls].
  apply String.eqb_neq in H1, H2.
  assert (EmailService.str_truthy password1 = true) as ->
    by (unfold EmailService.str_truthy; rewrite H1; reflexivity).
  assert (EmailService.str_truthy password2 = true) as ->
    by (unfold EmailService.str_truthy; rewrite H2; reflexivity).
  reflexivity.
Qed.

(** A run of X20. *)
Lemma X20_witness :
  "hunter2" <> "" /\ "wrong" <> ""
  /\ EmailService.get_config
       (EmailService.save_config (EmailService.toy_config "hunter2")
          EmailService.toy_state)
     = EmailService.get_config
         (EmailService.save_config (EmailService.toy_config "wrong")
            EmailService.toy_state).
Proof.
  assert ("hunter2" <> "") as H1 by discriminate.
  assert ("wrong" <> "") as H2 by discriminate.
  split; [exact H1|]. split; [exact H2|].
  exact (X20_password_masked "smtp.example.org" 587 "alerts@example.org"
           "hunter2" "wrong" "admin@example.org" true
           EmailService.toy_state EmailService.toy_state H1 H2).
Defined.

(** X21. [send_alert_email] raises only before anything goes to the mail
    server: the [ValueError] of missing or incomplete settings, exactly when
    [get_config] reports none or [is_configured] false, or the exception of
    building the message.  Otherwise it returns: with success after the
    whole session (connect, [starttls] under TLS, login, sendmail, quit) went
    out with no action raising and the message written after the login;
    without success, and with the exception's text in its message, after the
    first action that raised, or after the login when the message could not
    be written; nothing is sent after that, and no [quit] unless [quit]
    itself raised.  The stored settings are not changed. *)
Theorem X21_send_alert_protocol (smtp_raises : EmailService.smtp_action -> option exn)
    (format_1f : Q -> string)
    (html_body : string -> string -> string -> string -> string)
    (mime : Type) (mime_message : string -> string -> string -> exn + mime)
    (as_string : mime -> exn + string)
    (text label : string) (confidence : Q) (model_name : string)
    (s : EmailService.email_state) :
  let configured :=
    match EmailService.get_config s with
    | Some v => EmailService.v_is_configured v
    | None => false
    end in
  match EmailService.send_alert_email smtp_raises format_1f html_body mime
          mime_message as_string text label confidence model_name s with
  | (s', inl e) =>
      s' = s
      /\ ((configured = false /\ exn_cls e = ValueError)
          \/ (configured = true
              /\ exists c html,
                   EmailService._email_config s = Some c
                   /\ mime_message (EmailService.sender_email c)
                        (EmailService.recipient_email c) html = inl e))
  | (s', inr r) =>
      configured = true
      /\ EmailService._email_config s' = EmailService._email_config s
      /\ exists c html msg sent,
           EmailService._email_config s = Some c
           /\ mime_message (EmailService.sender_email c)
                (EmailService.recipient_email c) html = inr msg
           /\ EmailService.wire s' = EmailService.wire s ++ sent
           /\ if EmailService.success r
              then exists written,
                     as_string msg = inr written
                     /\ sent = EmailService.session_open c
                               ++ EmailService.session_send c written
                     /\ Forall (fun a => smtp_raises a = None) sent
              else exists e,
                     EmailService.message r
                     = ("Failed to send email: " ++ exn_msg e)%string
                     /\ ((exists a, last sent = Some a /\ smtp_raises a = Some e)
                         \/ (sent = EmailService.session_open c
                             /\ as_string msg = inl e
                             /\ Forall (fun a => smtp_raises a = None) sent))
                     /\ (In EmailService.quit sent ->
                         smtp_raises EmailService.quit = Some e)
  end.
Proof.
  exact (send_alert_email_cases smtp_raises format_1f html_body mime mime_message
           as_string text label confidence model_name s).
Qed.

(** A run of X21: the server accepts the whole session. *)
Lemma X21_witness :
  let s := EmailService.save_config (EmailService.toy_config "hunter2")
             EmailService.toy_state in
  exists s' r,
    EmailService.send_alert_email EmailService.toy_smtp EmailService.toy_format
      EmailService.toy_html _ EmailService.toy_mime EmailService.toy_as_string
      "you are awful" "Cyberbullying" (7 # 8) "tfidf_svm" s = (s', inr r)
    /\ EmailService.success r = true
    /\ EmailService._email_config s' = EmailService._email_config s.
Proof.
  intros s.
  pose proof (X21_send_alert_protocol EmailService.toy_smtp EmailService.toy_format
                EmailService.toy_html _ EmailService.toy_mime
                EmailService.toy_as_string
                "you are awful" "Cyberbullying" (7 # 8) "tfidf_svm" s) as H.
  cbv zeta in H.
  destruct (EmailService.send_alert_email _ _ _ _ _ _ _ _ _ _ s) as [s' [e|r]] eqn:E;
    [vm_compute in E; discriminate E|].
  exists s', r. split; [reflexivity|].
  split; [vm_compute in E; injection E as _ <-; reflexivity|].
  exact (proj1 (proj2 H)).
Defined.

(** X22. [POST /email/send-alert] answers 400 with nothing gone to the mail
    server when the settings are missing or incomplete; when building the
    message raises it answers 400 or 500, as the exception is a [ValueError]
    or not, again with nothing gone to the server; it answers 500 with
    "Failed to send email: ..." when an action of the session raised or the
    message could not be written after the login; and a body it returns
    always has [success] true, the session having ended with [quit]. *)
Theorem X22_send_alert_endpoint (smtp_raises : EmailService.smtp_action -> option exn)
    (format_1f : Q -> string)
    (html_body : string -> string -> string -> string -> string)
    (mime : Type) (mime_message : string -> string -> string -> exn + mime)
    (as_string : mime -> exn + string)
    (text label : string) (confidence : Q) (model_name : string)
    (s : EmailService.email_state) :
  let configured :=
    match EmailService.get_config s with
    | Some v => EmailService.v_is_configured v
    | None => false
    end in
  match EmailService.send_email_alert smtp_raises format_1f html_body mime
          mime_message as_string text label confidence model_name s with
  | (s', Ok r) =>
      configured = true /\ EmailService.success r = true
      /\ last (EmailService.wire s') = Some EmailService.quit
  | (s', HTTPException status_code detail) =>
      (configured = false /\ status_code = 400%nat /\ s' = s)
      \/ (configured = true
          /\ exists c html e,
               EmailService._email_config s = Some c
               /\ ((s' = s
                    /\ mime_message (EmailService.sender_email c)
                         (EmailService.recipient_email c) html = inl e
                    /\ detail = exn_msg e
                    /\ status_code
                       = if isinstance_ValueError e then 400%nat else 500%nat)
                   \/ (status_code = 500%nat
                       /\ detail = ("Failed to send email: " ++ exn_msg e)%string
                       /\ exists msg,
                            mime_message (EmailService.sender_email c)
                              (EmailService.recipient_email c) html = inr msg
                            /\ ((exists a, last (EmailService.wire s') = Some a
                                           /\ smtp_raises a = Some e)
                                \/ (as_string msg = inl e
                                    /\ EmailService.wire s'
                                       = EmailService.wire s
                                         ++ EmailService.session_open c)))))
  end.
Proof.
  intros configured. unfold EmailService.send_email_alert.
  pose proof (send_alert_email_cases smtp_raises format_1f html_body mime mime_message as_string
                text label confidence model_name s) as H.
  cbv zeta in H. fold configured in H.
  destruct (EmailService.send_alert_email _ _ _ _ _ _ _ _ _ _ s) as [s' [e|r]].
  - destruct H as (-> & [(Hc & He)|(Hc & c & html & Ec & Hm)]).
    + unfold isinstance_ValueError. rewrite He. left. auto.
    + destruct (isinstance_ValueError e) eqn:Hv; right; split; try exact Hc;
        exists c, html, e; (split; [exact Ec|]); left; rewrite ?Hv; auto.
  - destruct H as (Hc & Hcfg & c & html & msg & sent & Ec & Hm & Hw & H).
    destruct (EmailService.success r) eqn:Hs; cbn [negb].
    + destruct H as (written & Ha & -> & _). split; [exact Hc|]. split; [exact Hs|].
      rewrite Hw. unfold EmailService.session_send.
      change [EmailService.sendmail (EmailService.sender_email c)
                (EmailService.recipient_email c) written; EmailService.quit]
        with ([EmailService.sendmail (EmailService.sender_email c)
                 (EmailService.recipient_email c) written] ++ [EmailService.quit]).
      rewrite !app_assoc. apply last_snoc.
    + destruct H as (e & Hmsg & Hcase & _).
      right. split; [exact Hc|]. exists c, html, e. split; [exact Ec|]. right.
      split; [reflexivity|]. split; [exact Hmsg|]. exists msg. split; [exact Hm|].
      destruct Hcase as [(a & Hl & Ha)|(-> & Ha & _)].
      * left. exists a. split; [|exact Ha].
        rewrite Hw. destruct sent as [|x sent]; [discriminate Hl|].
        rewrite last_app. rewrite Hl. reflexivity.
      * right. auto.
Qed.

(** A run of X22: the recipient has a line break in it, the server accepts
    the login, the message cannot be written, and the answer is 500 with
    nothing sent after the login. *)
Lemma X22_witness :
  let c := {| EmailService.smtp_host := "smtp.example.org";
              EmailService.smtp_port := 587;
              EmailService.sender_email := "alerts@example.org";
              EmailService.sender_password := "hunter2";
              EmailService.recipient_email := String "a" (String "010" "b");
              EmailService.use_tls := true |} in
  let s := EmailService.save_config c EmailService.toy_state in
  exists s' detail,
    EmailService.send_email_alert EmailService.toy_smtp EmailService.toy_format
      EmailService.toy_html _ EmailService.toy_mime EmailService.toy_as_string
      "you are awful" "Cyberbullying" (7 # 8) "tfidf_svm" s
    = (s', HTTPException 500 detail)
    /\ detail = "Failed to send email: header value appears to contain an embedded header"
    /\ last (EmailService.wire s')
       = Some (EmailService.login "alerts@example.org" "hunter2").
Proof.
  intros c s.
  pose proof (X22_send_alert_endpoint EmailService.toy_smtp EmailService.toy_format
                EmailService.toy_html _ EmailService.toy_mime
                EmailService.toy_as_string
                "you are awful" "Cyberbullying" (7 # 8) "tfidf_svm" s) as H.
  cbv zeta in H.
  destruct (EmailService.send_email_alert _ _ _ _ _ _ _ _ _ _ s)
    as [s' [r|status detail]] eqn:E; [vm_compute in E; discriminate E|].
  destruct H as [(Hc & _)|(_ & c' & html & e & Ec & H)];
    [vm_compute in Hc; discriminate Hc|].
  vm_compute in E. injection E as <- <- <-.
  eexists _, _. split; [reflexivity|]. split; reflexivity.
Defined.

(** ** X23: the loop of [POST /train-all] *)

(** X23. The training loop of [POST /train-all] never touches the ranking
    and never removes a cache entry.  When it returns, every key trained
    successfully, the results follow the keys in order, each the result of
    its key's training with the requested dataset identifier, and every key
    is cached.  When it raises, the keys before some key all trained
    successfully and are cached all the same, that key is the first whose
    training fails, and the exception raised is that of its training. *)
Theorem X23_train_all_loop {L : Library} (keys : list string)
    (X_train X_test : list string) (y_train y_test : list Z)
    (req_dataset_id : string) (results : list result) (s : pystate) :
  let out := train_all_loop keys X_train X_test y_train y_test req_dataset_id
               results s in
  let trains k := exists ev, evaluate k X_train X_test y_train y_test = inr ev in
  _comparison_results (fst out) = _comparison_results s
  /\ (forall k, PyDict.mem k (_trained_models s) = true ->
                PyDict.mem k (_trained_models (fst out)) = true)
  /\ match snd out with
     | inr rs =>
         exists new,
           rs = results ++ new
           /\ Forall2 (fun k r =>
                         exists ev ft tt pt,
                           evaluate k X_train X_test y_train y_test = inr ev
                           /\ r = set_dataset_id
                                    (bundle k ev ft tt pt (length y_train)
                                       (length y_test)) req_dataset_id)
                keys new
           /\ map model_key rs = map model_key results ++ keys
           /\ (forall k, In k keys ->
                         PyDict.mem k (_trained_models (fst out)) = true)
           /\ (forall r, In r new -> dataset_id r = Some req_dataset_id)
     | inl e =>
         exists done k rest,
           keys = done ++ k :: rest
           /\ Forall trains done
           /\ evaluate k X_train X_test y_train y_test = inl e
           /\ (forall k', In k' done ->
                          PyDict.mem k' (_trained_models (fst out)) = true)
     end.
Proof.
  cbv zeta. revert results s. induction keys as [|key rest IH]; intros results s.
  - cbn [train_all_loop ret fst snd].
    split; [reflexivity|]. split; [auto|]. exists [].
    rewrite !app_nil_r.
    split; [reflexivity|]. split; [constructor|]. split; [reflexivity|].
    split; [intros k []|intros r []].
  - assert (train_all_loop (key :: rest) X_train X_test y_train y_test
              req_dataset_id results s
            = match train_model key X_train X_test y_train y_test s with
              | (s1, inr r) =>
                  train_all_loop rest X_train X_test y_train y_test req_dataset_id
                    (results ++ [set_dataset_id r req_dataset_id]) s1
              | (s1, inl e) => (s1, inl e)
              end) as -> by reflexivity.
    pose proof (train_model_comparison key X_train X_test y_train y_test s) as Hc.
    pose proof (fun k => train_model_mem_kept key k X_train X_test y_train y_test s)
      as Hk.
    destruct (train_model key X_train X_test y_train y_test s) as [s1 [e|r]] eqn:E;
      cbn [fst snd] in *.
    + split; [exact Hc|]. split; [exact Hk|].
      apply train_model_fails in E as [E _].
      exists [], key, rest. split; [reflexivity|]. split; [constructor|].
      split; [exact E|intros k' []].
    + specialize (IH (results ++ [set_dataset_id r req_dataset_id]) s1).
      destruct (train_all_loop rest X_train X_test y_train y_test req_dataset_id
                  (results ++ [set_dataset_id r req_dataset_id]) s1)
        as [s2 out2] eqn:E2.
      cbn [fst snd] in IH |- *. destruct IH as (IHc & IHk & IH).
      apply train_model_succeeds in E as (ev & Hev & Hs1 & Hr).
      assert (PyDict.mem key (_trained_models s1) = true) as Hkey.
      { rewrite Hs1. cbn [trained_state _trained_models].
        rewrite mem_set, String.eqb_refl. reflexivity. }
      assert (model_key r = key) as Hmk by (rewrite Hr; reflexivity).
      split; [congruence|]. split; [auto|].
      destruct out2 as [e|rs].
      * destruct IH as (done & k & rest' & -> & Hdone & Hfail & Hmem).
        exists (key :: done), k, rest'. split; [reflexivity|].
        split; [constructor; [exists ev; exact Hev|exact Hdone]|].
        split; [exact Hfail|].
        intros k' [<-|Hin]; auto.
      * destruct IH as (new & Hrs & Hall2 & Hkeys & Hall & Hds).
        exists (set_dataset_id r req_dataset_id :: new).
        split; [rewrite Hrs, <- app_assoc; reflexivity|].
        split; [constructor; [|exact Hall2]|].
        { exists ev, (feat_time_of s), (train_time_of s), (pred_time_of s).
          split; [exact Hev|]. rewrite Hr. reflexivity. }
        split; [|split].
        -- rewrite Hkeys, List.map_app, <- app_assoc.
           cbn [map app model_key set_dataset_id].
           rewrite Hmk. reflexivity.
        -- intros k [<-|Hin]; auto.
        -- intros x [<-|Hx]; [reflexivity|auto].
Qed.
